(** * Walker-constellation TLE generator ([t_utils.py]): model and properties

    The development embeds [calculate_checksum],
    [generate_random_launch_info] and [generate_constellation_tle] of
    [src/t_utils.py].  Python's [float] is IEEE 754 binary64 and is
    modelled by Rocq's primitive [float]; Python's [int] is [Z]; strings
    are [string] (the text handled here is ASCII).  The wall clock and the
    pseudo-random generator are threaded explicitly through a small
    state-and-exception monad. *)

From Stdlib Require Import ZArith List String Ascii Bool Lia Floats FinFun.
Import ListNotations.

Set Warnings "-inexact-float".

Local Open Scope string_scope.
Local Open Scope Z_scope.

(** ** Python exceptions *)

Inductive exn : Type :=
| ZeroDivisionError
| OverflowError.

Inductive result (A : Type) : Type :=
| Ok (a : A)
| Raise (e : exn).

Arguments Ok {A} a.
Arguments Raise {A} e.

(** ** Python floats *)

Module PyFloat.

(** [float(z)]: the binary64 nearest to the integer [z] (the primitive
    conversion where [z] fits a 63-bit word).  Python raises
    [OverflowError] for [|z| >= 2^1024], where this function yields an
    infinity; the integers converted in this program are loop indices and
    small literals. *)
Definition of_int (z : Z) : float :=
  if (0 <=? z) && (z <? 9223372036854775808)
  then of_uint63 (Uint63.of_Z z)
  else SF2Prim (binary_normalize prec emax z 0 false).

Definition Z2SF (z : Z) : spec_float :=
  match z with
  | Z0 => S754_zero false
  | Zpos p => S754_finite false p 0
  | Zneg p => S754_finite true p 0
  end.

(** The correctly rounded quotient of two integers. *)
Definition quotient (a b : Z) : float := SF2Prim (SF64div (Z2SF a) (Z2SF b)).

(** [a / b] on two Python ints (true division): [ZeroDivisionError] when
    [b = 0]; [OverflowError] when the rounded quotient would not be finite,
    that is when [|a / b| >= 2^1024 - 2^970]; the correctly rounded
    quotient otherwise. *)
Definition int_truediv (a b : Z) : result float :=
  if b =? 0 then Raise ZeroDivisionError
  else if (2 ^ 1024 - 2 ^ 970) * Z.abs b <=? Z.abs a then Raise OverflowError
  else Ok (quotient a b).

(** [x / y] on two Python floats: [ZeroDivisionError] on a zero divisor. *)
Definition float_truediv (x y : float) : result float :=
  if is_zero y then Raise ZeroDivisionError else Ok (x / y)%float.

(** [x ** 3] (CPython's [float_pow] with exponent [3.0]): NaN, infinities
    and zeros map to themselves; otherwise C's [pow], and [OverflowError]
    when the result is out of range.  C does not say how [pow] rounds.
    This function returns the correctly rounded cube; a C library may
    return a neighbour of it (glibc does for the cube of 6639.137, one
    unit in the last place lower).  What is stated below about the value
    of the mean motion is therefore stated for every cube within one unit
    in the last place of this one ([cube_candidate]). *)
Definition pow3 (x : float) : result float :=
  match Prim2SF x with
  | S754_finite s m e =>
      let c := SF2Prim (binary_round prec emax s (m * m * m) (3 * e)) in
      if is_infinity c then Raise OverflowError else Ok c
  | _ => Ok x
  end.

(** C's [fmod]: the exact remainder of [x / y], with the sign of [x]. *)
Definition fmod (x y : float) : float :=
  if (abs x <? abs y)%float then x
  else
    match Prim2SF x, Prim2SF y with
    | S754_nan, _ | _, S754_nan => nan
    | S754_infinity _, _ => nan
    | _, S754_zero _ => nan
    | _, S754_infinity _ => x
    | S754_zero _, _ => x
    | S754_finite sx mx ex, S754_finite _ my ey =>
        let e := Z.min ex ey in
        let r := Z.rem (Zpos mx * 2 ^ (ex - e)) (Zpos my * 2 ^ (ey - e)) in
        SF2Prim (binary_normalize prec emax (if sx then - r else r) e sx)
    end.

(** [vx % wx] on Python floats (CPython's [float_rem]) for a divisor
    [wx <> 0]; the only divisor in this program is the literal [360]. *)
Definition float_rem (vx wx : float) : float :=
  let m := fmod vx wx in
  if is_zero m then (if (wx <? 0)%float then (-0)%float else 0%float)
  else if xorb (wx <? 0)%float (m <? 0)%float then (m + wx)%float
  else m.

(** [int(x)] for a finite float: truncation toward zero. *)
Definition to_int (x : float) : Z :=
  match Prim2SF x with
  | S754_finite s m e =>
      let v := if 0 <=? e then Zpos m * 2 ^ e else Zpos m / 2 ^ (- e) in
      if s then - v else v
  | _ => 0
  end.

End PyFloat.

(** ** Python strings and format specifications

    A string stands for the Python [str] of the same characters, read as
    code points below 256.  The character classes and the case mapping
    below are Python's on ASCII text (code points below 128): that is the
    text of lines 1 and 2 of every run, whatever the arguments.  Beyond
    ASCII they are not: [str.isdigit] also accepts the superscript digits
    (on which [int] raises [ValueError]), [str.isalnum] accepts accented
    letters, and [str.upper] maps them too and can lengthen a string.  A
    statement that depends on these functions for text that comes from
    outside (a constellation name, an arbitrary line) carries the
    hypothesis [ascii_only]. *)

Module PyStr.

Definition code (c : ascii) : Z := Z.of_N (N_of_ascii c).

(** [c.isdigit()], [c.isalnum()] and [c.upper()] for an ASCII character. *)
Definition isdigit (c : ascii) : bool := (48 <=? code c) && (code c <=? 57).

Definition isalnum (c : ascii) : bool :=
  isdigit c
  || ((65 <=? code c) && (code c <=? 90))
  || ((97 <=? code c) && (code c <=? 122)).

Definition upper_char (c : ascii) : ascii :=
  if (97 <=? code c) && (code c <=? 122)
  then ascii_of_N (Z.to_N (code c - 32)) else c.

Fixpoint upper (s : string) : string :=
  match s with
  | EmptyString => EmptyString
  | String c s' => String (upper_char c) (upper s')
  end.

Fixpoint filter (f : ascii -> bool) (s : string) : string :=
  match s with
  | EmptyString => EmptyString
  | String c s' => if f c then String c (filter f s') else filter f s'
  end.

(** [int(char)] for a decimal digit, and its inverse [str(d)]. *)
Definition int_of_digit (c : ascii) : Z := code c - 48.
Definition digit_char (d : Z) : ascii := ascii_of_N (Z.to_N (48 + d)).

Fixpoint repeat (c : ascii) (n : nat) : string :=
  match n with
  | O => EmptyString
  | S n' => String c (repeat c n')
  end.

(** [s[:n]] *)
Fixpoint take (n : nat) (s : string) : string :=
  match n, s with
  | S n', String c s' => String c (take n' s')
  | _, _ => EmptyString
  end.

(** [s[n:]] *)
Fixpoint drop (n : nat) (s : string) : string :=
  match n, s with
  | S n', String _ s' => drop n' s'
  | _, _ => s
  end.

(** [s.ljust(n)] and the right-justifying counterpart used by numeric
    format specifications. *)
Definition ljust (n : nat) (s : string) : string :=
  s ++ repeat " " (n - String.length s).

Definition rjust (c : ascii) (n : nat) (s : string) : string :=
  repeat c (n - String.length s) ++ s.

(** Decimal digits of a non-negative integer, most significant first. *)
Fixpoint digits_aux (fuel : nat) (n : Z) (acc : string) : string :=
  match fuel with
  | O => acc
  | S fuel' =>
      let acc' := String (digit_char (n mod 10)) acc in
      if n <? 10 then acc' else digits_aux fuel' (n / 10) acc'
  end.

Definition digits (n : Z) : string :=
  digits_aux (S (Z.to_nat (Z.log2 n))) n EmptyString.

(** [str(z)] *)
Definition str (z : Z) : string :=
  if z <? 0 then String "-" (digits (- z)) else digits z.

(** [f"{z:0Wd}"]: sign first, then zeros up to the width. *)
Definition format_0d (width : nat) (z : Z) : string :=
  if z <? 0 then String "-" (rjust "0" (width - 1) (digits (- z)))
  else rjust "0" width (digits z).

(** Round-half-even of [num / den] for [num >= 0] and [den > 0]. *)
Definition round_half_even (num den : Z) : Z :=
  let q := num / den in
  let r := num mod den in
  match 2 * r ?= den with
  | Lt => q
  | Gt => q + 1
  | Eq => if Z.even q then q else q + 1
  end.

(** The digits of [|x|] in fixed notation with [p] decimals, correctly
    rounded from the exact binary value as CPython does. *)
Definition fixed (p : nat) (x : float) : string :=
  match Prim2SF x with
  | S754_nan => "nan"
  | S754_infinity _ => "inf"
  | S754_zero _ => "0." ++ repeat "0" p
  | S754_finite _ m e =>
      let scaled := Zpos m * 10 ^ Z.of_nat p in
      let n := if 0 <=? e then scaled * 2 ^ e
               else round_half_even scaled (2 ^ (- e)) in
      let ds := rjust "0" (S p) (digits n) in
      let k := (String.length ds - p)%nat in
      take k ds ++ "." ++ drop k ds
  end.

Definition sign_of (x : float) : string :=
  match Prim2SF x with
  | S754_zero true | S754_infinity true | S754_finite true _ _ => "-"
  | _ => ""
  end.

(** [f"{x:W.Pf}"]: right-justified with spaces. *)
Definition format_f (width p : nat) (x : float) : string :=
  rjust " " width (sign_of x ++ fixed p x).

(** [f"{x:0W.Pf}"]: zeros between the sign and the digits. *)
Definition format_0f (width p : nat) (x : float) : string :=
  sign_of x ++ rjust "0" (width - String.length (sign_of x)) (fixed p x).

End PyStr.

(** ** The wall clock and the random generator

    [datetime.now()] and the functions of [random] read ambient state.  A
    [world] fixes what every such call returns: [clock w i] is the value of
    the [i]-th call of [datetime.now()], [entropy w i] the raw value behind
    the [i]-th random draw; the two counters say how many calls were made. *)

Record datetime : Type := {
  year : Z;
  tm_yday : Z;
  hour : Z;
  minute : Z;
  second : Z
}.

Record world : Type := {
  clock : nat -> datetime;
  entropy : nat -> Z;
  now_calls : nat;
  draws : nat
}.

Definition M (A : Type) : Type := world -> result (A * world).

Definition ret {A : Type} (a : A) : M A := fun w => Ok (a, w).

Definition bind {A B : Type} (m : M A) (f : A -> M B) : M B :=
  fun w => match m w with
           | Ok (a, w') => f a w'
           | Raise e => Raise e
           end.

Definition lift {A : Type} (r : result A) : M A :=
  fun w => match r with
           | Ok a => Ok (a, w)
           | Raise e => Raise e
           end.

Declare Scope py_scope.
Delimit Scope py_scope with py.
Notation "x <- c1 ;; c2" := (bind c1 (fun x => c2))
  (at level 100, c1 at next level, right associativity) : py_scope.
Notation "' pat <- c1 ;; c2" := (bind c1 (fun pat => c2))
  (at level 100, pat pattern, c1 at next level, right associativity) : py_scope.

Definition datetime_now : M datetime :=
  fun w => Ok (clock w (now_calls w),
               {| clock := clock w; entropy := entropy w;
                  now_calls := S (now_calls w); draws := draws w |}).

Definition draw : M Z :=
  fun w => Ok (entropy w (draws w),
               {| clock := clock w; entropy := entropy w;
                  now_calls := now_calls w; draws := S (draws w) |}).

(** [random.randint(a, b)]: some integer of [a..b]. *)
Definition randint (a b : Z) : M Z :=
  (r <- draw ;; ret (a + r mod (b - a + 1)))%py.

(** [random.choice(seq)] on a non-empty sequence: some element of it. *)
Definition choice {A : Type} (seq : list A) (default : A) : M A :=
  (r <- draw ;; ret (nth (Z.to_nat (r mod Z.of_nat (List.length seq))) seq default))%py.

(** [list(range(lo, hi))] *)
Definition range (lo hi : Z) : list Z :=
  map (fun i => lo + Z.of_nat i) (seq 0 (Z.to_nat (hi - lo))).

(** [for i in range(stop): st = body(i, st)] *)
Fixpoint for_from {St : Type} (n : nat) (i : Z) (body : Z -> St -> M St) (st : St) : M St :=
  match n with
  | O => ret st
  | S n' => (st' <- body i st ;; for_from n' (i + 1) body st')%py
  end.

Definition for_range {St : Type} (stop : Z) (body : Z -> St -> M St) (st : St) : M St :=
  for_from (Z.to_nat stop) 0 body st.

(** ** [t_utils.py] *)

Import PyFloat PyStr.

(** [calculate_checksum], lines 8-16, on an ASCII line; there [int(char)]
    is defined for every character that [isdigit] accepts, and nothing is
    raised. *)
Fixpoint checksum_loop (chars : string) (s : Z) : Z :=
  match chars with
  | EmptyString => s
  | String char rest =>
      checksum_loop rest
        (if isdigit char then s + int_of_digit char
         else if Ascii.eqb char "-" then s + 1
         else s)
  end.

Definition calculate_checksum (line : string) : Z :=
  checksum_loop (take 68 line) 0 mod 10.

(** [generate_random_launch_info], lines 18-34. *)
Definition chr (z : Z) : string := String (ascii_of_N (Z.to_N z)) EmptyString.

Definition pieces : list string :=
  map chr (range 65 (90 + 1))
  ++ flat_map (fun i => map (fun j => chr i ++ chr j) (range 65 (90 + 1)))
              (range 65 (90 + 1)).

Definition generate_random_launch_info : M (Z * Z * string) :=
  (current_date <- datetime_now ;;
   let current_year := year current_date in
   let launch_years := range (current_year - 4) (current_year + 1) in
   launch_year <- choice launch_years 0 ;;
   launch_number <- randint 1 999 ;;
   launch_piece <- choice pieces EmptyString ;;
   ret (launch_year mod 100, launch_number, launch_piece))%py.

(** The dictionaries built by [generate_constellation_tle]. *)
Module SatData.
Record t : Type := {
  plane : Z;
  sat : Z;
  norad_id : Z;
  raan : float;
  mean_anomaly : float;
  name : string
}.
End SatData.

Module ConstellationData.
Record t : Type := {
  total_satellites : Z;
  num_planes : Z;
  sats_per_plane : Z;
  walker_F : Z;
  altitude : float;
  inclination : float;
  mean_motion : float;
  orbital_period : float;
  raan_spacing : float;
  phase_unit : float;
  epoch_year : Z;
  epoch_day : float;
  satellite_data : list SatData.t;
  base_norad_id : Z
}.
End ConstellationData.

(** The variables the two loops update. *)
Record loop_state : Type := {
  tle_lines : list string;
  sat_data : list SatData.t;
  sat_counter : Z
}.

Definition Re : float := 6378.137%float.
Definition mu : float := 398600.4418%float.
Definition np_pi : float := 0x1.921fb54442d18p+1%float.

(** Lines 58-59: the mean motion in revolutions per day. *)
Definition kepler_mean_motion (altitude : float) : result float :=
  let a := (Re + altitude)%float in
  match pow3 a with
  | Raise e => Raise e
  | Ok a3 =>
      match float_truediv mu a3 with
      | Raise e => Raise e
      | Ok q => Ok (sqrt q * of_int 86400 / (of_int 2 * np_pi))%float
      end
  end.

(** Lines 65-69. *)
Definition epoch_year_of (current_date : datetime) : Z :=
  year current_date mod 100.

Definition epoch_day_of (current_date : datetime) : float :=
  let day_of_year := tm_yday current_date in
  let hour_fraction :=
    ((of_int (hour current_date) + quotient (minute current_date) 60
      + quotient (second current_date) 3600) / of_int 24)%float in
  (of_int day_of_year + hour_fraction)%float.

(** Line 108. *)
Definition epoch_str_of (epoch_year : Z) (epoch_day : float) : string :=
  format_0d 2 epoch_year ++ format_0f 12 8 epoch_day.

(** Lines 87, 90 and 95. *)
Definition raan_of (delta_raan : float) (plane : Z) : float :=
  float_rem (of_int plane * delta_raan) (of_int 360).

Definition walker_phase_offset_of (phase_unit : float) (plane : Z) : float :=
  float_rem (of_int plane * phase_unit) (of_int 360).

Definition mean_anomaly_of (in_plane_spacing walker_phase_offset : float) (sat : Z) : float :=
  float_rem (of_int sat * in_plane_spacing + walker_phase_offset) (of_int 360).

(** Line 102, for an ASCII name. *)
Definition clean_name_of (constellation_name : string) : string :=
  upper (filter (fun c => isalnum c || Ascii.eqb c "_" || Ascii.eqb c "-")
                constellation_name).

(** Line 105. *)
Definition sat_name_of (clean_name : string) (plane sat : Z) : string :=
  clean_name ++ format_0d 3 (plane + 1) ++ "-" ++ format_0d 2 (sat + 1).

(** Lines 111-113. *)
Definition line1_fields (sat_number launch_year launch_number : Z)
    (launch_piece epoch_str : string) : string :=
  "1 " ++ format_0d 5 sat_number ++ "U " ++ format_0d 2 launch_year
  ++ format_0d 3 launch_number ++ ljust 3 launch_piece ++ " " ++ epoch_str ++ " "
  ++ " .00000000  00000+0  00000-0 0  9999".

(** Lines 116-118 and 126-128: cut or pad the fields to 68 characters and
    append the checksum digit. *)
Definition seal (fields : string) : string :=
  let body := ljust 68 (take 68 fields) in
  body ++ str (calculate_checksum body).

(** Lines 121-123. *)
Definition line2_fields (sat_number : Z) (inclination raan : float)
    (e : float) (omega : Z) (M_ n : float) : string :=
  "2 " ++ format_0d 5 sat_number ++ " " ++ format_f 8 4 inclination ++ " "
  ++ format_f 8 4 raan ++ " " ++ format_0d 7 (to_int (e * 1e7)%float) ++ " "
  ++ format_f 8 4 (of_int omega) ++ " " ++ format_f 8 4 M_ ++ " "
  ++ format_f 11 8 n ++ "    1".

(** [generate_constellation_tle], lines 36-163.  The loop bodies are given
    first; they close over the arguments and over the values computed
    before the loops. *)
Section Loops.

Variables (inclination : float) (sats_per_plane : Z) (constellation_name : string).
Variables (n : float) (epoch_year : Z) (epoch_day : float).
Variables (delta_raan phase_unit : float) (base_norad_id : Z).

Let e : float := 0%float.
Let omega : Z := 0.

(** Lines 92-143. *)
Definition sat_body (plane : Z) (raan walker_phase_offset : float)
    (sat : Z) (st : loop_state) : M loop_state :=
  (in_plane_spacing <- lift (int_truediv 360 sats_per_plane) ;;
   let M_ := mean_anomaly_of in_plane_spacing walker_phase_offset sat in
   let sat_number := base_norad_id + sat_counter st in
   '(launch_year, launch_number, launch_piece) <- generate_random_launch_info ;;
   let clean_name := clean_name_of constellation_name in
   let sat_name := sat_name_of clean_name plane sat in
   let epoch_str := epoch_str_of epoch_year epoch_day in
   let line1 :=
     seal (line1_fields sat_number launch_year launch_number launch_piece epoch_str) in
   let line2 :=
     seal (line2_fields sat_number inclination raan e omega M_ n) in
   ret {| tle_lines := tle_lines st ++ [sat_name; line1; line2];
          sat_data := sat_data st ++
            [ {| SatData.plane := plane + 1;
                 SatData.sat := sat + 1;
                 SatData.norad_id := sat_number;
                 SatData.raan := raan;
                 SatData.mean_anomaly := M_;
                 SatData.name := sat_name |} ];
          sat_counter := sat_counter st + 1 |})%py.

(** Lines 85-143. *)
Definition plane_body (plane : Z) (st : loop_state) : M loop_state :=
  let raan := raan_of delta_raan plane in
  let walker_phase_offset := walker_phase_offset_of phase_unit plane in
  for_range sats_per_plane (sat_body plane raan walker_phase_offset) st.

End Loops.

Definition generate_constellation_tle (altitude inclination : float)
    (num_planes sats_per_plane walker_F : Z) (constellation_name : string)
  : M (list string * ConstellationData.t) :=
  (n <- lift (kepler_mean_motion altitude) ;;
   current_date <- datetime_now ;;
   let epoch_year := epoch_year_of current_date in
   let epoch_day := epoch_day_of current_date in
   let total_sats := num_planes * sats_per_plane in
   delta_raan <- lift (int_truediv 360 num_planes) ;;
   phase_unit <- lift (int_truediv (walker_F * 360) total_sats) ;;
   base_norad_id <- randint 10000 90000 ;;
   st <- for_range num_planes
           (plane_body inclination sats_per_plane constellation_name
                       n epoch_year epoch_day delta_raan phase_unit base_norad_id)
           {| tle_lines := []; sat_data := []; sat_counter := 0 |} ;;
   ret (tle_lines st,
        {| ConstellationData.total_satellites := total_sats;
           ConstellationData.num_planes := num_planes;
           ConstellationData.sats_per_plane := sats_per_plane;
           ConstellationData.walker_F := walker_F;
           ConstellationData.altitude := altitude;
           ConstellationData.inclination := inclination;
           ConstellationData.mean_motion := n;
           ConstellationData.orbital_period := (of_int 1440 / n)%float;
           ConstellationData.raan_spacing := delta_raan;
           ConstellationData.phase_unit := phase_unit;
           ConstellationData.epoch_year := epoch_year;
           ConstellationData.epoch_day := epoch_day;
           ConstellationData.satellite_data := sat_data st;
           ConstellationData.base_norad_id := base_norad_id |}))%py.

(** [generate_tle_file_content], lines 350-352: ['\r\n'.join(tle_lines) + '\r\n']. *)
Definition crlf : string := String "013" (String "010" EmptyString).

Definition generate_tle_file_content (tle_lines : list string) : string :=
  String.concat crlf tle_lines ++ crlf.

(** ** [streamlit_app.py] *)

(** [generate_random_constellation_name], lines 17-29. *)
Definition prefixes : list string :=
  ["ALPHA"; "BETA"; "GAMMA"; "DELTA"; "EPSILON"; "ZETA"; "THETA"; "LAMBDA";
   "SIGMA"; "OMEGA"; "PHOENIX"; "ORION"; "VEGA"; "NOVA"; "STELLAR"; "COSMIC";
   "NEXUS"; "QUANTUM"; "PULSAR"; "NEBULA"; "ASTRO"; "CELESTIAL"; "ORBITAL"].

Definition suffixes : list string :=
  ["SAT"; "NET"; "LINK"; "GRID"; "MESH"; "CONNECT"; "COMM"; "SYSTEM";
   "CONSTELLATION"; "NETWORK"; "CLUSTER"; "ARRAY"; "FLEET"].

Definition generate_random_constellation_name : M string :=
  (prefix <- choice prefixes EmptyString ;;
   suffix <- choice suffixes EmptyString ;;
   number <- randint 1 999 ;;
   ret (prefix ++ "_" ++ suffix ++ "_" ++ str number))%py.

(** [get_random_parameters], lines 32-52.  The upper bound of the last
    draw, [min(total_sats, 500)], is at least 6, so [randint] has a range
    to draw from. *)
Definition inclinations : list float :=
  [28.5; 45.0; 53.0; 63.4; 70.0; 85.0; 97.4]%float.

Definition plane_options : list Z :=
  [6; 8; 12; 18; 24; 36; 48; 72; 96; 120; 144; 180; 216; 288].

Definition get_random_parameters : M (Z * float * Z * Z * Z) :=
  (r <- randint 40 120 ;;
   let altitude := r * 10 in
   inclination <- choice inclinations 0%float ;;
   num_planes <- choice plane_options 0 ;;
   sats_per_plane <- randint 1 20 ;;
   let total_sats := num_planes * sats_per_plane in
   walker_F <- randint 1 (Z.min total_sats 500) ;;
   ret (altitude, inclination, num_planes, sats_per_plane, walker_F))%py.

(** ** The checksum as the specification words it

    Each character has a weight: its value for a decimal digit, [1] for a
    minus sign, [0] for anything else; the checksum of a line is the sum of
    the weights of its first 68 characters, modulo 10. *)

Definition char_weight (c : ascii) : Z :=
  if isdigit c then int_of_digit c
  else if Ascii.eqb c "-" then 1
  else 0.

Fixpoint weight_sum (s : string) : Z :=
  match s with
  | EmptyString => 0
  | String c rest => char_weight c + weight_sum rest
  end.

Definition spec_checksum (line : string) : Z := weight_sum (take 68 line) mod 10.

(** ** The run in closed form

    [advance w j] is the world [j] satellites after [w]: each satellite
    reads the clock once and draws three times.  [launch_at w j] is what
    [generate_random_launch_info] returns for the [j]-th satellite after
    [w]. *)

Definition advance (w : world) (j : nat) : world :=
  {| clock := clock w; entropy := entropy w;
     now_calls := now_calls w + j; draws := draws w + 3 * j |}.

Definition launch_at (w : world) (j : nat) : Z * Z * string :=
  let current_year := year (clock w (now_calls w + j)) in
  let launch_years := range (current_year - 4) (current_year + 1) in
  let d := (draws w + 3 * j)%nat in
  (nth (Z.to_nat (entropy w d mod Z.of_nat (List.length launch_years))) launch_years 0 mod 100,
   1 + entropy w (S d) mod (999 - 1 + 1),
   nth (Z.to_nat (entropy w (S (S d)) mod Z.of_nat (List.length pieces))) pieces EmptyString).

(** The world in which the loops start: one clock reading (the epoch) and
    one draw (the NORAD base) after the call. *)
Definition loop_entry (w : world) : world :=
  {| clock := clock w; entropy := entropy w;
     now_calls := S (now_calls w); draws := S (draws w) |}.

(** The epoch a run samples, and the NORAD base it draws. *)
Definition sampled_epoch (w : world) : datetime := clock w (now_calls w).

Definition drawn_base (w : world) : Z :=
  10000 + entropy w (draws w) mod (90000 - 10000 + 1).

Section ClosedForm.

Variables (inclination : float) (sats_per_plane : Z) (constellation_name : string).
Variables (n : float) (epoch_year : Z) (epoch_day : float).
Variables (delta_raan phase_unit : float) (base_norad_id : Z).
Variable w : world.

(** The three lines and the table row of the satellite in slot [sat] of
    plane [plane] (both counted from 0) that is the [c]-th of the run. *)
Definition name_at (plane sat : Z) : string :=
  sat_name_of (clean_name_of constellation_name) plane sat.

Definition line1_at (c : nat) : string :=
  let '(launch_year, launch_number, launch_piece) := launch_at w c in
  seal (line1_fields (base_norad_id + Z.of_nat c) launch_year launch_number
                     launch_piece (epoch_str_of epoch_year epoch_day)).

Definition anomaly_at (plane sat : Z) : float :=
  mean_anomaly_of (quotient 360 sats_per_plane)
                  (walker_phase_offset_of phase_unit plane) sat.

Definition line2_at (plane sat : Z) (c : nat) : string :=
  seal (line2_fields (base_norad_id + Z.of_nat c) inclination
                     (raan_of delta_raan plane) 0%float 0
                     (anomaly_at plane sat) n).

Definition triple_at (plane sat : Z) (c : nat) : list string :=
  [name_at plane sat; line1_at c; line2_at plane sat c].

Definition record_at (plane sat : Z) (c : nat) : SatData.t :=
  {| SatData.plane := plane + 1;
     SatData.sat := sat + 1;
     SatData.norad_id := base_norad_id + Z.of_nat c;
     SatData.raan := raan_of delta_raan plane;
     SatData.mean_anomaly := anomaly_at plane sat;
     SatData.name := name_at plane sat |}.

(** Satellite number [k] of the run sits in plane [k / S], slot [k mod S]. *)
Definition plane_of (k : nat) : Z := Z.of_nat k / sats_per_plane.
Definition slot_of (k : nat) : Z := Z.of_nat k mod sats_per_plane.

Definition lines_upto (total : nat) : list string :=
  flat_map (fun k => triple_at (plane_of k) (slot_of k) k) (seq 0 total).

Definition table_upto (total : nat) : list SatData.t :=
  map (fun k => record_at (plane_of k) (slot_of k) k) (seq 0 total).

End ClosedForm.

(** What a run that raises nothing returns, given the three values computed
    before the loops. *)
Section Outcome.

Variables (altitude inclination : float) (num_planes sats_per_plane walker_F : Z).
Variable constellation_name : string.
Variables (n delta_raan phase_unit : float) (w : world).

Definition total_of : nat := (Z.to_nat num_planes * Z.to_nat sats_per_plane)%nat.

Definition lines_of : list string :=
  lines_upto inclination sats_per_plane constellation_name n
             (epoch_year_of (sampled_epoch w)) (epoch_day_of (sampled_epoch w))
             delta_raan phase_unit (drawn_base w) (loop_entry w) total_of.

Definition table_of : list SatData.t :=
  table_upto sats_per_plane constellation_name delta_raan phase_unit
             (drawn_base w) total_of.

Definition data_of : ConstellationData.t :=
  {| ConstellationData.total_satellites := num_planes * sats_per_plane;
     ConstellationData.num_planes := num_planes;
     ConstellationData.sats_per_plane := sats_per_plane;
     ConstellationData.walker_F := walker_F;
     ConstellationData.altitude := altitude;
     ConstellationData.inclination := inclination;
     ConstellationData.mean_motion := n;
     ConstellationData.orbital_period := (of_int 1440 / n)%float;
     ConstellationData.raan_spacing := delta_raan;
     ConstellationData.phase_unit := phase_unit;
     ConstellationData.epoch_year := epoch_year_of (sampled_epoch w);
     ConstellationData.epoch_day := epoch_day_of (sampled_epoch w);
     ConstellationData.satellite_data := table_of;
     ConstellationData.base_norad_id := drawn_base w |}.

End Outcome.

(** ** A sample run

    The clock advances by a minute between calls and the draws follow an
    arithmetic progression; the first draw gives the NORAD base 90000. *)

Definition demo_world : world :=
  {| clock := fun i => {| year := 2026; tm_yday := 308; hour := 12;
                          minute := 33 + Z.of_nat i; second := 20 |};
     entropy := fun i => 80000 + 7919 * Z.of_nat i;
     now_calls := 0;
     draws := 0 |}.

Definition demo_lines : list string :=
  Eval vm_compute in
    lines_of 53 3 2 "Star-Link x!" 15.054906459188034 120 60 demo_world.

Definition demo_data : ConstellationData.t :=
  data_of 550 53 3 2 1 "Star-Link x!" 15.054906459188034 120 60 demo_world.

Definition demo_final : world := advance (loop_entry demo_world) 6.

(** The same epoch and the same NORAD base, other launch draws. *)
Definition demo_world_redrawn : world :=
  {| clock := clock demo_world;
     entropy := fun i => match i with O => 80000 | _ => 123457 * Z.of_nat i + 11 end;
     now_calls := 0;
     draws := 0 |}.

(** ** A check of the RAAN table

    For [P] planes with the spacing [d], plane [p] passes when its RAAN is
    the product [p * d] itself (the reduction modulo 360 does nothing), is
    below 360, is below the RAAN of the next plane, and differs from it by
    [d] to within [1e-12] degrees. *)

Definition raan_step_ok (P : Z) (d : float) (p : Z) : bool :=
  let r := raan_of d p in
  PrimFloat.Leibniz.eqb r (of_int p * d)%float
  && (r <? 360)%float
  && (if p + 1 <? P
      then let r' := raan_of d (p + 1) in
           (r <? r')%float && (abs (r' - r - d) <=? 1e-12)%float
      else true).

Fixpoint raan_steps_ok (fuel : nat) (P : Z) (d : float) (p : Z) : bool :=
  match fuel with
  | O => true
  | S fuel' => raan_step_ok P d p && raan_steps_ok fuel' P d (p + 1)
  end.

Definition raan_table_ok (P : Z) : bool :=
  raan_steps_ok (Z.to_nat P) P (quotient 360 P) 0.

Fixpoint raan_tables_ok (fuel : nat) (P : Z) : bool :=
  match fuel with
  | O => true
  | S fuel' => raan_table_ok P && raan_tables_ok fuel' (P + 1)
  end.

(** ** A check of the mean motion over a range of altitudes

    The altitude [a] (an integer number of kilometres) passes when the
    mean motion is defined and lies between 11 and 17 revolutions a day. *)

Definition kepler_ok (a : Z) : bool :=
  match kepler_mean_motion (of_int a) with
  | Ok n => (11 <? n)%float && (n <? 17)%float
  | Raise _ => false
  end.

Fixpoint kepler_all_ok (fuel : nat) (a : Z) : bool :=
  match fuel with
  | O => true
  | S fuel' => kepler_ok a && kepler_all_ok fuel' (a + 1)
  end.

(** ** The cube as a C library may round it

    [kepler_from_cube] is the rest of line 59 once the cube is known, and
    [line2_head] what line 2 holds before the mean motion.  A cube
    candidate is the correctly rounded cube or one of its two neighbours.
    [cube_ok a] checks, for the integer altitude [a], that every candidate
    gives a mean motion between 11 and 17 with the same eleven characters
    in line 2. *)

Definition kepler_from_cube (a3 : float) : result float :=
  match float_truediv mu a3 with
  | Raise e => Raise e
  | Ok q => Ok (sqrt q * of_int 86400 / (of_int 2 * np_pi))%float
  end.

Definition within_one_ulp (r c : float) : Prop :=
  c = r \/ c = next_up r \/ c = next_down r.

Definition cube_candidate (a c : float) : Prop :=
  exists r, pow3 a = Ok r /\ within_one_ulp r c.

Definition line2_head (sat_number : Z) (inclination raan : float)
    (e : float) (omega : Z) (M_ : float) : string :=
  "2 " ++ format_0d 5 sat_number ++ " " ++ format_f 8 4 inclination ++ " "
  ++ format_f 8 4 raan ++ " " ++ format_0d 7 (to_int (e * 1e7)%float) ++ " "
  ++ format_f 8 4 (of_int omega) ++ " " ++ format_f 8 4 M_ ++ " ".

Definition cube_ok (a : Z) : bool :=
  match pow3 (Re + of_int a) with
  | Ok r =>
      match kepler_from_cube r with
      | Ok n =>
          Nat.eqb (String.length (format_f 11 8 n)) 11
          && forallb (fun c =>
                        match kepler_from_cube c with
                        | Ok n' => String.eqb (format_f 11 8 n') (format_f 11 8 n)
                                   && (11 <? n')%float && (n' <? 17)%float
                        | Raise _ => false
                        end) [r; next_up r; next_down r]
      | Raise _ => false
      end
  | Raise _ => false
  end.

Fixpoint cube_all_ok (fuel : nat) (a : Z) : bool :=
  match fuel with
  | O => true
  | S fuel' => cube_ok a && cube_all_ok fuel' (a + 1)
  end.

(** The same for 550 km, with the text and the bounds of that altitude. *)
Definition cube_550_ok : bool :=
  match pow3 (Re + of_int 550) with
  | Ok r =>
      forallb (fun c =>
                 match kepler_from_cube c with
                 | Ok n' => String.eqb (format_f 11 8 n') "15.05490646"
                            && (15.0 <? n')%float && (n' <? 15.1)%float
                 | Raise _ => false
                 end) [r; next_up r; next_down r]
  | Raise _ => false
  end.

(** ** Rounding and exact values

    [represents T D mrs]: the shift record [mrs] stands for the rational
    [T / D], its two bits telling where [T / D] lies between the mantissa
    and its successor.  [scaled x] is the value of a finite float in units
    of [2^-1074], the smallest positive binary64, so that it is an integer;
    [normal_pos x m e] says that [x] is the positive normal float
    [m * 2^e]. *)

Definition represents (T D : Z) (mrs : shr_record) : Prop :=
  0 <= shr_m mrs
  /\ shr_m mrs * D <= T < (shr_m mrs + 1) * D
  /\ match shr_r mrs, shr_s mrs with
     | false, false => T = shr_m mrs * D
     | false, true => shr_m mrs * D < T /\ 2 * T < (2 * shr_m mrs + 1) * D
     | true, false => 2 * T = (2 * shr_m mrs + 1) * D
     | true, true => (2 * shr_m mrs + 1) * D < 2 * T
     end.


Definition scaled (x : float) : Z :=
  match Prim2SF x with
  | S754_finite s m e => (if s then - Zpos m else Zpos m) * 2 ^ (e + 1074)
  | _ => 0
  end.

Definition normal_pos (x : float) (m : positive) (e : Z) : Prop :=
  Prim2SF x = S754_finite false m e
  /\ 2 ^ 52 <= Zpos m < 2 ^ 53 /\ -1074 <= e <= 971.


(** ** Character classes *)

Fixpoint all_chars (f : ascii -> bool) (s : string) : bool :=
  match s with
  | EmptyString => true
  | String c s' => f c && all_chars f s'
  end.

Definition isupper (c : ascii) : bool := (65 <=? code c) && (code c <=? 90).

Definition is_ascii (c : ascii) : bool := code c <? 128.

Definition ascii_only (s : string) : bool := all_chars is_ascii s.

(** ** Reading a decimal numeral

    The number that a string of decimal digits denotes, read with the
    per-character [int(char)] of [calculate_checksum]. *)

Fixpoint value_aux (s : string) (acc : Z) : Z :=
  match s with
  | EmptyString => acc
  | String c s' => value_aux s' (10 * acc + int_of_digit c)
  end.

Definition decimal_value (s : string) : Z := value_aux s 0.

(** ** Strings: lengths, prefixes and suffixes *)

Lemma length_append (a b : string) :
  String.length (a ++ b) = (String.length a + String.length b)%nat.
Proof. induction a as [|c a IH]; simpl; [reflexivity | now rewrite IH]. Qed.

Lemma append_assoc (a b c : string) : (a ++ b) ++ c = a ++ b ++ c.
Proof. induction a as [|x a IH]; simpl; [reflexivity | now rewrite IH]. Qed.

Lemma length_repeat (c : ascii) (n : nat) : String.length (repeat c n) = n.
Proof. induction n; simpl; congruence. Qed.

Lemma length_take (n : nat) (s : string) :
  String.length (take n s) = Nat.min n (String.length s).
Proof.
  revert s; induction n as [|n IH]; intros [|c s]; simpl; try reflexivity.
  now rewrite IH.
Qed.

Lemma length_ljust (n : nat) (s : string) :
  String.length (ljust n s) = Nat.max n (String.length s).
Proof. unfold ljust. rewrite length_append, length_repeat. lia. Qed.

Lemma length_rjust (c : ascii) (n : nat) (s : string) :
  String.length (rjust c n s) = Nat.max n (String.length s).
Proof. unfold rjust. rewrite length_append, length_repeat. lia. Qed.

Lemma length_body (fields : string) : String.length (ljust 68 (take 68 fields)) = 68%nat.
Proof. rewrite length_ljust, length_take. lia. Qed.

Lemma take_append (a b : string) (n : nat) :
  take (String.length a + n) (a ++ b) = a ++ take n b.
Proof. induction a as [|c a IH]; simpl; [reflexivity | now rewrite IH]. Qed.

Lemma take_length_append (a b : string) : take (String.length a) (a ++ b) = a.
Proof.
  induction a as [|c a IH]; simpl; [now destruct b | now rewrite IH].
Qed.

Lemma take_all (n : nat) (s : string) : (String.length s <= n)%nat -> take n s = s.
Proof.
  revert n; induction s as [|c s IH]; intros [|n] H; simpl in *;
    try reflexivity; try lia.
  now rewrite IH by lia.
Qed.

Lemma drop_length_append (a b : string) : drop (String.length a) (a ++ b) = b.
Proof. induction a as [|c a IH]; simpl; [now destruct b | exact IH]. Qed.

Lemma get_length_append (a : string) (c : ascii) (b : string) :
  String.get (String.length a) (a ++ String c b) = Some c.
Proof. induction a as [|x a IH]; simpl; [reflexivity | exact IH]. Qed.

(** ** The checksum *)

Lemma checksum_loop_weight (chars : string) (s : Z) :
  checksum_loop chars s = s + weight_sum chars.
Proof.
  revert s; induction chars as [|c rest IH]; intros s; simpl; [lia|].
  rewrite IH. unfold char_weight.
  destruct (isdigit c); [lia|]. destruct (Ascii.eqb c "-"); lia.
Qed.

Lemma calculate_checksum_spec (line : string) :
  calculate_checksum line = spec_checksum line.
Proof.
  unfold calculate_checksum, spec_checksum. now rewrite checksum_loop_weight.
Qed.

Lemma calculate_checksum_range (line : string) : 0 <= calculate_checksum line < 10.
Proof. unfold calculate_checksum. apply Z.mod_pos_bound. lia. Qed.

Lemma str_digit (d : Z) :
  0 <= d < 10 -> str d = String (digit_char d) EmptyString.
Proof.
  intros H.
  assert (E : d = 0 \/ d = 1 \/ d = 2 \/ d = 3 \/ d = 4 \/ d = 5 \/ d = 6
              \/ d = 7 \/ d = 8 \/ d = 9) by lia.
  repeat (destruct E as [E|E]; [subst d; reflexivity|]). subst d; reflexivity.
Qed.

(** What [seal] returns: 68 characters of body and the digit of their
    checksum. *)
Lemma seal_shape (fields : string) :
  let body := ljust 68 (take 68 fields) in
  seal fields = body ++ String (digit_char (spec_checksum body)) EmptyString
  /\ String.length body = 68%nat.
Proof.
  cbv zeta. split; [|apply length_body].
  unfold seal. rewrite str_digit by apply calculate_checksum_range.
  now rewrite calculate_checksum_spec.
Qed.

Lemma seal_length (fields : string) : String.length (seal fields) = 69%nat.
Proof.
  destruct (seal_shape fields) as [E L]. rewrite E, length_append, L. reflexivity.
Qed.

Lemma seal_take (fields : string) :
  take 68 (seal fields) = ljust 68 (take 68 fields).
Proof.
  destruct (seal_shape fields) as [E L]. rewrite E.
  rewrite <- L at 1. apply take_length_append.
Qed.

Lemma seal_checksum (fields : string) :
  String.get 68 (seal fields)
  = Some (digit_char (weight_sum (take 68 (seal fields)) mod 10)).
Proof.
  rewrite seal_take.
  destruct (seal_shape fields) as [E L]. rewrite E.
  rewrite <- L at 1. rewrite get_length_append.
  unfold spec_checksum. rewrite take_all by (rewrite L; lia). reflexivity.
Qed.

(** ** Lists indexed by [seq] *)

Lemma flat_map_seq_shift {A : Type} (f : nat -> list A) (a m : nat) :
  flat_map f (seq (S a) m) = flat_map (fun i => f (S i)) (seq a m).
Proof.
  rewrite <- seq_shift, !flat_map_concat_map, map_map. reflexivity.
Qed.

Lemma map_seq_shift {A : Type} (f : nat -> A) (a m : nat) :
  map f (seq (S a) m) = map (fun i => f (S i)) (seq a m).
Proof. rewrite <- seq_shift, map_map. reflexivity. Qed.

Lemma flat_map_ext_seq {A : Type} (f g : nat -> list A) (a m : nat) :
  (forall i, (a <= i < a + m)%nat -> f i = g i) ->
  flat_map f (seq a m) = flat_map g (seq a m).
Proof.
  intros H. rewrite !flat_map_concat_map. f_equal.
  apply map_ext_in. intros i Hi. apply in_seq in Hi. auto.
Qed.

Lemma map_ext_seq {A : Type} (f g : nat -> A) (a m : nat) :
  (forall i, (a <= i < a + m)%nat -> f i = g i) ->
  map f (seq a m) = map g (seq a m).
Proof.
  intros H. apply map_ext_in. intros i Hi. apply in_seq in Hi. auto.
Qed.

Lemma flat_map_seq_from {A : Type} (f : nat -> list A) (a m : nat) :
  flat_map f (seq a m) = flat_map (fun i => f (a + i)%nat) (seq 0 m).
Proof.
  revert f; induction a as [|a IH]; intros f; [reflexivity|].
  rewrite flat_map_seq_shift, IH. reflexivity.
Qed.

Lemma map_seq_from {A : Type} (f : nat -> A) (a m : nat) :
  map f (seq a m) = map (fun i => f (a + i)%nat) (seq 0 m).
Proof.
  revert f; induction a as [|a IH]; intros f; [reflexivity|].
  rewrite map_seq_shift, IH. reflexivity.
Qed.

Lemma flat_map_grid {A : Type} (g : nat -> list A) (m sn : nat) :
  flat_map (fun q => flat_map (fun i => g (q * sn + i)%nat) (seq 0 sn)) (seq 0 m)
  = flat_map g (seq 0 (m * sn)).
Proof.
  induction m as [|m IH]; [reflexivity|].
  rewrite seq_S, flat_map_app, IH. cbn [flat_map plus]. rewrite app_nil_r.
  replace (S m * sn)%nat with (m * sn + sn)%nat by lia.
  rewrite seq_app, flat_map_app. f_equal.
  symmetry. apply flat_map_seq_from.
Qed.

Lemma map_grid {A : Type} (g : nat -> A) (m sn : nat) :
  flat_map (fun q => map (fun i => g (q * sn + i)%nat) (seq 0 sn)) (seq 0 m)
  = map g (seq 0 (m * sn)).
Proof.
  induction m as [|m IH]; [reflexivity|].
  rewrite seq_S, flat_map_app, IH. cbn [flat_map plus]. rewrite app_nil_r.
  replace (S m * sn)%nat with (m * sn + sn)%nat by lia.
  rewrite seq_app, map_app. f_equal.
  symmetry. apply map_seq_from.
Qed.

(** ** Running the effects *)

Lemma advance_0 (w : world) : advance w 0 = w.
Proof.
  destruct w as [c e nc d]. unfold advance; simpl. f_equal; lia.
Qed.

Lemma launch_info_run (w : world) (j : nat) :
  generate_random_launch_info (advance w j) = Ok (launch_at w j, advance w (S j)).
Proof.
  unfold launch_at.
  cbv beta iota zeta delta
    [generate_random_launch_info bind ret datetime_now choice randint draw].
  unfold advance; cbn [clock entropy now_calls draws].
  do 3 f_equal; lia.
Qed.

(** [360 / sats_per_plane] cannot raise inside the loop. *)
Lemma spacing_defined (s : Z) : 1 <= s -> int_truediv 360 s = Ok (quotient 360 s).
Proof.
  intros H. unfold int_truediv.
  destruct (Z.eqb_spec s 0) as [->|_]; [lia|].
  assert (K : 360 < 2 ^ 1024 - 2 ^ 970) by (apply Z.ltb_lt; vm_compute; reflexivity).
  set (k := 2 ^ 1024 - 2 ^ 970) in *.
  destruct (Z.leb_spec (k * Z.abs s) (Z.abs 360)) as [L|_]; [|reflexivity].
  change (Z.abs 360) with 360 in L. nia.
Qed.

Section Run.

Variables (inclination : float) (sats_per_plane : Z) (constellation_name : string).
Variables (n : float) (epoch_year : Z) (epoch_day : float).
Variables (delta_raan phase_unit : float) (base_norad_id : Z).
Variable w : world.

Let body := sat_body inclination sats_per_plane constellation_name n
                     epoch_year epoch_day base_norad_id.
Let triple := triple_at inclination sats_per_plane constellation_name n
                        epoch_year epoch_day delta_raan phase_unit base_norad_id w.
Let record := record_at sats_per_plane constellation_name
                        delta_raan phase_unit base_norad_id.

(** One pass through the inner loop body. *)
Lemma sat_body_run (plane sat : Z) (c : nat) (st : loop_state) :
  1 <= sats_per_plane ->
  sat_counter st = Z.of_nat c ->
  body plane (raan_of delta_raan plane) (walker_phase_offset_of phase_unit plane)
       sat st (advance w c)
  = Ok ({| tle_lines := tle_lines st ++ triple plane sat c;
           sat_data := sat_data st ++ [record plane sat c];
           sat_counter := Z.of_nat (S c) |},
        advance w (S c)).
Proof.
  intros HS Hc. unfold body, sat_body.
  unfold bind at 1. unfold lift. rewrite (spacing_defined _ HS).
  unfold bind. rewrite launch_info_run.
  unfold triple, triple_at, record, record_at, line1_at, line2_at, name_at, anomaly_at.
  destruct (launch_at w c) as [[ly ln] lp].
  unfold ret. rewrite Hc. do 3 f_equal. lia.
Qed.

(** The inner loop, started at slot [s0] with [c] satellites done. *)
Lemma inner_loop_run (plane : Z) (m : nat) :
  forall (s0 c : nat) (st : loop_state),
  1 <= sats_per_plane ->
  sat_counter st = Z.of_nat c ->
  for_from m (Z.of_nat s0)
           (body plane (raan_of delta_raan plane)
                 (walker_phase_offset_of phase_unit plane))
           st (advance w c)
  = Ok ({| tle_lines := tle_lines st
             ++ flat_map (fun i => triple plane (Z.of_nat (s0 + i)) (c + i)) (seq 0 m);
           sat_data := sat_data st
             ++ map (fun i => record plane (Z.of_nat (s0 + i)) (c + i)) (seq 0 m);
           sat_counter := Z.of_nat (c + m) |},
        advance w (c + m)).
Proof.
  induction m as [|m IH]; intros s0 c st HS Hc.
  - simpl. unfold ret. rewrite !app_nil_r, !Nat.add_0_r, <- Hc.
    destruct st; reflexivity.
  - cbn [for_from]. unfold bind.
    rewrite (sat_body_run plane (Z.of_nat s0) c st HS Hc).
    replace (Z.of_nat s0 + 1) with (Z.of_nat (S s0)) by lia.
    rewrite (IH (S s0) (S c)); [|exact HS|reflexivity].
    cbn [tle_lines sat_data sat_counter].
    rewrite <- !app_assoc.
    change (seq 0 (S m)) with (0%nat :: seq 1 m).
    cbn [flat_map map]. rewrite flat_map_seq_shift, map_seq_shift.
    rewrite !Nat.add_0_r.
    replace (c + S m)%nat with (S c + m)%nat by lia.
    assert (E1 : flat_map (fun i => triple plane (Z.of_nat (S s0 + i)) (S c + i)%nat) (seq 0 m)
                 = flat_map (fun i => triple plane (Z.of_nat (s0 + S i)) (c + S i)%nat) (seq 0 m)).
    { apply flat_map_ext_seq. intros i _.
      now replace (s0 + S i)%nat with (S s0 + i)%nat by lia;
          replace (c + S i)%nat with (S c + i)%nat by lia. }
    assert (E2 : map (fun i => record plane (Z.of_nat (S s0 + i)) (S c + i)%nat) (seq 0 m)
                 = map (fun i => record plane (Z.of_nat (s0 + S i)) (c + S i)%nat) (seq 0 m)).
    { apply map_ext_seq. intros i _.
      now replace (s0 + S i)%nat with (S s0 + i)%nat by lia;
          replace (c + S i)%nat with (S c + i)%nat by lia. }
    rewrite E1, E2. reflexivity.
Qed.

Let pbody := plane_body inclination sats_per_plane constellation_name n
                        epoch_year epoch_day delta_raan phase_unit base_norad_id.
Let Sn : nat := Z.to_nat sats_per_plane.

(** One pass through the outer loop body: a whole plane. *)
Lemma plane_body_run (plane : Z) (c : nat) (st : loop_state) :
  sat_counter st = Z.of_nat c ->
  pbody plane st (advance w c)
  = Ok ({| tle_lines := tle_lines st
             ++ flat_map (fun i => triple plane (Z.of_nat i) (c + i)) (seq 0 Sn);
           sat_data := sat_data st
             ++ map (fun i => record plane (Z.of_nat i) (c + i)) (seq 0 Sn);
           sat_counter := Z.of_nat (c + Sn) |},
        advance w (c + Sn)).
Proof.
  intros Hc. unfold pbody, plane_body, for_range. fold Sn. fold body.
  destruct (Z_le_gt_dec 1 sats_per_plane) as [HS|HS].
  - exact (inner_loop_run plane Sn 0 c st HS Hc).
  - assert (E : Sn = 0%nat) by (unfold Sn; lia). rewrite E.
    simpl. unfold ret. rewrite !app_nil_r, !Nat.add_0_r, <- Hc.
    destruct st; reflexivity.
Qed.

(** The outer loop, started at plane [p0] with [c] satellites done. *)
Lemma outer_loop_run (m : nat) :
  forall (p0 c : nat) (st : loop_state),
  sat_counter st = Z.of_nat c ->
  for_from m (Z.of_nat p0) pbody st (advance w c)
  = Ok ({| tle_lines := tle_lines st
             ++ flat_map (fun q => flat_map
                   (fun i => triple (Z.of_nat (p0 + q)) (Z.of_nat i) (c + (q * Sn + i)))
                   (seq 0 Sn)) (seq 0 m);
           sat_data := sat_data st
             ++ flat_map (fun q => map
                   (fun i => record (Z.of_nat (p0 + q)) (Z.of_nat i) (c + (q * Sn + i)))
                   (seq 0 Sn)) (seq 0 m);
           sat_counter := Z.of_nat (c + m * Sn) |},
        advance w (c + m * Sn)).
Proof.
  induction m as [|m IH]; intros p0 c st Hc.
  - simpl. unfold ret. rewrite !app_nil_r, !Nat.add_0_r, <- Hc.
    destruct st; reflexivity.
  - cbn [for_from]. unfold bind.
    rewrite (plane_body_run (Z.of_nat p0) c st Hc).
    replace (Z.of_nat p0 + 1) with (Z.of_nat (S p0)) by lia.
    rewrite (IH (S p0) (c + Sn)%nat); [|reflexivity].
    cbn [tle_lines sat_data sat_counter].
    rewrite <- !app_assoc.
    change (seq 0 (S m)) with (0%nat :: seq 1 m).
    cbn [flat_map]. rewrite !flat_map_seq_shift.
    rewrite !Nat.add_0_r.
    replace (c + Sn + m * Sn)%nat with (c + S m * Sn)%nat by lia.
    assert (E1 : flat_map (fun q => flat_map
                   (fun i => triple (Z.of_nat (S p0 + q)) (Z.of_nat i) (c + Sn + (q * Sn + i))%nat)
                   (seq 0 Sn)) (seq 0 m)
                 = flat_map (fun q => flat_map
                   (fun i => triple (Z.of_nat (p0 + S q)) (Z.of_nat i) (c + (S q * Sn + i))%nat)
                   (seq 0 Sn)) (seq 0 m)).
    { apply flat_map_ext_seq. intros q _. apply flat_map_ext_seq. intros i _.
      now replace (p0 + S q)%nat with (S p0 + q)%nat by lia;
          replace (c + (S q * Sn + i))%nat with (c + Sn + (q * Sn + i))%nat by lia. }
    assert (E2 : flat_map (fun q => map
                   (fun i => record (Z.of_nat (S p0 + q)) (Z.of_nat i) (c + Sn + (q * Sn + i))%nat)
                   (seq 0 Sn)) (seq 0 m)
                 = flat_map (fun q => map
                   (fun i => record (Z.of_nat (p0 + S q)) (Z.of_nat i) (c + (S q * Sn + i))%nat)
                   (seq 0 Sn)) (seq 0 m)).
    { apply flat_map_ext_seq. intros q _. apply map_ext_seq. intros i _.
      now replace (p0 + S q)%nat with (S p0 + q)%nat by lia;
          replace (c + (S q * Sn + i))%nat with (c + Sn + (q * Sn + i))%nat by lia. }
    rewrite E1, E2. reflexivity.
Qed.

(** A satellite of plane [q], slot [i] is satellite number [q * Sn + i]. *)
Lemma plane_slot_of (q i : nat) :
  (i < Sn)%nat ->
  plane_of sats_per_plane (q * Sn + i) = Z.of_nat q
  /\ slot_of sats_per_plane (q * Sn + i) = Z.of_nat i.
Proof.
  intros Hi. unfold plane_of, slot_of.
  assert (HS : Z.of_nat Sn = sats_per_plane) by (unfold Sn in *; lia).
  rewrite Nat2Z.inj_add, Nat2Z.inj_mul, HS.
  assert (0 <= Z.of_nat i < sats_per_plane) by lia.
  split.
  - symmetry. apply (Z.div_unique_pos _ _ _ (Z.of_nat i)); lia.
  - symmetry. apply (Z.mod_unique_pos _ _ (Z.of_nat q)); lia.
Qed.

(** Both loops, from a fresh state. *)
Lemma loops_run (num_planes : Z) :
  let total := (Z.to_nat num_planes * Sn)%nat in
  for_range num_planes pbody
            {| tle_lines := []; sat_data := []; sat_counter := 0 |} w
  = Ok ({| tle_lines :=
             lines_upto inclination sats_per_plane constellation_name n
                        epoch_year epoch_day delta_raan phase_unit base_norad_id w total;
           sat_data :=
             table_upto sats_per_plane constellation_name
                        delta_raan phase_unit base_norad_id total;
           sat_counter := Z.of_nat total |},
        advance w total).
Proof.
  cbv zeta. unfold for_range.
  rewrite <- (advance_0 w) at 1.
  rewrite (outer_loop_run (Z.to_nat num_planes) 0 0); [|reflexivity].
  cbn [tle_lines sat_data app plus]. unfold lines_upto, table_upto.
  rewrite <- flat_map_grid, <- map_grid.
  match goal with
  | |- Ok ({| tle_lines := ?a; sat_data := ?b; sat_counter := _ |}, _)
       = Ok ({| tle_lines := ?a'; sat_data := ?b'; sat_counter := _ |}, _) =>
      assert (E1 : a = a'); [|assert (E2 : b = b'); [|rewrite E1, E2; reflexivity]]
  end.
  - apply flat_map_ext_seq. intros q _. apply flat_map_ext_seq. intros i Hi.
    destruct (plane_slot_of q i) as [-> ->]; [lia | reflexivity].
  - apply flat_map_ext_seq. intros q _. apply map_ext_seq. intros i Hi.
    destruct (plane_slot_of q i) as [-> ->]; [lia | reflexivity].
Qed.

End Run.

(** ** The whole run *)

Section Generate.

Variables (altitude inclination : float) (num_planes sats_per_plane walker_F : Z).
Variable constellation_name : string.
Variable w : world.

Let run := generate_constellation_tle altitude inclination num_planes
             sats_per_plane walker_F constellation_name w.

(** A run whose three divisions are defined returns, and returns this. *)
Lemma generate_returns (n delta_raan phase_unit : float) :
  kepler_mean_motion altitude = Ok n ->
  int_truediv 360 num_planes = Ok delta_raan ->
  int_truediv (walker_F * 360) (num_planes * sats_per_plane) = Ok phase_unit ->
  run = Ok (lines_of inclination num_planes sats_per_plane constellation_name
                     n delta_raan phase_unit w,
            data_of altitude inclination num_planes sats_per_plane walker_F
                    constellation_name n delta_raan phase_unit w,
            advance (loop_entry w) (total_of num_planes sats_per_plane)).
Proof.
  intros Hn Hd Hu. unfold run, generate_constellation_tle.
  unfold bind at 1. unfold lift at 1. rewrite Hn.
  unfold bind at 1. unfold datetime_now at 1.
  unfold bind at 1. unfold lift at 1. rewrite Hd.
  unfold bind at 1. unfold lift at 1. rewrite Hu.
  unfold bind at 1. unfold randint, bind, draw, ret.
  cbn [clock entropy now_calls draws].
  fold (loop_entry w). fold (sampled_epoch w). fold (drawn_base w).
  rewrite loops_run. reflexivity.
Qed.

(** Otherwise it raises what the first undefined division raises. *)
Lemma generate_raises :
  match kepler_mean_motion altitude with
  | Raise e => run = Raise e
  | Ok _ =>
      match int_truediv 360 num_planes with
      | Raise e => run = Raise e
      | Ok _ =>
          match int_truediv (walker_F * 360) (num_planes * sats_per_plane) with
          | Raise e => run = Raise e
          | Ok _ => exists r, run = Ok r
          end
      end
  end.
Proof.
  destruct (kepler_mean_motion altitude) as [n|e] eqn:Hn.
  2:{ unfold run, generate_constellation_tle, bind, lift. now rewrite Hn. }
  destruct (int_truediv 360 num_planes) as [d|e] eqn:Hd.
  2:{ unfold run, generate_constellation_tle, bind, lift, datetime_now.
      now rewrite Hn, Hd. }
  destruct (int_truediv (walker_F * 360) (num_planes * sats_per_plane)) as [u|e] eqn:Hu.
  2:{ unfold run, generate_constellation_tle, bind, lift, datetime_now.
      now rewrite Hn, Hd, Hu. }
  eexists. apply (generate_returns n d u); assumption.
Qed.

(** Reading a returned value backwards. *)
Lemma generate_inv (lines : list string) (data : ConstellationData.t) (w' : world) :
  run = Ok (lines, data, w') ->
  exists n delta_raan phase_unit,
    kepler_mean_motion altitude = Ok n
    /\ int_truediv 360 num_planes = Ok delta_raan
    /\ int_truediv (walker_F * 360) (num_planes * sats_per_plane) = Ok phase_unit
    /\ lines = lines_of inclination num_planes sats_per_plane constellation_name
                        n delta_raan phase_unit w
    /\ data = data_of altitude inclination num_planes sats_per_plane walker_F
                      constellation_name n delta_raan phase_unit w.
Proof.
  intros H. pose proof generate_raises as R.
  destruct (kepler_mean_motion altitude) as [n|e] eqn:Hn; [|congruence].
  destruct (int_truediv 360 num_planes) as [d|e] eqn:Hd; [|congruence].
  destruct (int_truediv (walker_F * 360) (num_planes * sats_per_plane)) as [u|e] eqn:Hu;
    [|congruence].
  exists n, d, u. rewrite (generate_returns n d u Hn Hd Hu) in H.
  inversion H. auto.
Qed.

End Generate.

(** ** Positions in the returned lists *)

Lemma triples_length {A : Type} (a b c : nat -> A) (N : nat) :
  List.length (flat_map (fun k => [a k; b k; c k]) (seq 0 N)) = (3 * N)%nat.
Proof.
  revert a b c; induction N as [|N IH]; intros a b c; [reflexivity|].
  change (seq 0 (S N)) with (0%nat :: seq 1 N). cbn [flat_map app List.length].
  rewrite flat_map_seq_shift, (IH (fun i => a (S i)) (fun i => b (S i)) (fun i => c (S i))).
  lia.
Qed.

Lemma triples_nth {A : Type} (a b c : nat -> A) (N k : nat) (d : A) :
  (k < N)%nat ->
  let l := flat_map (fun k => [a k; b k; c k]) (seq 0 N) in
  nth (3 * k) l d = a k /\ nth (3 * k + 1) l d = b k /\ nth (3 * k + 2) l d = c k.
Proof.
  cbv zeta. revert a b c k; induction N as [|N IH]; intros a b c k Hk; [lia|].
  change (seq 0 (S N)) with (0%nat :: seq 1 N). cbn [flat_map app].
  rewrite flat_map_seq_shift.
  destruct k as [|k]; [repeat split; reflexivity|].
  replace (3 * S k)%nat with (S (S (S (3 * k)))) by lia.
  cbn [nth plus].
  apply (IH (fun i => a (S i)) (fun i => b (S i)) (fun i => c (S i)) k). lia.
Qed.

Lemma table_nth {A : Type} (f : nat -> A) (N k : nat) (d : A) :
  (k < N)%nat -> nth k (map f (seq 0 N)) d = f k.
Proof.
  intros Hk. rewrite (nth_indep _ d (f 0%nat)) by (rewrite length_map, length_seq; lia).
  rewrite map_nth, seq_nth by lia. reflexivity.
Qed.

Section Positions.

Variables (inclination : float) (num_planes sats_per_plane : Z).
Variable constellation_name : string.
Variables (n delta_raan phase_unit : float) (w : world).

Let lines := lines_of inclination num_planes sats_per_plane constellation_name
                      n delta_raan phase_unit w.
Let table := table_of num_planes sats_per_plane constellation_name
                      delta_raan phase_unit w.
Let total := total_of num_planes sats_per_plane.

Lemma lines_length : List.length lines = (3 * total)%nat.
Proof. apply triples_length. Qed.

Lemma table_length : List.length table = total.
Proof. unfold table, table_of, table_upto. now rewrite length_map, length_seq. Qed.

Lemma lines_at (k : nat) (d : string) :
  (k < total)%nat ->
  nth (3 * k) lines d
  = name_at constellation_name (plane_of sats_per_plane k) (slot_of sats_per_plane k)
  /\ nth (3 * k + 1) lines d
     = line1_at (epoch_year_of (sampled_epoch w)) (epoch_day_of (sampled_epoch w))
                (drawn_base w) (loop_entry w) k
  /\ nth (3 * k + 2) lines d
     = line2_at inclination sats_per_plane n delta_raan phase_unit (drawn_base w)
                (plane_of sats_per_plane k) (slot_of sats_per_plane k) k.
Proof. intros Hk. exact (triples_nth _ _ _ total k d Hk). Qed.

Lemma table_at (k : nat) (d : SatData.t) :
  (k < total)%nat ->
  nth k table d
  = record_at sats_per_plane constellation_name delta_raan phase_unit (drawn_base w)
              (plane_of sats_per_plane k) (slot_of sats_per_plane k) k.
Proof. intros Hk. exact (table_nth _ total k d Hk). Qed.

End Positions.

(** Satellite number [p * S + s] is slot [s] of plane [p]. *)
Lemma number_of_plane_slot (P S p s : Z) :
  0 <= p < P -> 0 <= s < S ->
  let k := Z.to_nat (p * S + s) in
  (k < total_of P S)%nat /\ plane_of S k = p /\ slot_of S k = s.
Proof.
  intros Hp Hs. cbv zeta. unfold total_of, plane_of, slot_of.
  assert (0 <= p * S) by nia.
  rewrite Z2Nat.id by lia. repeat split.
  - apply Nat2Z.inj_lt. rewrite Nat2Z.inj_mul, !Z2Nat.id by lia. nia.
  - symmetry. apply (Z.div_unique_pos _ _ _ s); lia.
  - symmetry. apply (Z.mod_unique_pos _ _ p); lia.
Qed.

Lemma drawn_base_range (w : world) : 10000 <= drawn_base w <= 90000.
Proof.
  unfold drawn_base.
  pose proof (Z.mod_pos_bound (entropy w (draws w)) (90000 - 10000 + 1)). lia.
Qed.

(** ** The sample run *)

Lemma demo_constants :
  kepler_mean_motion 550 = Ok 15.054906459188034%float
  /\ int_truediv 360 3 = Ok 120%float
  /\ int_truediv (1 * 360) (3 * 2) = Ok 60%float.
Proof. repeat split; vm_compute; reflexivity. Qed.

Lemma demo_run :
  generate_constellation_tle 550 53 3 2 1 "Star-Link x!" demo_world
  = Ok (demo_lines, demo_data, demo_final).
Proof.
  destruct demo_constants as (Hn & Hd & Hu).
  rewrite (generate_returns _ _ _ _ _ _ _ _ _ _ Hn Hd Hu).
  assert (E : lines_of 53 3 2 "Star-Link x!" 15.054906459188034 120 60 demo_world
              = demo_lines) by (vm_compute; reflexivity).
  rewrite E. reflexivity.
Qed.

Example demo_lines_text :
  demo_lines
  = ["STAR-LINKX001-01";
     "1 90000U 26934UR  26308.52314815  .00000000  00000+0  00000-0 0  9990";
     "2 90000  53.0000   0.0000 0000000   0.0000   0.0000 15.05490646    10";
     "STAR-LINKX001-02";
     "1 90001U 23715QK  26308.52314815  .00000000  00000+0  00000-0 0  9995";
     "2 90001  53.0000   0.0000 0000000   0.0000 180.0000 15.05490646    10";
     "STAR-LINKX002-01";
     "1 90002U 25496MD  26308.52314815  .00000000  00000+0  00000-0 0  9994";
     "2 90002  53.0000 120.0000 0000000   0.0000  60.0000 15.05490646    11";
     "STAR-LINKX002-02";
     "1 90003U 22277HW  26308.52314815  .00000000  00000+0  00000-0 0  9999";
     "2 90003  53.0000 120.0000 0000000   0.0000 240.0000 15.05490646    12";
     "STAR-LINKX003-01";
     "1 90004U 24058DP  26308.52314815  .00000000  00000+0  00000-0 0  9999";
     "2 90004  53.0000 240.0000 0000000   0.0000 120.0000 15.05490646    13";
     "STAR-LINKX003-02";
     "1 90005U 26838I   26308.52314815  .00000000  00000+0  00000-0 0  9998";
     "2 90005  53.0000 240.0000 0000000   0.0000 300.0000 15.05490646    14"].
Proof. reflexivity. Qed.

(** ** Properties of a run *)

(** C1.  In every returned record, line 1 and line 2 have exactly 69
    characters, and the 69th is the digit of the checksum of the first 68:
    the sum of the digit values, with 1 for each minus sign and 0 for any
    other character, modulo 10. *)
Theorem lines_have_69_chars_and_checksum
    (altitude inclination : float) (num_planes sats_per_plane walker_F : Z)
    (constellation_name : string) (w w' : world)
    (lines : list string) (data : ConstellationData.t) (k : nat) :
  generate_constellation_tle altitude inclination num_planes sats_per_plane
    walker_F constellation_name w = Ok (lines, data, w') ->
  (k < List.length (ConstellationData.satellite_data data))%nat ->
  let line1 := nth (3 * k + 1) lines EmptyString in
  let line2 := nth (3 * k + 2) lines EmptyString in
  String.length line1 = 69%nat
  /\ String.length line2 = 69%nat
  /\ String.get 68 line1 = Some (digit_char (spec_checksum line1))
  /\ String.get 68 line2 = Some (digit_char (spec_checksum line2)).
Proof.
  intros H Hk. cbv zeta.
  destruct (generate_inv _ _ _ _ _ _ _ _ _ _ H)
    as (n & d & u & _ & _ & _ & -> & ->).
  cbn [ConstellationData.satellite_data data_of] in Hk.
  rewrite table_length in Hk.
  destruct (lines_at inclination num_planes sats_per_plane constellation_name
                     n d u w k EmptyString Hk) as (_ & -> & ->).
  unfold line1_at, line2_at, spec_checksum.
  destruct (launch_at (loop_entry w) k) as [[ly ln] lp].
  rewrite !seal_length, !seal_checksum. auto.
Qed.

Lemma lines_have_69_chars_and_checksum_witness :
  String.length (nth (3 * 1 + 1) demo_lines EmptyString) = 69%nat
  /\ String.length (nth (3 * 1 + 2) demo_lines EmptyString) = 69%nat
  /\ String.get 68 (nth (3 * 1 + 1) demo_lines EmptyString)
     = Some (digit_char (spec_checksum (nth (3 * 1 + 1) demo_lines EmptyString)))
  /\ String.get 68 (nth (3 * 1 + 2) demo_lines EmptyString)
     = Some (digit_char (spec_checksum (nth (3 * 1 + 2) demo_lines EmptyString))).
Proof.
  refine (lines_have_69_chars_and_checksum _ _ _ _ _ _ _ _ _ _ 1 demo_run _).
  apply Nat.ltb_lt. vm_compute. reflexivity.
Defined.

(** With one plane of one satellite a run can still raise: the mean motion
    is undefined at an altitude of -6378.137 km (division by zero) and of
    1e200 km (the cube overflows), and the phase unit is out of range for
    [walker_F = 2^1100]. *)
Lemma a_single_satellite_run_can_raise :
  1 <= 1
  /\ generate_constellation_tle (-6378.137) 53 1 1 0 "X" demo_world
     = Raise ZeroDivisionError
  /\ generate_constellation_tle 1e200 53 1 1 0 "X" demo_world
     = Raise OverflowError
  /\ generate_constellation_tle 550 53 1 1 (2 ^ 1100) "X" demo_world
     = Raise OverflowError.
Proof.
  split; [lia|]. repeat split; vm_compute; reflexivity.
Qed.

(** C2, as the code has it.  With at least one plane and one satellite per
    plane a run returns exactly when nothing is raised before the loops,
    that is when the mean motion is defined for the altitude and
    [walker_F * 360 / (num_planes * sats_per_plane)] is in range; otherwise
    it raises what the failing division raises.  A run that returns gives
    [num_planes * sats_per_plane] triples, [3 * num_planes * sats_per_plane]
    lines in all, plane by plane and slot by slot: the triple of slot [s]
    of plane [p] is at position [p * sats_per_plane + s], its name being
    one prefix for the whole run (the cleaned name, for an ASCII
    constellation name) followed by the numbers of the plane and of the
    slot. *)
Theorem returns_every_triple_plane_major
    (altitude inclination : float) (num_planes sats_per_plane walker_F : Z)
    (constellation_name : string) (w : world) :
  1 <= num_planes -> 1 <= sats_per_plane ->
  let run := generate_constellation_tle altitude inclination num_planes
               sats_per_plane walker_F constellation_name w in
  match kepler_mean_motion altitude,
        int_truediv (walker_F * 360) (num_planes * sats_per_plane) with
  | Raise e, _ => run = Raise e
  | Ok _, Raise e => run = Raise e
  | Ok _, Ok _ =>
    exists lines data w',
      run = Ok (lines, data, w')
      /\ List.length lines = Z.to_nat (3 * num_planes * sats_per_plane)
      /\ List.length (ConstellationData.satellite_data data)
         = Z.to_nat (num_planes * sats_per_plane)
      /\ ConstellationData.total_satellites data = num_planes * sats_per_plane
      /\ exists clean_name,
           (ascii_only constellation_name = true
            -> clean_name = clean_name_of constellation_name)
           /\ forall p s, 0 <= p < num_planes -> 0 <= s < sats_per_plane ->
                let k := Z.to_nat (p * sats_per_plane + s) in
                let row := nth k (ConstellationData.satellite_data data)
                               (record_at 0 EmptyString 0 0 0 0 0 0) in
                nth (3 * k) lines EmptyString = sat_name_of clean_name p s
                /\ SatData.name row = sat_name_of clean_name p s
                /\ SatData.plane row = p + 1
                /\ SatData.sat row = s + 1
  end.
Proof.
  intros HP HS. cbv zeta.
  pose proof (generate_raises altitude inclination num_planes sats_per_plane
                walker_F constellation_name w) as R.
  pose proof (spacing_defined num_planes HP) as Hd. rewrite Hd in R.
  destruct (kepler_mean_motion altitude) as [n|e] eqn:Hn; [|exact R].
  destruct (int_truediv (walker_F * 360) (num_planes * sats_per_plane))
    as [phase_unit|e] eqn:Hu; [|exact R].
  clear R.
  eexists _, _, _. split; [exact (generate_returns _ _ _ _ _ _ _ _ _ _ Hn Hd Hu)|].
  cbn [ConstellationData.satellite_data ConstellationData.total_satellites data_of].
  rewrite lines_length, table_length. unfold total_of.
  split; [rewrite <- Z.mul_assoc, Z2Nat.inj_mul, Z2Nat.inj_mul by lia; reflexivity|].
  split; [rewrite Z2Nat.inj_mul by lia; reflexivity|].
  split; [reflexivity|].
  exists (clean_name_of constellation_name). split; [reflexivity|].
  intros p s Hp Hs. cbv zeta.
  destruct (number_of_plane_slot num_planes sats_per_plane p s) as (Hk & Ep & Es);
    [assumption..|].
  destruct (lines_at inclination num_planes sats_per_plane constellation_name
              n (quotient 360 num_planes) phase_unit w _ EmptyString Hk) as (-> & _).
  rewrite (table_at num_planes sats_per_plane constellation_name
             (quotient 360 num_planes) phase_unit w _ _ Hk).
  cbn [SatData.name SatData.plane SatData.sat record_at]. unfold name_at.
  rewrite Ep, Es. repeat split.
Qed.

Lemma returns_every_triple_plane_major_witness :
  exists lines data w',
    generate_constellation_tle 550 53 3 2 1 "Star-Link x!" demo_world
    = Ok (lines, data, w')
    /\ List.length lines = 18%nat
    /\ nth (3 * Z.to_nat (2 * 2 + 1)) lines EmptyString = "STAR-LINKX003-02".
Proof.
  pose proof (returns_every_triple_plane_major 550 53 3 2 1 "Star-Link x!"
                demo_world ltac:(lia) ltac:(lia)) as T.
  cbv zeta in T.
  destruct demo_constants as (Hn & _ & Hu).
  rewrite Hn, Hu in T.
  destruct T as (lines & data & w' & H & L & _ & _ & clean & Hc & Hat).
  exists lines, data, w'. split; [exact H|]. split; [exact L|].
  destruct (Hat 2 1) as (E & _); [lia | lia |].
  rewrite E, (Hc eq_refl). vm_compute. reflexivity.
Defined.

(** C3.  The NORAD ids of a run are [base, base + 1, ...] in the order of
    enumeration, where [base] is the one value drawn from 10000..90000
    before the loops; they are pairwise distinct, and they are the ids
    written at the head of line 1 and line 2 of each satellite. *)
Theorem norad_ids_contiguous_from_base
    (altitude inclination : float) (num_planes sats_per_plane walker_F : Z)
    (constellation_name : string) (w w' : world)
    (lines : list string) (data : ConstellationData.t) :
  generate_constellation_tle altitude inclination num_planes sats_per_plane
    walker_F constellation_name w = Ok (lines, data, w') ->
  let base := ConstellationData.base_norad_id data in
  let ids := map SatData.norad_id (ConstellationData.satellite_data data) in
  base = drawn_base w
  /\ 10000 <= base <= 90000
  /\ ids = map (fun k => base + Z.of_nat k)
               (seq 0 (List.length (ConstellationData.satellite_data data)))
  /\ NoDup ids
  /\ forall k, (k < List.length (ConstellationData.satellite_data data))%nat ->
       exists rest1 rest2,
         nth (3 * k + 1) lines EmptyString
         = seal ("1 " ++ format_0d 5 (base + Z.of_nat k) ++ rest1)
         /\ nth (3 * k + 2) lines EmptyString
            = seal ("2 " ++ format_0d 5 (base + Z.of_nat k) ++ rest2).
Proof.
  intros H. cbv zeta.
  destruct (generate_inv _ _ _ _ _ _ _ _ _ _ H)
    as (n & d & u & _ & _ & _ & -> & ->).
  cbn [ConstellationData.satellite_data ConstellationData.base_norad_id data_of].
  rewrite table_length.
  assert (E : map SatData.norad_id
                (table_of num_planes sats_per_plane constellation_name d u w)
              = map (fun k => drawn_base w + Z.of_nat k)
                    (seq 0 (total_of num_planes sats_per_plane))).
  { unfold table_of, table_upto. rewrite map_map. reflexivity. }
  split; [reflexivity|]. split; [apply drawn_base_range|].
  split; [exact E|]. split.
  - rewrite E. apply Injective_map_NoDup; [|apply seq_NoDup].
    intros a b Hab. lia.
  - intros k Hk.
    destruct (lines_at inclination num_planes sats_per_plane constellation_name
                n d u w k EmptyString Hk) as (_ & -> & ->).
    unfold line1_at, line2_at, line1_fields, line2_fields.
    destruct (launch_at (loop_entry w) k) as [[ly ln] lp].
    eexists _, _. split; reflexivity.
Qed.

Lemma norad_ids_contiguous_from_base_witness :
  map SatData.norad_id (ConstellationData.satellite_data demo_data)
  = [90000; 90001; 90002; 90003; 90004; 90005].
Proof.
  destruct (norad_ids_contiguous_from_base _ _ _ _ _ _ _ _ _ _ demo_run)
    as (_ & _ & E & _).
  rewrite E. vm_compute. reflexivity.
Defined.

(** C10.  The name line and line 2 of every satellite do not depend on the
    launch draws: two runs on the same arguments that sample the same
    epoch and draw the same NORAD base return the same name lines and the
    same second lines, whatever the other draws are. *)
Theorem name_and_line2_ignore_launch_draws
    (altitude inclination : float) (num_planes sats_per_plane walker_F : Z)
    (constellation_name : string) (w1 w2 w1' w2' : world)
    (lines1 lines2 : list string) (data1 data2 : ConstellationData.t) :
  sampled_epoch w1 = sampled_epoch w2 ->
  drawn_base w1 = drawn_base w2 ->
  generate_constellation_tle altitude inclination num_planes sats_per_plane
    walker_F constellation_name w1 = Ok (lines1, data1, w1') ->
  generate_constellation_tle altitude inclination num_planes sats_per_plane
    walker_F constellation_name w2 = Ok (lines2, data2, w2') ->
  List.length lines1 = List.length lines2
  /\ forall k,
       nth (3 * k) lines1 EmptyString = nth (3 * k) lines2 EmptyString
       /\ nth (3 * k + 2) lines1 EmptyString = nth (3 * k + 2) lines2 EmptyString.
Proof.
  intros _ Hb H1 H2.
  destruct (generate_inv _ _ _ _ _ _ _ _ _ _ H1)
    as (n & d & u & Hn & Hd & Hu & -> & _).
  destruct (generate_inv _ _ _ _ _ _ _ _ _ _ H2)
    as (n2 & d2 & u2 & Hn2 & Hd2 & Hu2 & -> & _).
  assert (n2 = n) by congruence. assert (d2 = d) by congruence.
  assert (u2 = u) by congruence. subst n2 d2 u2.
  split; [now rewrite !lines_length|].
  intros k.
  destruct (Nat.lt_ge_cases k (total_of num_planes sats_per_plane)) as [Hk|Hk].
  - destruct (lines_at inclination num_planes sats_per_plane constellation_name
                n d u w1 k EmptyString Hk) as (-> & _ & ->).
    destruct (lines_at inclination num_planes sats_per_plane constellation_name
                n d u w2 k EmptyString Hk) as (-> & _ & ->).
    rewrite Hb. split; reflexivity.
  - rewrite !nth_overflow by (rewrite lines_length; lia). split; reflexivity.
Qed.

Lemma name_and_line2_ignore_launch_draws_witness :
  nth (3 * 4 + 2) demo_lines EmptyString
  = nth (3 * 4 + 2)
        (lines_of 53 3 2 "Star-Link x!" 15.054906459188034 120 60 demo_world_redrawn)
        EmptyString.
Proof.
  destruct demo_constants as (Hn & Hd & Hu).
  destruct (name_and_line2_ignore_launch_draws _ _ _ _ _ _
              demo_world demo_world_redrawn _ _ _ _ _ _
              eq_refl eq_refl demo_run
              (generate_returns _ _ _ _ _ _ demo_world_redrawn _ _ _ Hn Hd Hu))
    as (_ & E).
  exact (proj2 (E 4%nat)).
Defined.

(** ** Widths of the formatted fields *)

Lemma digits_aux_longer (fuel : nat) (n : Z) (acc : string) :
  (String.length acc <= String.length (digits_aux fuel n acc))%nat.
Proof.
  revert n acc; induction fuel as [|fuel IH]; intros n acc; simpl; [lia|].
  destruct (n <? 10); [simpl; lia|].
  etransitivity; [|apply IH]. simpl; lia.
Qed.

Lemma digits_aux_length_le (fuel : nat) :
  forall (n : Z) (acc : string) (k : nat),
  (1 <= k)%nat -> 0 <= n < 10 ^ Z.of_nat k ->
  (String.length (digits_aux fuel n acc) <= k + String.length acc)%nat.
Proof.
  induction fuel as [|fuel IH]; intros n acc k Hk Hn; simpl; [lia|].
  destruct (Z.ltb_spec n 10) as [H|H]; [simpl; lia|].
  destruct k as [|k]; [lia|].
  destruct k as [|k]; [change (10 ^ Z.of_nat 1) with 10 in Hn; lia|].
  assert (Hd : 0 <= n / 10 < 10 ^ Z.of_nat (S k)).
  { split; [apply Z.div_pos; lia|].
    apply Z.div_lt_upper_bound; [lia|].
    replace (Z.of_nat (S (S k))) with (Z.succ (Z.of_nat (S k))) in Hn by lia.
    rewrite Z.pow_succ_r in Hn by lia. lia. }
  specialize (IH (n / 10) (String (digit_char (n mod 10)) acc) (S k) ltac:(lia) Hd).
  simpl in IH. lia.
Qed.

Lemma digits_aux_length_ge (fuel : nat) :
  forall (n : Z) (acc : string) (k : nat),
  (k < fuel)%nat -> 10 ^ Z.of_nat k <= n ->
  (k + 1 + String.length acc <= String.length (digits_aux fuel n acc))%nat.
Proof.
  induction fuel as [|fuel IH]; intros n acc k Hk Hn; [lia|]. simpl.
  destruct k as [|k].
  - destruct (n <? 10); [simpl; lia|].
    etransitivity; [|apply digits_aux_longer]. simpl; lia.
  - replace (Z.of_nat (S k)) with (Z.succ (Z.of_nat k)) in Hn by lia.
    rewrite Z.pow_succ_r in Hn by lia.
    assert (0 < 10 ^ Z.of_nat k) by (apply Z.pow_pos_nonneg; lia).
    destruct (Z.ltb_spec n 10) as [H10|H10]; [lia|].
    assert (Hd : 10 ^ Z.of_nat k <= n / 10) by (apply Z.div_le_lower_bound; lia).
    specialize (IH (n / 10) (String (digit_char (n mod 10)) acc) k ltac:(lia) Hd).
    simpl String.length in IH. lia.
Qed.

Lemma format_0d_length (width : nat) (z : Z) :
  (1 <= width)%nat -> 0 <= z < 10 ^ Z.of_nat width ->
  String.length (format_0d width z) = width.
Proof.
  intros Hw Hz. unfold format_0d.
  destruct (Z.ltb_spec z 0) as [H|_]; [lia|].
  rewrite length_rjust.
  pose proof (digits_aux_length_le (S (Z.to_nat (Z.log2 z))) z EmptyString width Hw Hz) as L.
  fold (digits z) in L. change (String.length EmptyString) with 0%nat in L. lia.
Qed.

(** A value with more digits than the width is written in full. *)
Lemma format_0d_wide (width : nat) (z : Z) :
  10 ^ Z.of_nat width <= z ->
  format_0d width z = digits z /\ (width < String.length (digits z))%nat.
Proof.
  intros Hz.
  assert (P : 0 < 10 ^ Z.of_nat width) by (apply Z.pow_pos_nonneg; lia).
  assert (L : (width + 1 + 0 <= String.length (digits z))%nat).
  { apply (digits_aux_length_ge _ z EmptyString width); [|exact Hz].
    assert (Z.of_nat width <= Z.log2 z); [|lia].
    apply Z.log2_le_pow2; [lia|].
    etransitivity; [|exact Hz].
    apply Z.pow_le_mono_l. lia. }
  split; [|lia].
  unfold format_0d. destruct (Z.ltb_spec z 0) as [H|_]; [lia|].
  unfold rjust. replace (width - String.length (digits z))%nat with 0%nat by lia.
  reflexivity.
Qed.

Lemma pieces_short (i : nat) : (String.length (nth i pieces EmptyString) <= 2)%nat.
Proof.
  assert (A : forallb (fun s => Nat.leb (String.length s) 2) pieces = true)
    by (vm_compute; reflexivity).
  destruct (nth_in_or_default i pieces EmptyString) as [H| ->]; [|simpl; lia].
  apply Nat.leb_le. exact (proj1 (forallb_forall _ _) A _ H).
Qed.

(** The launch fields drawn for a satellite fill their columns exactly. *)
Lemma launch_at_widths (w : world) (j : nat) :
  let '(launch_year, launch_number, launch_piece) := launch_at w j in
  String.length (format_0d 2 launch_year) = 2%nat
  /\ String.length (format_0d 3 launch_number) = 3%nat
  /\ String.length (ljust 3 launch_piece) = 3%nat.
Proof.
  unfold launch_at. cbv zeta.
  repeat split.
  - apply format_0d_length; [lia|]. change (10 ^ Z.of_nat 2) with 100.
    apply Z.mod_pos_bound. lia.
  - apply format_0d_length; [lia|]. change (10 ^ Z.of_nat 3) with 1000.
    match goal with |- context [?e mod (999 - 1 + 1)] =>
      pose proof (Z.mod_pos_bound e (999 - 1 + 1) ltac:(lia)) end. lia.
  - rewrite length_ljust.
    match goal with |- context [nth ?i pieces EmptyString] =>
      pose proof (pieces_short i) end. lia.
Qed.

(** A field that ends within the first 68 characters survives [seal]
    where it was written. *)
Lemma seal_window (pre mid post : string) :
  (String.length pre + String.length mid <= 68)%nat ->
  take (String.length mid) (drop (String.length pre) (seal (pre ++ mid ++ post))) = mid.
Proof.
  intros H. destruct (seal_shape (pre ++ mid ++ post)) as [E _]. rewrite E. clear E.
  set (chk := String _ EmptyString).
  assert (T : take 68 (pre ++ mid ++ post)
              = pre ++ mid ++ take (68 - String.length pre - String.length mid) post).
  { replace 68%nat with (String.length pre
        + (String.length mid + (68 - String.length pre - String.length mid)))%nat at 1 by lia.
    now rewrite !take_append. }
  rewrite T. unfold ljust. rewrite !append_assoc.
  rewrite drop_length_append, take_length_append. reflexivity.
Qed.

(** C9.  The epoch is read from the clock once, before any satellite is
    produced: the summary and line 1 of every satellite carry the epoch
    string of that one reading, whatever the clock shows later.  Line 1 is
    the sealed fields built from that string and the launch fields drawn
    for the satellite, and the string stands right after the 13 characters
    and the NORAD id that precede it, in columns 19 to 32 for an id of five
    digits and one column further for every digit more. *)
Theorem epoch_sampled_once_and_shared
    (altitude inclination : float) (num_planes sats_per_plane walker_F : Z)
    (constellation_name : string) (w w' : world)
    (lines : list string) (data : ConstellationData.t) :
  generate_constellation_tle altitude inclination num_planes sats_per_plane
    walker_F constellation_name w = Ok (lines, data, w') ->
  let epoch_str := epoch_str_of (epoch_year_of (sampled_epoch w))
                                (epoch_day_of (sampled_epoch w)) in
  ConstellationData.epoch_year data = epoch_year_of (sampled_epoch w)
  /\ ConstellationData.epoch_day data = epoch_day_of (sampled_epoch w)
  /\ forall k, (k < List.length (ConstellationData.satellite_data data))%nat ->
       let line1 := nth (3 * k + 1) lines EmptyString in
       let id := ConstellationData.base_norad_id data + Z.of_nat k in
       let '(launch_year, launch_number, launch_piece) := launch_at (loop_entry w) k in
       line1 = seal (line1_fields id launch_year launch_number launch_piece epoch_str)
       /\ (id < 100000 -> String.length (format_0d 5 id) = 5%nat)
       /\ ((13 + String.length (format_0d 5 id) + String.length epoch_str <= 68)%nat ->
           take (String.length epoch_str)
                (drop (13 + String.length (format_0d 5 id)) line1) = epoch_str).
Proof.
  intros H. cbv zeta.
  destruct (generate_inv _ _ _ _ _ _ _ _ _ _ H)
    as (n & d & u & _ & _ & _ & -> & ->).
  cbn [ConstellationData.satellite_data ConstellationData.base_norad_id
       ConstellationData.epoch_year ConstellationData.epoch_day data_of].
  rewrite table_length.
  split; [reflexivity|]. split; [reflexivity|].
  intros k Hk.
  destruct (lines_at inclination num_planes sats_per_plane constellation_name
              n d u w k EmptyString Hk) as (_ & -> & _).
  unfold line1_at.
  pose proof (launch_at_widths (loop_entry w) k) as W.
  destruct (launch_at (loop_entry w) k) as [[ly ln] lp].
  destruct W as (W2 & W3 & Wp).
  split; [reflexivity|].
  set (ep := epoch_str_of _ _) in *.
  set (id := drawn_base w + Z.of_nat k) in *.
  split.
  { intros Hid. apply format_0d_length; [lia|]. change (10 ^ Z.of_nat 5) with 100000.
    pose proof (drawn_base_range w). unfold id in *. lia. }
  intros Hfit.
  set (pre := "1 " ++ format_0d 5 id ++ "U " ++ format_0d 2 ly
              ++ format_0d 3 ln ++ ljust 3 lp ++ " ").
  assert (Lpre : String.length pre = (13 + String.length (format_0d 5 id))%nat).
  { unfold pre. rewrite !length_append, W2, W3, Wp.
    change (String.length "1 ") with 2%nat. change (String.length "U ") with 2%nat.
    change (String.length " ") with 1%nat. lia. }
  assert (F : line1_fields id ly ln lp ep
              = pre ++ ep ++ " " ++ " .00000000  00000+0  00000-0 0  9999").
  { unfold line1_fields, pre. rewrite !append_assoc. reflexivity. }
  rewrite F, <- Lpre. apply seal_window. lia.
Qed.

Lemma epoch_sampled_once_and_shared_witness :
  take 14 (drop 18 (nth (3 * 5 + 1) demo_lines EmptyString)) = "26308.52314815"
  /\ exists lines data w',
       generate_constellation_tle 550 53 500 50 0 "X" demo_world = Ok (lines, data, w')
       /\ take 14 (drop 19 (nth (3 * Z.to_nat 10000 + 1) lines EmptyString))
          = "26308.52314815".
Proof.
  assert (Ep : epoch_str_of (epoch_year_of (sampled_epoch demo_world))
                            (epoch_day_of (sampled_epoch demo_world))
               = "26308.52314815") by (vm_compute; reflexivity).
  split.
  - destruct (epoch_sampled_once_and_shared _ _ _ _ _ _ _ _ _ _ demo_run)
      as (_ & _ & E).
    assert (Hk : (5 < List.length (ConstellationData.satellite_data demo_data))%nat)
      by (apply Nat.ltb_lt; vm_compute; reflexivity).
    specialize (E 5%nat Hk). cbv zeta in E.
    destruct (launch_at (loop_entry demo_world) 5) as [[ly ln] lp].
    destruct E as (_ & _ & E). rewrite Ep in E.
    replace (13 + String.length
                    (format_0d 5 (ConstellationData.base_norad_id demo_data
                                  + Z.of_nat 5)))%nat
      with 18%nat in E by (vm_compute; reflexivity).
    apply E. simpl. lia.
  - assert (Hn : kepler_mean_motion 550 = Ok 15.054906459188034%float)
      by (vm_compute; reflexivity).
    assert (Hd : int_truediv 360 500 = Ok 0.71999999999999997%float)
      by (vm_compute; reflexivity).
    assert (Hu : int_truediv (0 * 360) (500 * 50) = Ok 0%float)
      by (vm_compute; reflexivity).
    pose proof (generate_returns _ 53 _ _ _ "X" demo_world _ _ _ Hn Hd Hu) as R.
    eexists _, _, _. split; [exact R|].
    destruct (epoch_sampled_once_and_shared _ _ _ _ _ _ _ _ _ _ R)
      as (_ & _ & E).
    assert (Hk : (Z.to_nat 10000
                  < List.length
                      (ConstellationData.satellite_data
                         (data_of 550 53 500 50 0 "X" 15.054906459188034
                                  0.71999999999999997 0 demo_world)))%nat).
    { cbn [ConstellationData.satellite_data data_of]. rewrite table_length.
      apply Nat.ltb_lt. vm_compute. reflexivity. }
    specialize (E _ Hk). cbv zeta in E.
    destruct (launch_at (loop_entry demo_world) (Z.to_nat 10000)) as [[ly ln] lp].
    destruct E as (_ & _ & E). rewrite Ep in E.
    cbn [ConstellationData.base_norad_id data_of] in E.
    replace (13 + String.length
                    (format_0d 5 (drawn_base demo_world + Z.of_nat (Z.to_nat 10000))))%nat
      with 19%nat in E by (vm_compute; reflexivity).
    apply E. simpl. lia.
Defined.

Example demo_epoch :
  epoch_str_of (epoch_year_of (sampled_epoch demo_world))
               (epoch_day_of (sampled_epoch demo_world)) = "26308.52314815".
Proof. vm_compute. reflexivity. Qed.

(** ** Mean motion *)

Lemma kepler_formula (altitude n : float) :
  kepler_mean_motion altitude = Ok n ->
  exists a3,
    pow3 (Re + altitude) = Ok a3
    /\ is_zero a3 = false
    /\ n = (sqrt (mu / a3) * of_int 86400 / (of_int 2 * np_pi))%float.
Proof.
  unfold kepler_mean_motion, float_truediv. intros H.
  destruct (pow3 (Re + altitude)) as [a3|e]; [|discriminate].
  destruct (is_zero a3) eqn:Z; [discriminate|].
  exists a3. inversion H. auto.
Qed.

Lemma kepler_by_cube (altitude : float) :
  kepler_mean_motion altitude
  = match pow3 (Re + altitude) with
    | Ok a3 => kepler_from_cube a3
    | Raise e => Raise e
    end.
Proof. reflexivity. Qed.

Lemma line2_fields_head (sat_number : Z) (inclination raan e : float) (omega : Z)
    (M_ n : float) :
  line2_fields sat_number inclination raan e omega M_ n
  = line2_head sat_number inclination raan e omega M_ ++ format_f 11 8 n ++ "    1".
Proof. unfold line2_fields, line2_head. rewrite !append_assoc. reflexivity. Qed.

Lemma cube_all_ok_at (fuel : nat) :
  forall a0, cube_all_ok fuel a0 = true ->
  forall a, a0 <= a < a0 + Z.of_nat fuel -> cube_ok a = true.
Proof.
  induction fuel as [|fuel IH]; intros a0 H a Ha; [lia|].
  cbn [cube_all_ok] in H. apply andb_true_iff in H. destruct H as [H0 H1].
  destruct (Z.eq_dec a a0) as [->|Hne]; [exact H0|].
  apply (IH (a0 + 1) H1). lia.
Qed.

Lemma cube_checked : cube_all_ok 1801 200 = true.
Proof. vm_compute. reflexivity. Qed.

Lemma cube_550_checked : cube_550_ok = true.
Proof. vm_compute. reflexivity. Qed.

Lemma candidates_listed (a r c : float) :
  pow3 a = Ok r -> cube_candidate a c -> In c [r; next_up r; next_down r].
Proof.
  intros Hr (r' & Hr' & W). assert (r' = r) by congruence. subst r'.
  destruct W as [E|[E|E]]; subst c; simpl; auto.
Qed.

(** C6.  The mean motion of the summary is
    [sqrt (mu / a^3) * 86400 / (2 pi)] with [mu = 398600.4418] and
    [a = 6378.137 + altitude], the cube being the one the C library
    returns (the correctly rounded cube or a neighbour of it); it is a
    function of the altitude alone, the same for every other choice of the
    remaining arguments.  Line 2 of every satellite is the sealed fields
    built from it: they are what precedes the mean motion, the mean motion
    with eight decimals, and the revolution number, so that with fields of
    nominal width the mean motion fills columns 53 to 63.  For an altitude
    of a whole number of kilometres from 200 to 2000 these eleven
    characters do not depend on the way the cube is rounded and the mean
    motion is between 11 and 17 revolutions a day; at 550 km they are
    [15.05490646], between 15.0 and 15.1. *)
Theorem mean_motion_from_altitude_alone
    (altitude inclination : float) (num_planes sats_per_plane walker_F : Z)
    (constellation_name : string) (w w' : world)
    (lines : list string) (data : ConstellationData.t) :
  generate_constellation_tle altitude inclination num_planes sats_per_plane
    walker_F constellation_name w = Ok (lines, data, w') ->
  let n := ConstellationData.mean_motion data in
  (exists a3,
      cube_candidate (Re + altitude) a3
      /\ is_zero a3 = false
      /\ n = (sqrt (mu / a3) * of_int 86400 / (of_int 2 * np_pi))%float)
  /\ (forall inclination2 num_planes2 sats_per_plane2 walker_F2 constellation_name2
             w2 w2' lines2 data2,
        generate_constellation_tle altitude inclination2 num_planes2 sats_per_plane2
          walker_F2 constellation_name2 w2 = Ok (lines2, data2, w2') ->
        ConstellationData.mean_motion data2 = n)
  /\ (forall k, (k < List.length (ConstellationData.satellite_data data))%nat ->
        let row := nth k (ConstellationData.satellite_data data)
                       (record_at 0 EmptyString 0 0 0 0 0 0) in
        let id := SatData.norad_id row in
        let line2 := nth (3 * k + 2) lines EmptyString in
        let head := line2_head id inclination (SatData.raan row) 0 0
                               (SatData.mean_anomaly row) in
        line2 = seal (line2_fields id inclination (SatData.raan row) 0 0
                                   (SatData.mean_anomaly row) n)
        /\ line2_fields id inclination (SatData.raan row) 0 0
                        (SatData.mean_anomaly row) n
           = head ++ format_f 11 8 n ++ "    1"
        /\ ((String.length head + String.length (format_f 11 8 n) <= 68)%nat ->
            take (String.length (format_f 11 8 n)) (drop (String.length head) line2)
            = format_f 11 8 n)
        /\ (id < 100000 ->
            String.length (format_f 8 4 inclination) = 8%nat ->
            String.length (format_f 8 4 (SatData.raan row)) = 8%nat ->
            String.length (format_f 8 4 (SatData.mean_anomaly row)) = 8%nat ->
            String.length head = 52%nat))
  /\ (forall z, 200 <= z <= 2000 -> altitude = of_int z ->
        String.length (format_f 11 8 n) = 11%nat
        /\ forall c, cube_candidate (Re + altitude) c ->
             exists n', kepler_from_cube c = Ok n'
                        /\ format_f 11 8 n' = format_f 11 8 n
                        /\ (11 <? n')%float = true /\ (n' <? 17)%float = true)
  /\ (altitude = of_int 550 ->
        forall c, cube_candidate (Re + altitude) c ->
          exists n', kepler_from_cube c = Ok n'
                     /\ format_f 11 8 n' = "15.05490646"
                     /\ (15.0 <? n')%float = true /\ (n' <? 15.1)%float = true).
Proof.
  intros H. cbv zeta.
  destruct (generate_inv _ _ _ _ _ _ _ _ _ _ H)
    as (n & d & u & Hn & _ & _ & -> & ->).
  destruct (kepler_formula _ _ Hn) as (a3 & Ha & Za & En).
  cbn [ConstellationData.satellite_data ConstellationData.mean_motion data_of].
  rewrite table_length.
  split; [|split; [|split; [|split]]].
  - exists a3. split; [exists a3; split; [exact Ha | left; reflexivity]|].
    split; [exact Za | exact En].
  - intros i2 P2 S2 F2 name2 w2 w2' lines2 data2 H2.
    destruct (generate_inv _ _ _ _ _ _ _ _ _ _ H2)
      as (n2 & d2 & u2 & Hn2 & _ & _ & _ & ->).
    cbn [ConstellationData.mean_motion data_of]. congruence.
  - intros k Hk.
    rewrite (table_at num_planes sats_per_plane constellation_name d u w k _ Hk).
    cbn [SatData.norad_id SatData.raan SatData.mean_anomaly record_at].
    destruct (lines_at inclination num_planes sats_per_plane constellation_name
                n d u w k EmptyString Hk) as (_ & _ & ->).
    unfold line2_at.
    set (id := drawn_base w + Z.of_nat k).
    set (r := raan_of d (plane_of sats_per_plane k)).
    set (M_ := anomaly_at sats_per_plane u (plane_of sats_per_plane k)
                          (slot_of sats_per_plane k)).
    split; [reflexivity|]. split; [apply line2_fields_head|]. split.
    + intros Hfit. rewrite line2_fields_head. apply seal_window. exact Hfit.
    + intros Hid Li Lr Lm. unfold line2_head.
      assert (L5 : String.length (format_0d 5 id) = 5%nat).
      { apply format_0d_length; [lia|]. change (10 ^ Z.of_nat 5) with 100000.
        pose proof (drawn_base_range w). unfold id in *. lia. }
      rewrite !length_append, L5, Li, Lr, Lm. reflexivity.
  - intros z Hz ->.
    pose proof (cube_all_ok_at 1801 200 cube_checked z ltac:(lia)) as C.
    unfold cube_ok in C. rewrite Ha in C.
    rewrite kepler_by_cube, Ha in Hn. rewrite Hn in C.
    apply andb_true_iff in C. destruct C as [L C].
    apply Nat.eqb_eq in L. split; [exact L|].
    intros c Hc. pose proof (candidates_listed _ _ _ Ha Hc) as I.
    pose proof (proj1 (forallb_forall _ _) C c I) as K. cbv beta in K.
    destruct (kepler_from_cube c) as [n'|e]; [|discriminate].
    apply andb_true_iff in K. destruct K as [K K3].
    apply andb_true_iff in K. destruct K as [K1 K2].
    apply String.eqb_eq in K1. exists n'. auto.
  - intros ->. pose proof cube_550_checked as C.
    unfold cube_550_ok in C. rewrite Ha in C.
    intros c Hc. pose proof (candidates_listed _ _ _ Ha Hc) as I.
    pose proof (proj1 (forallb_forall _ _) C c I) as K. cbv beta in K.
    destruct (kepler_from_cube c) as [n'|e]; [|discriminate].
    apply andb_true_iff in K. destruct K as [K K3].
    apply andb_true_iff in K. destruct K as [K1 K2].
    apply String.eqb_eq in K1. exists n'. auto.
Qed.

Lemma mean_motion_from_altitude_alone_witness :
  take 11 (drop 52 (nth (3 * 1 + 2) demo_lines EmptyString)) = "15.05490646".
Proof.
  destruct (mean_motion_from_altitude_alone _ _ _ _ _ _ _ _ _ _ demo_run)
    as (_ & _ & L & _ & _).
  assert (Hk : (1 < List.length (ConstellationData.satellite_data demo_data))%nat)
    by (apply Nat.ltb_lt; vm_compute; reflexivity).
  specialize (L 1%nat Hk). cbv zeta in L.
  destruct L as (_ & _ & L & _).
  assert (F : format_f 11 8 (ConstellationData.mean_motion demo_data) = "15.05490646")
    by (vm_compute; reflexivity).
  rewrite F in L.
  match type of L with
  | (String.length ?h + _ <= 68)%nat -> _ =>
      replace (String.length h) with 52%nat in L by (vm_compute; reflexivity)
  end.
  apply L. simpl. lia.
Defined.

(** ** Values too wide for their columns *)

Lemma demo_constants_wide :
  kepler_mean_motion 550 = Ok 15.054906459188034%float
  /\ int_truediv 360 500 = Ok 0.71999999999999997%float
  /\ int_truediv (0 * 360) (500 * 50) = Ok 0%float.
Proof. repeat split; vm_compute; reflexivity. Qed.

(** With 500 planes of 50 satellites and the base 90000, satellite number
    10000 has the NORAD id 100000.  Nothing is raised: the six digits are
    written, every later column moves one place to the right, and the
    revolution number that closes line 2 (the last 9 of the element set
    number in line 1) is cut off. *)
Lemma six_digit_norad_id_shifts_the_columns :
  exists lines data w',
    generate_constellation_tle 550 53 500 50 0 "X" demo_world = Ok (lines, data, w')
    /\ nth (3 * Z.to_nat 10000 + 1) lines EmptyString
       = "1 100000U 26742PJ  26308.52314815  .00000000  00000+0  00000-0 0  990"
    /\ nth (3 * Z.to_nat 10000 + 2) lines EmptyString
       = "2 100000  53.0000 144.0000 0000000   0.0000   0.0000 15.05490646    0"
    /\ line2_fields 100000 53 144 0 0 0 15.054906459188034
       = "2 100000  53.0000 144.0000 0000000   0.0000   0.0000 15.05490646    1".
Proof.
  destruct demo_constants_wide as (Hn & Hd & Hu).
  eexists _, _, _. split; [exact (generate_returns _ _ _ _ _ _ _ _ _ _ Hn Hd Hu)|].
  assert (Hk : (Z.to_nat 10000 < total_of 500 50)%nat)
    by (apply Nat.ltb_lt; vm_compute; reflexivity).
  destruct (lines_at 53 500 50 "X" 15.054906459188034 0.71999999999999997 0
              demo_world _ EmptyString Hk) as (_ & -> & ->).
  repeat split; vm_compute; reflexivity.
Qed.

(** C7, as the code has it.  Encoding raises nothing, whatever the widths
    of the values: a run whose summary constants are defined returns every
    satellite, each line being the first 68 characters of its fields
    written in full (padded with spaces when shorter) followed by the
    checksum digit; a NORAD id of 100000 or more is written with all its
    digits. *)
Theorem encoder_cuts_at_68_and_never_fails
    (altitude inclination : float) (num_planes sats_per_plane walker_F : Z)
    (constellation_name : string) (w : world) (n delta_raan phase_unit : float) :
  kepler_mean_motion altitude = Ok n ->
  int_truediv 360 num_planes = Ok delta_raan ->
  int_truediv (walker_F * 360) (num_planes * sats_per_plane) = Ok phase_unit ->
  exists lines data w',
    generate_constellation_tle altitude inclination num_planes sats_per_plane
      walker_F constellation_name w = Ok (lines, data, w')
    /\ List.length lines = (3 * total_of num_planes sats_per_plane)%nat
    /\ forall k, (k < total_of num_planes sats_per_plane)%nat ->
         let id := drawn_base w + Z.of_nat k in
         let plane := plane_of sats_per_plane k in
         let line1 := nth (3 * k + 1) lines EmptyString in
         let line2 := nth (3 * k + 2) lines EmptyString in
         (exists launch_year launch_number launch_piece,
            take 68 line1
            = ljust 68 (take 68 (line1_fields id launch_year launch_number launch_piece
                                   (epoch_str_of (epoch_year_of (sampled_epoch w))
                                                 (epoch_day_of (sampled_epoch w))))))
         /\ take 68 line2
            = ljust 68 (take 68 (line2_fields id inclination
                                   (raan_of delta_raan plane) 0 0
                                   (anomaly_at sats_per_plane phase_unit plane
                                               (slot_of sats_per_plane k)) n))
         /\ String.length line1 = 69%nat
         /\ String.length line2 = 69%nat
         /\ (100000 <= id ->
             format_0d 5 id = digits id /\ (5 < String.length (digits id))%nat).
Proof.
  intros Hn Hd Hu.
  eexists _, _, _. split; [exact (generate_returns _ _ _ _ _ _ _ _ _ _ Hn Hd Hu)|].
  split; [apply lines_length|].
  intros k Hk. cbv zeta.
  destruct (lines_at inclination num_planes sats_per_plane constellation_name
              n delta_raan phase_unit w k EmptyString Hk) as (_ & -> & ->).
  unfold line1_at, line2_at.
  destruct (launch_at (loop_entry w) k) as [[ly ln] lp].
  rewrite !seal_length, !seal_take.
  split; [eexists _, _, _; reflexivity|].
  repeat (split; [reflexivity|]).
  intros Hid. apply format_0d_wide. exact Hid.
Qed.

Lemma encoder_cuts_at_68_and_never_fails_witness :
  exists lines data w',
    generate_constellation_tle 550 53 3 2 1 "Star-Link x!" demo_world
    = Ok (lines, data, w')
    /\ List.length lines = (3 * total_of 3 2)%nat.
Proof.
  destruct demo_constants as (Hn & Hd & Hu).
  destruct (encoder_cuts_at_68_and_never_fails 550 53 3 2 1 "Star-Link x!"
              demo_world _ _ _ Hn Hd Hu) as (lines & data & w' & H & L & _).
  exists lines, data, w'. split; assumption.
Defined.

(** ** Rounding to nearest *)

Lemma digits2_log2 (m : positive) :
  Zpos (digits2_pos m) = Z.succ (Z.log2 (Zpos m)).
Proof.
  assert (S : forall p, digits2_pos p = Pos.size p)
    by (induction p as [p IH|p IH|]; simpl; congruence).
  destruct m as [p|p|]; simpl; rewrite ?S; lia.
Qed.

Lemma shr_1_represents (T D : Z) (mrs : shr_record) :
  0 < D -> represents T D mrs ->
  represents T (2 * D) (shr_1 mrs) /\ shr_m (shr_1 mrs) = shr_m mrs / 2.
Proof.
  intros HD. destruct mrs as [m r s]. unfold represents. cbn [shr_m shr_r shr_s].
  intros (Hm & HT & HL).
  destruct m as [|p|p]; [| |lia].
  - cbn [shr_1 shr_m shr_r shr_s]. destruct r, s; cbn [orb]; repeat split; try lia;
      reflexivity.
  - destruct p as [q|q|]; cbn [shr_1 shr_m shr_r shr_s].
    + assert (E : Z.pos q~1 = 2 * Z.pos q + 1) by lia. rewrite E in *. clear E.
      set (X := Z.pos q) in *.
      assert (0 < X) by (unfold X; lia).
      assert (Dv : (2 * X + 1) / 2 = X)
        by (symmetry; apply Z.div_unique with (r := 1); lia).
      rewrite Dv.
      destruct r, s; cbn [orb]; repeat split; nia.
    + assert (E : Z.pos q~0 = 2 * Z.pos q) by lia. rewrite E in *. clear E.
      set (X := Z.pos q) in *.
      assert (0 < X) by (unfold X; lia).
      assert (Dv : (2 * X) / 2 = X)
        by (symmetry; apply Z.div_unique with (r := 0); lia).
      rewrite Dv.
      destruct r, s; cbn [orb]; repeat split; nia.
    + destruct r, s; cbn [orb]; repeat split; try lia; reflexivity.
Qed.

Lemma iter_pos_nat {A : Type} (f : A -> A) (n : positive) :
  forall x, iter_pos f n x = Nat.iter (Pos.to_nat n) f x.
Proof.
  induction n as [n IH|n IH|]; intros x; cbn [iter_pos].
  - rewrite !IH, Pos2Nat.inj_xI.
    change (Nat.iter (S (2 * Pos.to_nat n)) f x)
      with (f (Nat.iter (2 * Pos.to_nat n) f x)).
    rewrite <- Nat.iter_swap. replace (2 * Pos.to_nat n)%nat
      with (Pos.to_nat n + Pos.to_nat n)%nat by lia.
    now rewrite Nat.iter_add.
  - rewrite !IH, Pos2Nat.inj_xO. replace (2 * Pos.to_nat n)%nat
      with (Pos.to_nat n + Pos.to_nat n)%nat by lia.
    now rewrite Nat.iter_add.
  - reflexivity.
Qed.

Lemma shr_iter (T D : Z) (mrs : shr_record) (n : nat) :
  0 < D -> represents T D mrs ->
  represents T (2 ^ Z.of_nat n * D) (Nat.iter n shr_1 mrs)
  /\ shr_m (Nat.iter n shr_1 mrs) = shr_m mrs / 2 ^ Z.of_nat n.
Proof.
  intros HD HR. induction n as [|n (IH1 & IH2)].
  - cbn [Nat.iter]. change (2 ^ Z.of_nat 0) with 1. rewrite Z.mul_1_l, Z.div_1_r.
    split; [exact HR | reflexivity].
  - change (Nat.iter (S n) shr_1 mrs) with (shr_1 (Nat.iter n shr_1 mrs)).
    assert (P : 0 < 2 ^ Z.of_nat n) by (apply Z.pow_pos_nonneg; lia).
    destruct (shr_1_represents T _ _ (Z.mul_pos_pos _ _ P HD) IH1) as (R1 & R2).
    rewrite Nat2Z.inj_succ, Z.pow_succ_r by lia.
    split.
    + replace (2 * 2 ^ Z.of_nat n * D) with (2 * (2 ^ Z.of_nat n * D)) by ring.
      exact R1.
    + rewrite R2, IH2, Z.div_div by lia. f_equal. ring.
Qed.

Lemma shr_spec (T D : Z) (mrs : shr_record) (e z : Z) :
  0 < D -> represents T D mrs -> 0 <= z ->
  represents T (2 ^ z * D) (fst (shr mrs e z))
  /\ shr_m (fst (shr mrs e z)) = shr_m mrs / 2 ^ z
  /\ snd (shr mrs e z) = e + z.
Proof.
  intros HD HR Hz. destruct z as [|p|p]; [| |lia].
  - cbn [shr fst snd]. change (2 ^ 0) with 1. rewrite Z.mul_1_l, Z.div_1_r.
    split; [exact HR|]. split; [reflexivity | lia].
  - cbn [shr fst snd]. rewrite iter_pos_nat.
    destruct (shr_iter T D mrs (Pos.to_nat p) HD HR) as (R1 & R2).
    rewrite positive_nat_Z in R1, R2. auto.
Qed.

Lemma rne_spec (T D : Z) (mrs : shr_record) :
  0 < D -> represents T D mrs ->
  let m1 := round_nearest_even (shr_m mrs) (loc_of_shr_record mrs) in
  shr_m mrs <= m1 <= shr_m mrs + 1
  /\ 2 * m1 * D - 2 * T <= D /\ 2 * T - 2 * m1 * D <= D.
Proof.
  intros HD. destruct mrs as [m r s]. unfold represents. cbn [shr_m shr_r shr_s].
  intros (Hm & HT & HL). cbv zeta.
  destruct r, s; cbn [loc_of_shr_record round_nearest_even];
    try destruct (Z.even m); repeat split; nia.
Qed.

Lemma exact_represents (m D : Z) :
  0 <= m -> 0 < D -> represents (m * D) D (shr_record_of_loc m loc_Exact).
Proof.
  intros Hm HD. unfold represents. cbn [shr_record_of_loc shr_m shr_r shr_s].
  repeat split; nia.
Qed.

Lemma new_location_represents (num den : Z) :
  0 <= num -> 0 < den ->
  represents num den
    (shr_record_of_loc (num / den) (new_location den (num mod den))).
Proof.
  intros Hn Hd.
  pose proof (Z.div_mod num den ltac:(lia)) as E.
  pose proof (Z.mod_pos_bound num den Hd) as B.
  assert (Q : 0 <= num / den) by (apply Z.div_pos; lia).
  set (q := num / den) in *. set (r := num mod den) in *.
  unfold new_location, new_location_even, new_location_odd.
  destruct (Z.even den) eqn:Ev.
  - destruct (Z.eqb_spec r 0) as [R0|R0].
    + unfold represents; cbn [shr_record_of_loc shr_m shr_r shr_s]. repeat split; nia.
    + destruct (Z.compare_spec (2 * r) den);
        unfold represents; cbn [shr_record_of_loc shr_m shr_r shr_s]; repeat split; nia.
  - assert (O : Z.odd den = true) by (rewrite <- Z.negb_even, Ev; reflexivity).
    apply Z.odd_spec in O. destruct O as [h O].
    destruct (Z.eqb_spec r 0) as [R0|R0].
    + unfold represents; cbn [shr_record_of_loc shr_m shr_r shr_s]. repeat split; nia.
    + destruct (Z.compare_spec (2 * r + 1) den);
        unfold represents; cbn [shr_record_of_loc shr_m shr_r shr_s]; repeat split; nia.
Qed.

Lemma fexp_normal (x : Z) : -1074 <= x - 53 -> fexp prec emax x = x - 53.
Proof. unfold fexp, SpecFloat.emin, prec, emax. lia. Qed.

Lemma digits_bounds (m : positive) :
  2 ^ (Zpos (digits2_pos m) - 1) <= Zpos m < 2 ^ Zpos (digits2_pos m).
Proof.
  rewrite digits2_log2.
  replace (Z.succ (Z.log2 (Zpos m)) - 1) with (Z.log2 (Zpos m)) by lia.
  apply Z.log2_spec. lia.
Qed.

Lemma digits_of_width (m : positive) (d : Z) :
  0 < d -> 2 ^ (d - 1) <= Zpos m < 2 ^ d -> Zpos (digits2_pos m) = d.
Proof.
  intros Hd H. rewrite digits2_log2.
  rewrite (Z.log2_unique (Zpos m) (d - 1)); [lia | lia |].
  replace (Z.succ (d - 1)) with d by lia. exact H.
Qed.

Lemma shr_m_of_loc (m : Z) (l : location) : shr_m (shr_record_of_loc m l) = m.
Proof. destruct l as [|[| |]]; reflexivity. Qed.

Lemma round_normal (sx : bool) (m : positive) (e : Z) (l : location) (T D : Z) :
  0 < D -> represents T D (shr_record_of_loc (Zpos m) l) ->
  2 ^ 52 <= Zpos m -> -1074 <= e ->
  exists (m' : positive) (k : Z),
    0 <= k /\ 2 ^ 52 <= Zpos m' < 2 ^ 53
    /\ binary_round_aux prec emax sx (Zpos m) e l
       = (if e + k <=? 971 then S754_finite sx m' (e + k) else S754_infinity sx)
    /\ 2 * (Zpos m' * 2 ^ k) * D - 2 * T <= 2 ^ k * D
    /\ 2 * T - 2 * (Zpos m' * 2 ^ k) * D <= 2 ^ k * D.
Proof.
  intros HD HR Hm He.
  assert (P52 : 0 < 2 ^ 52) by reflexivity.
  assert (P53 : 2 ^ 53 = 2 * 2 ^ 52) by reflexivity.
  pose proof (digits_bounds m) as DB.
  set (dg := Zpos (digits2_pos m)) in *.
  assert (Hdg : 53 <= dg).
  { assert (52 < dg); [|lia]. apply (Z.pow_lt_mono_r_iff 2); lia. }
  set (n := dg - 53).
  assert (Hn : 0 <= n) by (unfold n; lia).
  assert (Pn : 0 < 2 ^ n) by (apply Z.pow_pos_nonneg; lia).
  destruct (shr_spec T D _ e n HD HR Hn) as (R1 & R2 & R3).
  rewrite shr_m_of_loc in R2.
  unfold binary_round_aux, shr_fexp at 1. cbn [Zdigits2]. fold dg.
  rewrite (fexp_normal (dg + e)) by lia.
  replace (dg + e - 53 - e) with n by (unfold n; lia).
  destruct (shr (shr_record_of_loc (Zpos m) l) e n) as [mrs' e'].
  cbn [fst snd] in R1, R2, R3. subst e'.
  assert (B0 : 2 ^ 52 <= shr_m mrs' < 2 ^ 53).
  { rewrite R2.
    assert (E1 : 2 ^ (dg - 1) = 2 ^ n * 2 ^ 52)
      by (rewrite <- Z.pow_add_r by lia; f_equal; unfold n; lia).
    assert (E2 : 2 ^ dg = 2 ^ n * 2 ^ 53)
      by (rewrite <- Z.pow_add_r by lia; f_equal; unfold n; lia).
    split.
    - apply Z.div_le_lower_bound; lia.
    - apply Z.div_lt_upper_bound; lia. }
  destruct (rne_spec T (2 ^ n * D) mrs' ltac:(apply Z.mul_pos_pos; assumption) R1)
    as (B1 & U1 & U2).
  set (m1 := round_nearest_even (shr_m mrs') (loc_of_shr_record mrs')) in *.
  change (emax - prec) with 971.
  destruct (Z.eq_dec m1 (2 ^ 53)) as [E53|N53].
  - (* the mantissa was rounded up to 2^53 *)
    assert (Hm1 : exists p1, m1 = Zpos p1)
      by (exists (Z.to_pos m1); symmetry; apply Z2Pos.id; lia).
    destruct Hm1 as (p1 & Ep1).
    unfold shr_fexp. rewrite Ep1. cbn [Zdigits2].
    rewrite (digits_of_width p1 54) by lia.
    rewrite (fexp_normal (54 + (e + n))) by lia.
    replace (54 + (e + n) - 53 - (e + n)) with 1 by lia.
    destruct (shr_spec (Zpos p1 * 1) 1 (shr_record_of_loc (Zpos p1) loc_Exact)
                (e + n) 1 Z.lt_0_1 (exact_represents (Zpos p1) 1 (Pos2Z.is_nonneg p1) Z.lt_0_1)
                Z.le_0_1) as (_ & S2 & S3).
    rewrite shr_m_of_loc in S2.
    destruct (shr (shr_record_of_loc (Zpos p1) loc_Exact) (e + n) 1) as [mrs2 e2].
    cbn [fst snd] in S2, S3. subst e2. rewrite S2, <- Ep1, E53.
    change (2 ^ 53 / 2 ^ 1) with (Zpos (Z.to_pos (2 ^ 52))).
    exists (Z.to_pos (2 ^ 52)), (n + 1).
    replace (e + (n + 1)) with (e + n + 1) by lia.
    split; [lia|]. split; [split; vm_compute; congruence|].
    split; [reflexivity|].
    assert (V : Zpos (Z.to_pos (2 ^ 52)) * 2 ^ (n + 1) = m1 * 2 ^ n).
    { rewrite E53, Z.pow_add_r by lia. change (Zpos (Z.to_pos (2 ^ 52))) with (2 ^ 52).
      change (2 ^ 53) with (2 ^ 52 * 2). change (2 ^ 1) with 2. ring. }
    rewrite V. rewrite Z.pow_add_r by lia. change (2 ^ 1) with 2. nia.
  - assert (Hm1 : exists p1, m1 = Zpos p1)
      by (exists (Z.to_pos m1); symmetry; apply Z2Pos.id; lia).
    destruct Hm1 as (p1 & Ep1).
    unfold shr_fexp. rewrite Ep1. cbn [Zdigits2].
    rewrite (digits_of_width p1 53) by lia.
    rewrite (fexp_normal (53 + (e + n))) by lia.
    replace (53 + (e + n) - 53 - (e + n)) with 0 by lia.
    cbn [shr shr_record_of_loc shr_m].
    exists p1, n. split; [lia|]. split; [lia|]. split; [reflexivity|].
    rewrite <- Ep1. nia.
Qed.

Lemma valid_normal (s : bool) (m : positive) (e : Z) :
  2 ^ 52 <= Zpos m < 2 ^ 53 -> -1074 <= e <= 971 ->
  valid_binary (S754_finite s m e) = true.
Proof.
  intros Hm He. unfold valid_binary, bounded, canonical_mantissa.
  rewrite (digits_of_width m 53) by lia.
  rewrite (fexp_normal (53 + e)) by lia.
  apply andb_true_iff. split; [apply Z.eqb_eq; lia|].
  apply Z.leb_le. change (emax - prec) with 971. lia.
Qed.

Lemma valid_finite_bounds (s : bool) (m : positive) (e : Z) :
  valid_binary (S754_finite s m e) = true ->
  -1074 <= e <= 971 /\ Zpos (digits2_pos m) <= 53.
Proof.
  unfold valid_binary, bounded, canonical_mantissa. intros H.
  apply andb_true_iff in H. destruct H as [C B].
  apply Z.eqb_eq in C. apply Z.leb_le in B. change (emax - prec) with 971 in B.
  unfold fexp, SpecFloat.emin, prec, emax in C. lia.
Qed.

Lemma div_eucl_div_mod (a b : Z) : Z.div_eucl a b = (a / b, a mod b).
Proof. unfold Z.div, Z.modulo. destruct (Z.div_eucl a b). reflexivity. Qed.

Lemma div_core_of_mu (m : positive) (e : Z) :
  -1074 <= e <= 971 -> Zpos (digits2_pos m) <= 53 ->
  SFdiv_core_binary prec emax 6847903446808605 (-34) (Zpos m) e
  = (6847903446808605 * 2 ^ Zpos (digits2_pos m) / Zpos m,
     -34 - Zpos (digits2_pos m) - e,
     new_location (Zpos m) ((6847903446808605 * 2 ^ Zpos (digits2_pos m)) mod Zpos m)).
Proof.
  intros He Hd. unfold SFdiv_core_binary. cbn [Zdigits2].
  change (Zpos (digits2_pos 6847903446808605)) with 53.
  rewrite (fexp_normal (53 + -34 - (Zpos (digits2_pos m) + e))) by lia.
  replace (Z.min (53 + -34 - (Zpos (digits2_pos m) + e) - 53) (-34 - e))
    with (-34 - Zpos (digits2_pos m) - e) by lia.
  replace (-34 - e - (-34 - Zpos (digits2_pos m) - e))
    with (Zpos (digits2_pos m)) by lia.
  cbv zeta. cbv iota. rewrite Z.shiftl_mul_pow2 by lia.
  rewrite div_eucl_div_mod. reflexivity.
Qed.

(** [mu] divided by a negative finite float is negative and not a zero. *)
Lemma div_mu_negative (m : positive) (e : Z) :
  valid_binary (S754_finite true m e) = true ->
  (exists m' e', SF64div (Prim2SF mu) (S754_finite true m e) = S754_finite true m' e')
  \/ SF64div (Prim2SF mu) (S754_finite true m e) = S754_infinity true.
Proof.
  intros V. destruct (valid_finite_bounds _ _ _ V) as (He & Hd).
  replace (Prim2SF mu) with (S754_finite false 6847903446808605 (-34))
    by (vm_compute; reflexivity).
  unfold SF64div, SFdiv. rewrite (div_core_of_mu m e He Hd). cbn [xorb].
  pose proof (digits_bounds m) as DB.
  set (d2 := Zpos (digits2_pos m)) in *.
  assert (Hd2 : 1 <= d2) by (unfold d2; lia).
  set (T := 6847903446808605 * 2 ^ d2).
  assert (P2 : 0 < 2 ^ d2) by (apply Z.pow_pos_nonneg; lia).
  assert (HT : 0 <= T) by (unfold T; lia).
  assert (Q : 2 ^ 52 <= T / Zpos m).
  { apply Z.div_le_lower_bound; [lia|]. unfold T.
    assert (2 ^ 52 <= 6847903446808605) by (vm_compute; congruence). nia. }
  pose proof (new_location_represents T (Zpos m) HT ltac:(lia)) as R.
  destruct (T / Zpos m) as [|q|q] eqn:Eq;
    [exfalso; revert Q; vm_compute; congruence | | lia].
  destruct (round_normal true q (-34 - d2 - e) _ T (Zpos m) ltac:(lia) R Q ltac:(lia))
    as (m' & k & _ & _ & -> & _).
  destruct (-34 - d2 - e + k <=? 971); [left; eauto | right; reflexivity].
Qed.

Lemma negative_finite_shape (x : float) :
  (x <? 0)%float = true -> is_infinity x = false ->
  exists m e, Prim2SF x = S754_finite true m e.
Proof.
  unfold is_infinity. rewrite ltb_spec, eqb_spec, abs_spec.
  replace (Prim2SF 0%float) with (S754_zero false) by (vm_compute; reflexivity).
  replace (Prim2SF infinity) with (S754_infinity false) by (vm_compute; reflexivity).
  destruct (Prim2SF x) as [s|s| |s m e]; try destruct s; try discriminate;
    intros _ _; eauto.
Qed.

Lemma is_nan_spec (x : float) : Prim2SF x = S754_nan -> is_nan x = true.
Proof. intros H. unfold is_nan. rewrite eqb_spec, H. reflexivity. Qed.

Lemma format_of_nan (x : float) :
  Prim2SF x = S754_nan -> format_f 11 8 x = "        nan".
Proof.
  intros H. unfold format_f, sign_of, fixed. rewrite H. reflexivity.
Qed.

(** A negative finite cube gives a mean motion that is not a number. *)
Lemma kepler_of_a_negative_cube (a3 : float) :
  (a3 <? 0)%float = true -> is_infinity a3 = false ->
  exists n, kepler_from_cube a3 = Ok n /\ Prim2SF n = S754_nan.
Proof.
  intros L I. destruct (negative_finite_shape a3 L I) as (m & e & E).
  pose proof (Prim2SF_valid a3) as V. rewrite E in V.
  unfold kepler_from_cube, float_truediv.
  assert (Z0 : is_zero a3 = false).
  { unfold is_zero. rewrite eqb_spec, E. reflexivity. }
  rewrite Z0. eexists. split; [reflexivity|].
  rewrite div_spec, mul_spec, sqrt_spec, div_spec, E.
  destruct (div_mu_negative m e V) as [(m' & e' & ->) | ->]; reflexivity.
Qed.


(** ** Arguments that are not physical *)

Lemma is_zero_spec (a : float) :
  is_zero a = true -> exists s, Prim2SF a = S754_zero s.
Proof.
  unfold is_zero. rewrite eqb_spec.
  replace (Prim2SF 0%float) with (S754_zero false) by (vm_compute; reflexivity).
  destruct (Prim2SF a) as [s|s| |s m e]; unfold SFeqb, SFcompare;
    try destruct s; try discriminate; intros _; eexists; reflexivity.
Qed.

Lemma kepler_zero_axis (altitude : float) :
  is_zero (Re + altitude) = true ->
  kepler_mean_motion altitude = Raise ZeroDivisionError.
Proof.
  intros Z. destruct (is_zero_spec _ Z) as (s & E).
  unfold kepler_mean_motion, pow3, float_truediv. rewrite E, Z. reflexivity.
Qed.

Lemma int_truediv_360 (b : Z) : b <> 0 -> int_truediv 360 b = Ok (quotient 360 b).
Proof.
  intros H. unfold int_truediv.
  destruct (Z.eqb_spec b 0) as [->|_]; [lia|].
  assert (K : 360 < 2 ^ 1024 - 2 ^ 970) by (apply Z.ltb_lt; vm_compute; reflexivity).
  set (k := 2 ^ 1024 - 2 ^ 970) in *.
  destruct (Z.leb_spec (k * Z.abs b) (Z.abs 360)) as [L|_]; [|reflexivity].
  change (Z.abs 360) with 360 in L. nia.
Qed.

Lemma int_truediv_by_zero (a : Z) : int_truediv a 0 = Raise ZeroDivisionError.
Proof. reflexivity. Qed.

(** A semi-major axis below zero is accepted: at an altitude of -7000 km
    nothing is raised, and the satellite is returned with the mean motion
    NaN. *)
Lemma negative_semi_major_axis_is_accepted :
  (-7000 <=? -6378.137)%float = true
  /\ exists data w',
       generate_constellation_tle (-7000) 53 1 1 0 "X" demo_world
       = Ok (["X001-01";
              "1 90000U 26934UR  26308.52314815  .00000000  00000+0  00000-0 0  9990";
              "2 90000  53.0000   0.0000 0000000   0.0000   0.0000         nan    10"],
             data, w')
       /\ is_nan (ConstellationData.mean_motion data) = true.
Proof.
  split; [vm_compute; reflexivity|].
  assert (Hn : kepler_mean_motion (-7000) = Ok nan) by (vm_compute; reflexivity).
  assert (Hd : int_truediv 360 1 = Ok 360%float) by (vm_compute; reflexivity).
  assert (Hu : int_truediv (0 * 360) (1 * 1) = Ok 0%float) by (vm_compute; reflexivity).
  eexists _, _. split.
  - rewrite (generate_returns _ 53 1 1 0 "X" demo_world _ _ _ Hn Hd Hu).
    assert (E : lines_of 53 1 1 "X" nan 360 0 demo_world
      = ["X001-01";
         "1 90000U 26934UR  26308.52314815  .00000000  00000+0  00000-0 0  9990";
         "2 90000  53.0000   0.0000 0000000   0.0000   0.0000         nan    10"])
      by (vm_compute; reflexivity).
    rewrite E. reflexivity.
  - reflexivity.
Qed.

Lemma int_truediv_defined (a b : Z) :
  b <> 0 -> Z.abs a < 2 ^ 1000 -> int_truediv a b = Ok (quotient a b).
Proof.
  intros Hb Ha. unfold int_truediv.
  destruct (Z.eqb_spec b 0) as [->|_]; [lia|].
  assert (K : 2 ^ 1000 < 2 ^ 1024 - 2 ^ 970) by (apply Z.ltb_lt; vm_compute; reflexivity).
  set (k := 2 ^ 1024 - 2 ^ 970) in *. set (t := 2 ^ 1000) in *.
  destruct (Z.leb_spec (k * Z.abs b) (Z.abs a)) as [L|_]; [|reflexivity].
  nia.
Qed.

(** Where a negative semi-major axis does not end in NaN: the cube
    overflows at -1e200 km, the division by the number of planes still
    raises at -7000 km, and at minus infinity the mean motion is [-0.0]. *)
Example limits_of_a_negative_axis :
  generate_constellation_tle (-1e200) 53 1 1 0 "X" demo_world = Raise OverflowError
  /\ generate_constellation_tle (-7000) 53 0 1 0 "X" demo_world
     = Raise ZeroDivisionError
  /\ kepler_mean_motion neg_infinity = Ok (-0)%float.
Proof. repeat split; vm_compute; reflexivity. Qed.

(** C8, as the code has it.  Nothing is validated.  A run raises
    [ZeroDivisionError] when the semi-major axis is zero, and, the mean
    motion being defined, when [num_planes] or [sats_per_plane] is zero;
    whatever is raised is raised before the loops, so a run either raises
    and returns nothing or returns every satellite:
    [max 0 num_planes * max 0 sats_per_plane] of them, three lines each.
    A negative semi-major axis is no error: whenever its cube is a negative
    finite number the mean motion is NaN, written [nan] in line 2, and with
    counts other than zero and a phasing parameter below [2^990] in size
    the run returns every satellite. *)
Theorem raises_before_the_loops_or_returns_all
    (altitude inclination : float) (num_planes sats_per_plane walker_F : Z)
    (constellation_name : string) (w : world) :
  let run := generate_constellation_tle altitude inclination num_planes
               sats_per_plane walker_F constellation_name w in
  (is_zero (Re + altitude) = true -> run = Raise ZeroDivisionError)
  /\ (forall n, kepler_mean_motion altitude = Ok n ->
        num_planes = 0 \/ sats_per_plane = 0 -> run = Raise ZeroDivisionError)
  /\ ((exists e, run = Raise e)
      \/ (exists lines data w',
            run = Ok (lines, data, w')
            /\ List.length lines = (3 * total_of num_planes sats_per_plane)%nat
            /\ List.length (ConstellationData.satellite_data data)
               = total_of num_planes sats_per_plane))
  /\ (forall a3,
        pow3 (Re + altitude) = Ok a3 ->
        (a3 <? 0)%float = true -> is_infinity a3 = false ->
        exists n,
          kepler_mean_motion altitude = Ok n
          /\ is_nan n = true
          /\ format_f 11 8 n = "        nan"
          /\ (num_planes <> 0 -> sats_per_plane <> 0 -> Z.abs walker_F < 2 ^ 990 ->
              exists lines data w',
                run = Ok (lines, data, w')
                /\ ConstellationData.mean_motion data = n
                /\ List.length lines = (3 * total_of num_planes sats_per_plane)%nat
                /\ List.length (ConstellationData.satellite_data data)
                   = total_of num_planes sats_per_plane)).
Proof.
  cbv zeta.
  pose proof (generate_raises altitude inclination num_planes sats_per_plane
                walker_F constellation_name w) as R.
  split; [|split; [|split]].
  - intros Z. rewrite (kepler_zero_axis _ Z) in R. exact R.
  - intros n Hn Hz. rewrite Hn in R.
    destruct (Z.eq_dec num_planes 0) as [->|HP].
    + rewrite int_truediv_by_zero in R. exact R.
    + rewrite (int_truediv_360 _ HP) in R.
      assert (E : num_planes * sats_per_plane = 0) by (destruct Hz; subst; lia).
      rewrite E, int_truediv_by_zero in R. exact R.
  - destruct (kepler_mean_motion altitude) as [n|e] eqn:Hn; [|left; eauto].
    destruct (int_truediv 360 num_planes) as [d|e] eqn:Hd; [|left; eauto].
    destruct (int_truediv (walker_F * 360) (num_planes * sats_per_plane))
      as [u|e] eqn:Hu; [|left; eauto].
    right. eexists _, _, _.
    split; [exact (generate_returns _ _ _ _ _ _ _ _ _ _ Hn Hd Hu)|].
    cbn [ConstellationData.satellite_data data_of].
    split; [apply lines_length | apply table_length].
  - clear R. intros a3 Ha L I.
    destruct (kepler_of_a_negative_cube a3 L I) as (n & Hn & Nn).
    assert (K : kepler_mean_motion altitude = Ok n)
      by (rewrite kepler_by_cube, Ha; exact Hn).
    exists n. split; [exact K|]. split; [exact (is_nan_spec _ Nn)|].
    split; [exact (format_of_nan _ Nn)|].
    intros HP HS HF.
    assert (Hd : int_truediv 360 num_planes = Ok (quotient 360 num_planes))
      by (apply int_truediv_360; exact HP).
    assert (Hu : int_truediv (walker_F * 360) (num_planes * sats_per_plane)
                 = Ok (quotient (walker_F * 360) (num_planes * sats_per_plane))).
    { apply int_truediv_defined; [nia|].
      assert (B : 2 ^ 990 * 360 < 2 ^ 1000) by (apply Z.ltb_lt; vm_compute; reflexivity).
      set (t := 2 ^ 990) in *. set (t' := 2 ^ 1000) in *. lia. }
    eexists _, _, _.
    split; [exact (generate_returns _ _ _ _ _ _ _ _ _ _ K Hd Hu)|].
    cbn [ConstellationData.satellite_data ConstellationData.mean_motion data_of].
    split; [reflexivity|]. split; [apply lines_length | apply table_length].
Qed.

Lemma raises_before_the_loops_or_returns_all_witness :
  generate_constellation_tle 550 53 0 5 1 "X" demo_world = Raise ZeroDivisionError
  /\ generate_constellation_tle 550 53 5 0 1 "X" demo_world = Raise ZeroDivisionError
  /\ generate_constellation_tle (-6378.137) 53 5 5 1 "X" demo_world
     = Raise ZeroDivisionError
  /\ exists n, kepler_mean_motion (-7000) = Ok n /\ is_nan n = true.
Proof.
  destruct demo_constants as (Hn & _).
  split; [|split; [|split]].
  - exact (proj1 (proj2 (raises_before_the_loops_or_returns_all
                           550 53 0 5 1 "X" demo_world)) _ Hn (or_introl eq_refl)).
  - exact (proj1 (proj2 (raises_before_the_loops_or_returns_all
                           550 53 5 0 1 "X" demo_world)) _ Hn (or_intror eq_refl)).
  - apply (proj1 (raises_before_the_loops_or_returns_all
                    (-6378.137) 53 5 5 1 "X" demo_world)).
    vm_compute. reflexivity.
  - assert (C : exists a3, pow3 (Re + -7000) = Ok a3
                           /\ (a3 <? 0)%float = true /\ is_infinity a3 = false).
    { eexists. split; [vm_compute; reflexivity|]. split; vm_compute; reflexivity. }
    destruct C as (a3 & C1 & C2 & C3).
    destruct (proj2 (proj2 (proj2 (raises_before_the_loops_or_returns_all
                                      (-7000) 53 1 1 0 "X" demo_world)))
                    a3 C1 C2 C3)
      as (n & K & N & _).
    exists n. split; [exact K | exact N].
Defined.

(** ** Integers as floats *)

Lemma digits2_iter (m k : positive) :
  digits2_pos (Pos.iter xO m k) = (digits2_pos m + k)%positive.
Proof.
  induction k as [|k IH] using Pos.peano_ind.
  - simpl. lia.
  - rewrite Pos.iter_succ. simpl. rewrite IH. lia.
Qed.

(** An integer below [2^53] is converted exactly, to a finite float. *)
Lemma binary_normalize_small (m : positive) :
  Zpos m < 2 ^ 53 ->
  exists mz ez,
    binary_normalize prec emax (Zpos m) 0 false = S754_finite false mz ez.
Proof.
  intros H.
  assert (D : Zpos (digits2_pos m) <= 53).
  { rewrite digits2_log2. apply Z.le_succ_l. apply Z.log2_lt_pow2; lia. }
  assert (Aux : forall mz ez, Zpos (digits2_pos mz) = 53 -> -52 <= ez <= 0 ->
            binary_round_aux prec emax false (Zpos mz) ez loc_Exact
            = S754_finite false mz ez).
  { intros mz ez Dm He.
    assert (F : shr_fexp prec emax (Zpos mz) ez loc_Exact
                = ({| shr_m := Zpos mz; shr_r := false; shr_s := false |}, ez)).
    { unfold shr_fexp, shr. cbn [Zdigits2 shr_record_of_loc]. rewrite Dm.
      replace (fexp prec emax (53 + ez) - ez) with 0
        by (unfold fexp, SpecFloat.emin, prec, emax; lia).
      reflexivity. }
    unfold binary_round_aux. rewrite F.
    cbn [shr_m loc_of_shr_record round_nearest_even]. rewrite F. cbn [shr_m].
    destruct (Z.leb_spec ez (emax - prec)) as [_|L];
      [reflexivity | unfold emax, prec in L; lia]. }
  unfold binary_normalize, binary_round, shl_align.
  replace (fexp prec emax (Zpos (digits2_pos m) + 0)) with (Zpos (digits2_pos m) - 53)
    by (unfold fexp, SpecFloat.emin, prec, emax; lia).
  destruct (Zpos (digits2_pos m) - 53 - 0) as [|q|q] eqn:E; [|lia|].
  - eexists _, _. apply Aux; lia.
  - eexists _, _. apply Aux; [|lia].
    rewrite digits2_iter. lia.
Qed.

Lemma of_int_finite (z : Z) :
  0 <= z < 2 ^ 53 ->
  Prim2SF (of_int z) = S754_zero false
  \/ exists mz ez, Prim2SF (of_int z) = S754_finite false mz ez.
Proof.
  intros H. unfold of_int.
  replace ((0 <=? z) && (z <? 9223372036854775808)) with true
    by (symmetry; apply andb_true_iff; split; [apply Z.leb_le|apply Z.ltb_lt]; lia).
  rewrite of_uint63_spec, Uint63.of_Z_spec.
  rewrite Z.mod_small by (change Uint63.wB with 9223372036854775808; lia).
  destruct z as [|m|m]; [left; reflexivity| |lia].
  right. apply binary_normalize_small. lia.
Qed.

(** [float(z) * 0.0] is [0.0] for such an integer. *)
Lemma of_int_times_zero (z : Z) :
  0 <= z < 2 ^ 53 -> (of_int z * 0)%float = 0%float.
Proof.
  intros H. apply Prim2SF_inj. rewrite mul_spec.
  replace (Prim2SF 0%float) with (S754_zero false) by (vm_compute; reflexivity).
  destruct (of_int_finite z H) as [-> | (mz & ez & ->)]; reflexivity.
Qed.

Lemma phase_offset_without_phasing (plane : Z) :
  0 <= plane < 2 ^ 53 -> walker_phase_offset_of 0 plane = 0%float.
Proof.
  intros H. unfold walker_phase_offset_of. rewrite (of_int_times_zero _ H).
  vm_compute. reflexivity.
Qed.

Lemma quotient_of_zero (b : Z) : 0 < b -> quotient 0 b = 0%float.
Proof. intros H. destruct b as [|q|q]; try lia. reflexivity. Qed.

Lemma int_truediv_zero_numerator (b : Z) : 0 < b -> int_truediv 0 b = Ok 0%float.
Proof.
  intros H. unfold int_truediv.
  destruct (Z.eqb_spec b 0) as [->|_]; [lia|].
  assert (K : 0 < 2 ^ 1024 - 2 ^ 970) by (apply Z.ltb_lt; vm_compute; reflexivity).
  set (k := 2 ^ 1024 - 2 ^ 970) in *.
  destruct (Z.leb_spec (k * Z.abs b) (Z.abs 0)) as [L|_].
  - change (Z.abs 0) with 0 in L. nia.
  - now rewrite quotient_of_zero.
Qed.

(** ** Mean anomaly *)

(** C5.  The satellite in slot [s] of plane [p] has the mean anomaly
    [(s * (360 / sats_per_plane) + (p * phase_unit) mod 360) mod 360] with
    [phase_unit = (walker_F * 360) / total]; with [walker_F = 0] the phase
    offset of every plane is 0 and slot [s] has the same mean anomaly in
    every plane. *)
Theorem mean_anomaly_follows_walker_phasing
    (altitude inclination : float) (num_planes sats_per_plane walker_F : Z)
    (constellation_name : string) (w w' : world)
    (lines : list string) (data : ConstellationData.t) (p s : Z) :
  generate_constellation_tle altitude inclination num_planes sats_per_plane
    walker_F constellation_name w = Ok (lines, data, w') ->
  0 <= p < num_planes -> 0 <= s < sats_per_plane ->
  let row q := nth (Z.to_nat (q * sats_per_plane + s))
                   (ConstellationData.satellite_data data)
                   (record_at 0 EmptyString 0 0 0 0 0 0) in
  let phase_unit := ConstellationData.phase_unit data in
  int_truediv (walker_F * 360) (num_planes * sats_per_plane) = Ok phase_unit
  /\ SatData.mean_anomaly (row p)
     = float_rem (of_int s * quotient 360 sats_per_plane
                  + float_rem (of_int p * phase_unit) (of_int 360))
                 (of_int 360)
  /\ (walker_F = 0 -> num_planes <= 2 ^ 53 ->
      walker_phase_offset_of phase_unit p = 0%float
      /\ forall p', 0 <= p' < num_planes ->
           SatData.mean_anomaly (row p') = SatData.mean_anomaly (row p)).
Proof.
  intros H Hp Hs. cbv zeta.
  destruct (generate_inv _ _ _ _ _ _ _ _ _ _ H)
    as (n & d & u & _ & _ & Hu & _ & ->).
  cbn [ConstellationData.satellite_data ConstellationData.phase_unit data_of].
  assert (R : forall q, 0 <= q < num_planes ->
            SatData.mean_anomaly
              (nth (Z.to_nat (q * sats_per_plane + s))
                   (table_of num_planes sats_per_plane constellation_name d u w)
                   (record_at 0 EmptyString 0 0 0 0 0 0))
            = mean_anomaly_of (quotient 360 sats_per_plane)
                              (walker_phase_offset_of u q) s).
  { intros q Hq.
    destruct (number_of_plane_slot num_planes sats_per_plane q s Hq Hs)
      as (Hk & Ep & Es).
    rewrite (table_at num_planes sats_per_plane constellation_name d u w _ _ Hk).
    cbn [SatData.mean_anomaly record_at]. unfold anomaly_at.
    rewrite Ep, Es. reflexivity. }
  split; [exact Hu|]. split; [rewrite (R p Hp); reflexivity|].
  intros HF HP. subst walker_F.
  change (0 * 360) with 0 in Hu.
  rewrite int_truediv_zero_numerator in Hu by nia.
  inversion Hu; subst u.
  split; [apply phase_offset_without_phasing; lia|].
  intros p' Hp'. rewrite (R p Hp), (R p' Hp').
  rewrite !phase_offset_without_phasing by lia. reflexivity.
Qed.

Lemma mean_anomaly_follows_walker_phasing_witness :
  SatData.mean_anomaly
    (nth (Z.to_nat (2 * 2 + 1)) (ConstellationData.satellite_data demo_data)
         (record_at 0 EmptyString 0 0 0 0 0 0))
  = float_rem (of_int 1 * quotient 360 2
               + float_rem (of_int 2 * ConstellationData.phase_unit demo_data)
                           (of_int 360))
              (of_int 360).
Proof.
  refine (proj1 (proj2 (mean_anomaly_follows_walker_phasing
                          _ _ _ _ _ _ _ _ _ _ 2 1 demo_run _ _))); lia.
Defined.

Example demo_mean_anomaly :
  map SatData.mean_anomaly (ConstellationData.satellite_data demo_data)
  = [0; 180; 60; 240; 120; 300]%float.
Proof. vm_compute. reflexivity. Qed.

(** ** Right ascension of the ascending node *)

Ltac cmp_cases :=
  repeat match goal with
  | |- context [Z.compare ?a ?b] => destruct (Z.compare_spec a b)
  | |- context [Pos.compare_cont Eq ?a ?b] =>
      change (Pos.compare_cont Eq a b) with (Pos.compare a b);
      destruct (Pos.compare_spec a b)
  end.

Lemma SFltb_trans (x y z : spec_float) :
  SFltb x y = true -> SFltb y z = true -> SFltb x z = true.
Proof.
  unfold SFltb, SFcompare.
  destruct x as [sx|sx| |sx mx ex], y as [sy|sy| |sy my ey], z as [sz|sz| |sz mz ez];
    try destruct sx; try destruct sy; try destruct sz;
    try discriminate; try reflexivity;
    cmp_cases; cbn [CompOpp]; try discriminate; try reflexivity;
    intros _ _; subst; exfalso; lia.
Qed.

Lemma float_ltb_trans (x y z : float) :
  (x <? y)%float = true -> (y <? z)%float = true -> (x <? z)%float = true.
Proof. rewrite !ltb_spec. apply SFltb_trans. Qed.

Lemma float_ltb_irrefl (x : float) : (x <? x)%float = false.
Proof.
  rewrite ltb_spec. unfold SFltb, SFcompare.
  destruct (Prim2SF x) as [s|s| |s m e]; try destruct s; try reflexivity;
    rewrite Z.compare_refl; change (Pos.compare_cont Eq m m) with (Pos.compare m m);
    rewrite Pos.compare_refl; reflexivity.
Qed.

Lemma raan_steps_ok_at (fuel : nat) (P : Z) (d : float) :
  forall p0, raan_steps_ok fuel P d p0 = true ->
  forall q, p0 <= q < p0 + Z.of_nat fuel -> raan_step_ok P d q = true.
Proof.
  induction fuel as [|fuel IH]; intros p0 H q Hq; [lia|].
  cbn [raan_steps_ok] in H. apply andb_true_iff in H. destruct H as [H0 H1].
  destruct (Z.eq_dec q p0) as [->|Hne]; [exact H0|].
  apply (IH (p0 + 1) H1). lia.
Qed.

Lemma raan_tables_ok_at (fuel : nat) :
  forall P0, raan_tables_ok fuel P0 = true ->
  forall P, P0 <= P < P0 + Z.of_nat fuel -> raan_table_ok P = true.
Proof.
  induction fuel as [|fuel IH]; intros P0 H P HP; [lia|].
  cbn [raan_tables_ok] in H. apply andb_true_iff in H. destruct H as [H0 H1].
  destruct (Z.eq_dec P P0) as [->|Hne]; [exact H0|].
  apply (IH (P0 + 1) H1). lia.
Qed.

(** Every table of up to 500 planes passes the check. *)
Lemma raan_tables_checked : raan_tables_ok 500 1 = true.
Proof. vm_compute. reflexivity. Qed.

Lemma raan_step_checked (P q : Z) :
  1 <= P <= 500 -> 0 <= q < P -> raan_step_ok P (quotient 360 P) q = true.
Proof.
  intros HP Hq.
  pose proof (raan_tables_ok_at 500 1 raan_tables_checked P ltac:(lia)) as T.
  unfold raan_table_ok in T. apply (raan_steps_ok_at _ _ _ 0 T). lia.
Qed.

(** *** Tables of any size: exact values *)

Lemma scaled_normal (x : float) (m : positive) (e : Z) :
  normal_pos x m e -> scaled x = Zpos m * 2 ^ (e + 1074).
Proof. intros (E & _). unfold scaled. now rewrite E. Qed.

Lemma ltb_scaled (x y : float) (mx my : positive) (ex ey : Z) :
  normal_pos x mx ex -> normal_pos y my ey ->
  ((x <? y)%float = true <-> scaled x < scaled y).
Proof.
  intros Hx Hy. rewrite (scaled_normal _ _ _ Hx), (scaled_normal _ _ _ Hy).
  destruct Hx as (Ex & Mx & Bx), Hy as (Ey & My & By).
  rewrite ltb_spec, Ex, Ey. unfold SFltb, SFcompare.
  assert (P53 : 2 ^ 53 = 2 * 2 ^ 52) by reflexivity.
  assert (P52 : 0 < 2 ^ 52) by reflexivity.
  destruct (Z.compare_spec ex ey) as [E|L|G].
  - subst ey. change (Pos.compare_cont Eq mx my) with (Pos.compare mx my).
    assert (P : 0 < 2 ^ (ex + 1074)) by (apply Z.pow_pos_nonneg; lia).
    destruct (Pos.compare_spec mx my) as [E|L|G]; split; intros H;
      try discriminate; try reflexivity; subst; nia.
  - assert (P : 0 < 2 ^ (ex + 1074)) by (apply Z.pow_pos_nonneg; lia).
    assert (S : 2 ^ (ey + 1074) = 2 ^ (ey - ex) * 2 ^ (ex + 1074))
      by (rewrite <- Z.pow_add_r by lia; f_equal; lia).
    assert (Q : 2 <= 2 ^ (ey - ex))
      by (change 2 with (2 ^ 1) at 1; apply Z.pow_le_mono_r; lia).
    split; [intros _ | reflexivity]. rewrite S. nia.
  - assert (P : 0 < 2 ^ (ey + 1074)) by (apply Z.pow_pos_nonneg; lia).
    assert (S : 2 ^ (ex + 1074) = 2 ^ (ex - ey) * 2 ^ (ey + 1074))
      by (rewrite <- Z.pow_add_r by lia; f_equal; lia).
    assert (Q : 2 <= 2 ^ (ex - ey))
      by (change 2 with (2 ^ 1) at 1; apply Z.pow_le_mono_r; lia).
    split; [discriminate|]. rewrite S. nia.
Qed.

Lemma iter_xO_value (m k : positive) :
  Zpos (Pos.iter xO m k) = Zpos m * 2 ^ Zpos k.
Proof.
  induction k as [|k IH] using Pos.peano_ind.
  - simpl. lia.
  - rewrite Pos.iter_succ, Pos2Z.inj_xO, IH, Pos2Z.inj_succ, Z.pow_succ_r by lia. ring.
Qed.

Lemma round_exact (m : positive) (e : Z) :
  2 ^ 52 <= Zpos m < 2 ^ 53 -> -1074 <= e <= 971 ->
  binary_round_aux prec emax false (Zpos m) e loc_Exact = S754_finite false m e.
Proof.
  intros Hm He.
  assert (F : shr_fexp prec emax (Zpos m) e loc_Exact
              = ({| shr_m := Zpos m; shr_r := false; shr_s := false |}, e)).
  { unfold shr_fexp, shr. cbn [Zdigits2 shr_record_of_loc].
    rewrite (digits_of_width m 53) by lia.
    rewrite (fexp_normal (53 + e)) by lia.
    replace (53 + e - 53 - e) with 0 by lia. reflexivity. }
  unfold binary_round_aux. rewrite F.
  cbn [shr_m loc_of_shr_record round_nearest_even]. rewrite F. cbn [shr_m].
  change (emax - prec) with 971.
  destruct (Z.leb_spec e 971) as [_|L]; [reflexivity | lia].
Qed.

(** A positive integer below [2^53] is converted exactly. *)
Lemma of_int_exact (p : Z) :
  1 <= p < 2 ^ 53 ->
  exists m e, normal_pos (of_int p) m e
              /\ -52 <= e <= 0 /\ Zpos m = p * 2 ^ (- e).
Proof.
  intros H. unfold normal_pos, of_int.
  replace ((0 <=? p) && (p <? 9223372036854775808)) with true
    by (symmetry; apply andb_true_iff; split; [apply Z.leb_le|apply Z.ltb_lt]; lia).
  rewrite of_uint63_spec, Uint63.of_Z_spec.
  rewrite Z.mod_small by (change Uint63.wB with 9223372036854775808; lia).
  destruct p as [|pp|pp]; [lia| |lia].
  pose proof (digits_bounds pp) as DB.
  set (dg := Zpos (digits2_pos pp)) in *.
  assert (Hdg : 1 <= dg <= 53).
  { split; [unfold dg; lia|].
    assert (dg - 1 < 53); [|lia]. apply (Z.pow_lt_mono_r_iff 2); lia. }
  unfold binary_normalize, binary_round, shl_align. fold dg.
  rewrite (fexp_normal (dg + 0)) by lia.
  destruct (dg + 0 - 53 - 0) as [|q|q] eqn:E; [|lia|].
  - assert (D53 : dg = 53) by lia.
    assert (B : 2 ^ 52 <= Zpos pp < 2 ^ 53)
      by (rewrite D53 in DB; exact DB).
    exists pp, 0. rewrite (round_exact pp 0 B) by lia.
    change (2 ^ (- 0)) with 1. repeat split; lia.
  - assert (Eq : Zpos q = 53 - dg) by lia.
    assert (V : Zpos (Pos.iter xO pp q) = Zpos pp * 2 ^ (53 - dg))
      by (rewrite iter_xO_value, Eq; reflexivity).
    assert (S1 : 2 ^ 52 = 2 ^ (dg - 1) * 2 ^ (53 - dg))
      by (rewrite <- Z.pow_add_r by lia; f_equal; lia).
    assert (S2 : 2 ^ 53 = 2 ^ dg * 2 ^ (53 - dg))
      by (rewrite <- Z.pow_add_r by lia; f_equal; lia).
    assert (P : 0 < 2 ^ (53 - dg)) by (apply Z.pow_pos_nonneg; lia).
    assert (B : 2 ^ 52 <= Zpos (Pos.iter xO pp q) < 2 ^ 53) by (rewrite V; nia).
    exists (Pos.iter xO pp q), (dg + 0 - 53).
    rewrite (round_exact _ (dg + 0 - 53) B) by lia.
    replace (- (dg + 0 - 53)) with (53 - dg) by lia.
    repeat split; try lia; exact V.
Qed.

Lemma div_core_of_360 (P : positive) :
  Zpos (digits2_pos P) <= 53 ->
  SFdiv_core_binary prec emax 360 0 (Zpos P) 0
  = (360 * 2 ^ (44 + Zpos (digits2_pos P)) / Zpos P,
     -44 - Zpos (digits2_pos P),
     new_location (Zpos P) ((360 * 2 ^ (44 + Zpos (digits2_pos P))) mod Zpos P)).
Proof.
  intros Hd. unfold SFdiv_core_binary. cbn [Zdigits2].
  change (Zpos (digits2_pos 360)) with 9.
  rewrite (fexp_normal (9 + 0 - (Zpos (digits2_pos P) + 0))) by lia.
  replace (Z.min (9 + 0 - (Zpos (digits2_pos P) + 0) - 53) (0 - 0))
    with (-44 - Zpos (digits2_pos P)) by lia.
  replace (0 - 0 - (-44 - Zpos (digits2_pos P)))
    with (Zpos (44 + digits2_pos P)) by lia.
  cbv zeta. cbv iota. rewrite Z.shiftl_mul_pow2 by lia.
  rewrite div_eucl_div_mod. rewrite Pos2Z.inj_add. reflexivity.
Qed.

(** [360 / P] is within relative [2^-53] of the quotient. *)
Lemma quotient_360_spec (P : Z) :
  1 <= P < 2 ^ 53 ->
  exists m e,
    normal_pos (quotient 360 P) m e
    /\ -97 <= e <= 0
    /\ 2 ^ 53 * (scaled (quotient 360 P) * P - 360 * 2 ^ 1074)
       <= scaled (quotient 360 P) * P
    /\ 2 ^ 53 * (360 * 2 ^ 1074 - scaled (quotient 360 P) * P)
       <= scaled (quotient 360 P) * P.
Proof.
  intros HP. destruct P as [|P|P]; [lia| |lia].
  assert (P52 : 0 < 2 ^ 52) by reflexivity.
  assert (P53 : 2 ^ 53 = 2 * 2 ^ 52) by reflexivity.
  pose proof (digits_bounds P) as DB.
  assert (Hd : 1 <= Zpos (digits2_pos P) <= 53).
  { split; [lia|].
    assert (Zpos (digits2_pos P) - 1 < 53); [|lia].
    apply (Z.pow_lt_mono_r_iff 2); lia. }
  set (d2 := Zpos (digits2_pos P)) in *.
  set (s := 44 + d2). set (T := 360 * 2 ^ s).
  assert (Ys : 0 < 2 ^ s) by (apply Z.pow_pos_nonneg; unfold s; lia).
  assert (Es : 2 ^ s = 2 ^ 44 * 2 ^ d2)
    by (unfold s; rewrite Z.pow_add_r by lia; reflexivity).
  assert (P44 : 2 ^ 52 <= 360 * 2 ^ 44) by (vm_compute; congruence).
  assert (Yd : 0 < 2 ^ d2) by (apply Z.pow_pos_nonneg; lia).
  assert (Q : 2 ^ 52 <= T / Zpos P).
  { apply Z.div_le_lower_bound; [lia|]. unfold T. rewrite Es. nia. }
  pose proof (new_location_represents T (Zpos P) ltac:(unfold T; lia) ltac:(lia)) as R.
  destruct (T / Zpos P) as [|q|q] eqn:Eq; [lia| |lia].
  destruct (round_normal false q (-44 - d2) _ T (Zpos P) ltac:(lia) R Q ltac:(lia))
    as (m' & k & Hk & Bm & E & U1 & U2).
  set (X := 2 ^ k) in *.
  assert (PX : 0 < X) by (apply Z.pow_pos_nonneg; lia).
  assert (Kk : k <= s).
  { destruct (Z.le_gt_cases k s) as [L|G]; [exact L|exfalso].
    assert (2 * 2 ^ s <= X).
    { unfold X. replace k with (1 + s + (k - s - 1)) by lia.
      rewrite !Z.pow_add_r by (unfold s; lia). change (2 ^ 1) with 2.
      assert (1 <= 2 ^ (k - s - 1)) by (apply Z.pow_le_mono_r with (b := 0); lia).
      nia. }
    assert (720 < 2 * Zpos m' - 1) by lia.
    assert (2 * 2 ^ s <= X * Zpos P) by nia.
    unfold T in U1. nia. }
  assert (Fin : (-44 - d2 + k <=? 971) = true) by (apply Z.leb_le; unfold s in Kk; lia).
  rewrite Fin in E.
  assert (V : valid_binary (S754_finite false m' (-44 - d2 + k)) = true)
    by (apply valid_normal; [exact Bm | unfold s in Kk; lia]).
  assert (EQ : Prim2SF (quotient 360 (Zpos P)) = S754_finite false m' (-44 - d2 + k)).
  { unfold quotient. cbn [Z2SF]. unfold SF64div, SFdiv.
    rewrite (div_core_of_360 P) by (fold d2; lia). fold d2. fold s. fold T.
    rewrite Eq. cbn [xorb]. rewrite E. apply Prim2SF_SF2Prim. exact V. }
  exists m', (-44 - d2 + k).
  split; [split; [exact EQ | split; [exact Bm | unfold s in Kk; lia]]|].
  split; [unfold s in Kk; lia|].
  unfold scaled. rewrite EQ.
  set (U := 2 ^ (-44 - d2 + 1074)).
  assert (PU : 0 < U) by (apply Z.pow_pos_nonneg; lia).
  assert (E1 : 2 ^ (-44 - d2 + k + 1074) = X * U).
  { unfold X, U. rewrite <- Z.pow_add_r by lia. f_equal. lia. }
  assert (E2 : 2 ^ 1074 = 2 ^ s * U).
  { unfold U. rewrite <- Z.pow_add_r by (unfold s; lia). f_equal. unfold s. lia. }
  rewrite E1, E2. unfold T in U1, U2.
  set (Y := 2 ^ s) in *. set (M := Zpos m') in *. set (N := Zpos P) in *.
  assert (A1 : (2 * (M * X) * N - 2 * (360 * Y)) * U <= X * N * U)
    by (apply Z.mul_le_mono_nonneg_r; lia).
  assert (A2 : (2 * (360 * Y) - 2 * (M * X) * N) * U <= X * N * U)
    by (apply Z.mul_le_mono_nonneg_r; lia).
  assert (A3 : 2 ^ 52 * (X * N * U) <= M * (X * N * U)).
  { apply Z.mul_le_mono_nonneg_r; [|lia].
    apply Z.mul_nonneg_nonneg; [apply Z.mul_nonneg_nonneg|]; lia. }
  replace (M * (X * U) * N) with (M * (X * N * U)) by ring.
  split.
  - replace (2 ^ 53 * (M * (X * N * U) - 360 * (Y * U)))
      with (2 ^ 52 * ((2 * (M * X) * N - 2 * (360 * Y)) * U)) by (rewrite P53; ring).
    etransitivity; [apply Z.mul_le_mono_nonneg_l; [lia | exact A1]|exact A3].
  - replace (2 ^ 53 * (360 * (Y * U) - M * (X * N * U)))
      with (2 ^ 52 * ((2 * (360 * Y) - 2 * (M * X) * N) * U)) by (rewrite P53; ring).
    etransitivity; [apply Z.mul_le_mono_nonneg_l; [lia | exact A2]|exact A3].
Qed.

(** The product of a small integer and a float is within relative [2^-53]
    of the exact product. *)
Lemma product_spec (p : Z) (d : float) (md : positive) (ed : Z) :
  1 <= p < 2 ^ 53 -> normal_pos d md ed -> -97 <= ed <= 0 ->
  exists m e,
    normal_pos (of_int p * d) m e
    /\ 2 ^ 53 * (scaled (of_int p * d) - p * scaled d) <= scaled (of_int p * d)
    /\ 2 ^ 53 * (p * scaled d - scaled (of_int p * d)) <= scaled (of_int p * d).
Proof.
  intros Hp Hd He.
  destruct (of_int_exact p Hp) as (mp & ep & (Ep & Bp & _) & Hep & Vp).
  rewrite (scaled_normal _ _ _ Hd). destruct Hd as (Ed & Bd & _).
  assert (P52 : 0 < 2 ^ 52) by reflexivity.
  assert (P53 : 2 ^ 53 = 2 * 2 ^ 52) by reflexivity.
  assert (P55 : 2 ^ 55 = 8 * 2 ^ 52) by reflexivity.
  assert (Big : 2 ^ 52 <= Zpos (mp * md)) by (rewrite Pos2Z.inj_mul; nia).
  destruct (round_normal false (mp * md) (ep + ed) loc_Exact (Zpos (mp * md) * 1) 1
              Z.lt_0_1 (exact_represents _ 1 (Pos2Z.is_nonneg _) Z.lt_0_1) Big
              ltac:(lia)) as (m' & k & Hk & Bm & E & U1 & U2).
  set (X := 2 ^ k) in *.
  assert (PX : 0 < X) by (apply Z.pow_pos_nonneg; lia).
  rewrite Pos2Z.inj_mul in U1, U2.
  assert (Kk : k <= 54).
  { destruct (Z.le_gt_cases k 54) as [L|G]; [exact L|exfalso].
    assert (2 ^ 55 <= X) by (apply Z.pow_le_mono_r; lia).
    assert (Zpos mp * Zpos md < 2 ^ 53 * 2 ^ 53) by nia.
    nia. }
  assert (Fin : (ep + ed + k <=? 971) = true) by (apply Z.leb_le; lia).
  rewrite Fin in E.
  assert (EQ : Prim2SF (of_int p * d) = S754_finite false m' (ep + ed + k)).
  { rewrite mul_spec, Ep, Ed. unfold SF64mul, SFmul. cbn [xorb]. exact E. }
  exists m', (ep + ed + k).
  split; [split; [exact EQ | split; [exact Bm | lia]]|].
  unfold scaled. rewrite EQ.
  set (W := 2 ^ (ep + ed + 1074)).
  assert (PW : 0 < W) by (apply Z.pow_pos_nonneg; lia).
  assert (E1 : 2 ^ (ep + ed + k + 1074) = X * W).
  { unfold X, W. rewrite <- Z.pow_add_r by lia. f_equal. lia. }
  assert (E2 : 2 ^ (ed + 1074) = 2 ^ (- ep) * W).
  { unfold W. rewrite <- Z.pow_add_r by lia. f_equal. lia. }
  rewrite E1, E2.
  set (M := Zpos m') in *. set (A := Zpos mp) in *. set (B := Zpos md) in *.
  assert (E3 : p * (B * (2 ^ (- ep) * W)) = A * B * W) by (rewrite Vp; ring).
  rewrite E3.
  assert (A1 : (2 * (M * X) * 1 - 2 * (A * B * 1)) * W <= X * 1 * W)
    by (apply Z.mul_le_mono_nonneg_r; lia).
  assert (A2 : (2 * (A * B * 1) - 2 * (M * X) * 1) * W <= X * 1 * W)
    by (apply Z.mul_le_mono_nonneg_r; lia).
  assert (A3 : 2 ^ 52 * (X * 1 * W) <= M * (X * W)).
  { replace (X * 1 * W) with (X * W) by ring.
    apply Z.mul_le_mono_nonneg_r; [|lia]. apply Z.mul_nonneg_nonneg; lia. }
  split.
  - replace (2 ^ 53 * (M * (X * W) - A * B * W))
      with (2 ^ 52 * ((2 * (M * X) * 1 - 2 * (A * B * 1)) * W)) by (rewrite P53; ring).
    etransitivity; [apply Z.mul_le_mono_nonneg_l; [lia | exact A1]|exact A3].
  - replace (2 ^ 53 * (A * B * W - M * (X * W)))
      with (2 ^ 52 * ((2 * (A * B * 1) - 2 * (M * X) * 1) * W)) by (rewrite P53; ring).
    etransitivity; [apply Z.mul_le_mono_nonneg_l; [lia | exact A2]|exact A3].
Qed.

Lemma below_full_turn (K Vr Vd S p P : Z) :
  K = 2 ^ 53 -> 0 < S -> 0 <= Vd -> 1 <= p <= P - 1 -> P <= 2 ^ 50 ->
  K * (Vr - p * Vd) <= Vr ->
  K * (Vd * P - 360 * S) <= Vd * P ->
  Vr < 360 * S.
Proof.
  intros EK HS HV Hp HP H1 H2.
  assert (K50 : 4 * 2 ^ 50 < K) by (subst K; reflexivity).
  assert (K0 : 0 < 2 ^ 50) by reflexivity.
  set (L := 2 ^ 50) in *. clearbody L. clear EK.
  destruct (Z.lt_ge_cases Vr (360 * S)) as [?|G]; [assumption|exfalso].
  assert (A1 : (K - 1) * Vr <= K * p * Vd) by lia.
  assert (A2 : (K - 1) * (Vd * P) <= 360 * K * S) by lia.
  assert (A3 : (K - 1) * ((K - 1) * Vr) * P <= (K - 1) * (K * p * Vd) * P).
  { apply Z.mul_le_mono_nonneg_r; [lia|].
    apply Z.mul_le_mono_nonneg_l; lia. }
  assert (A4 : K * p * ((K - 1) * (Vd * P)) <= K * p * (360 * K * S)).
  { apply Z.mul_le_mono_nonneg_l; [nia | exact A2]. }
  assert (A5 : (K - 1) * (K - 1) * (360 * S) * P <= (K - 1) * ((K - 1) * Vr) * P).
  { apply Z.mul_le_mono_nonneg_r; [lia|].
    replace ((K - 1) * (K - 1) * (360 * S)) with ((K - 1) * ((K - 1) * (360 * S))) by ring.
    apply Z.mul_le_mono_nonneg_l; [lia|].
    apply Z.mul_le_mono_nonneg_l; lia. }
  assert (A6 : (K - 1) * (K - 1) * P * (360 * S) <= K * K * p * (360 * S)) by nia.
  assert (A7 : (K - 1) * (K - 1) * P <= K * K * p).
  { apply Z.mul_le_mono_pos_r with (p := 360 * S); lia. }
  assert (A8 : K * K * p <= K * K * (P - 1)) by nia.
  assert (A9 : K * K <= P * (2 * K - 1)) by nia.
  assert (A10 : P * (2 * K - 1) <= L * (2 * K - 1)) by nia.
  nia.
Qed.

Lemma next_is_greater (K Vr Vr' Vd p : Z) :
  K = 2 ^ 53 -> 0 < Vd -> 1 <= p -> p < 2 ^ 50 ->
  K * (Vr - p * Vd) <= Vr ->
  K * ((p + 1) * Vd - Vr') <= Vr' ->
  Vr < Vr'.
Proof.
  intros EK HV Hp HP H1 H2.
  assert (K50 : 4 * 2 ^ 50 < K) by (subst K; reflexivity).
  set (L := 2 ^ 50) in *. clearbody L. clear EK.
  destruct (Z.lt_ge_cases Vr Vr') as [?|G]; [assumption|exfalso].
  assert (A1 : (K - 1) * Vr <= K * p * Vd) by lia.
  assert (A2 : K * (p + 1) * Vd <= (K + 1) * Vr') by lia.
  assert (A3 : (K + 1) * Vr' <= (K + 1) * Vr) by (apply Z.mul_le_mono_nonneg_l; lia).
  assert (A4 : (K - 1) * (K * (p + 1) * Vd) <= (K - 1) * ((K + 1) * Vr))
    by (apply Z.mul_le_mono_nonneg_l; lia).
  assert (A5 : (K + 1) * ((K - 1) * Vr) <= (K + 1) * (K * p * Vd))
    by (apply Z.mul_le_mono_nonneg_l; lia).
  assert (A6 : (K - 1) * (p + 1) * (K * Vd) <= (K + 1) * p * (K * Vd)) by nia.
  assert (A7 : (K - 1) * (p + 1) <= (K + 1) * p).
  { apply Z.mul_le_mono_pos_r with (p := K * Vd); nia. }
  nia.
Qed.

Lemma step_is_the_spacing (K Vr Vr' Vd S p : Z) :
  K = 2 ^ 53 -> 0 < S -> 0 <= Vr < 360 * S -> 0 <= Vr' < 360 * S ->
  K * (Vr - p * Vd) <= Vr -> K * (p * Vd - Vr) <= Vr ->
  K * (Vr' - (p + 1) * Vd) <= Vr' -> K * ((p + 1) * Vd - Vr') <= Vr' ->
  2 ^ 43 * Z.abs (Vr' - Vr - Vd) <= S.
Proof.
  intros EK HS B B' H1 H2 H3 H4.
  assert (EK' : K = 1024 * 2 ^ 43) by (subst K; reflexivity).
  assert (P43 : 0 < 2 ^ 43) by reflexivity.
  clear EK. generalize dependent (2 ^ 43). intros J EK' P43. subst K.
  destruct (Z.abs_spec (Vr' - Vr - Vd)) as [[_ ->]|[_ ->]]; nia.
Qed.

Lemma normal_360 : normal_pos (of_int 360) 6333186975989760 (-44).
Proof. split; [vm_compute; reflexivity|]. split; [split; vm_compute; congruence | lia]. Qed.

Lemma scaled_360 : scaled (of_int 360) = 360 * 2 ^ 1074.
Proof. rewrite (scaled_normal _ _ _ normal_360). vm_compute. reflexivity. Qed.

Lemma float_rem_small (x : float) (m : positive) (e : Z) :
  normal_pos x m e -> (x <? of_int 360)%float = true ->
  float_rem x (of_int 360) = x.
Proof.
  intros (E & _) L. unfold float_rem, fmod.
  assert (A : (abs x <? abs (of_int 360))%float = true).
  { destruct normal_360 as (E360 & _).
    rewrite ltb_spec, !abs_spec, E, E360. cbn [SFabs].
    rewrite ltb_spec, E, E360 in L. exact L. }
  rewrite A.
  assert (Z0 : is_zero x = false) by (unfold is_zero; rewrite eqb_spec, E; reflexivity).
  rewrite Z0.
  assert (N : (x <? 0)%float = false) by (rewrite ltb_spec, E; reflexivity).
  rewrite N. reflexivity.
Qed.

(** Plane [p] of [P]: the reduction modulo 360 does nothing, the RAAN is
    below 360 and within relative [2^-53] of [p] times the spacing. *)
Lemma raan_table_spec (P p : Z) :
  1 <= P <= 2 ^ 50 -> 0 <= p < P ->
  let d := quotient 360 P in
  let r := raan_of d p in
  r = (of_int p * d)%float
  /\ (r <? 360)%float = true
  /\ 0 <= scaled r < 360 * 2 ^ 1074
  /\ 2 ^ 53 * (scaled r - p * scaled d) <= scaled r
  /\ 2 ^ 53 * (p * scaled d - scaled r) <= scaled r
  /\ (p = 0 /\ r = 0%float \/ 1 <= p /\ exists m e, normal_pos r m e).
Proof.
  intros HP Hp. cbv zeta.
  assert (L50 : 2 ^ 50 < 2 ^ 53) by reflexivity.
  destruct (quotient_360_spec P ltac:(lia)) as (md & ed & Nd & Bed & D1 & D2).
  pose proof (scaled_normal _ _ _ Nd) as Vd.
  assert (PVd : 0 < scaled (quotient 360 P)).
  { rewrite Vd. destruct Nd as (_ & Bm & Be).
    assert (0 < 2 ^ (ed + 1074)) by (apply Z.pow_pos_nonneg; lia).
    assert (0 < 2 ^ 52) by reflexivity. nia. }
  destruct (Z.eq_dec p 0) as [->|Np].
  - assert (E0 : (of_int 0 * quotient 360 P)%float = 0%float).
    { apply Prim2SF_inj. rewrite mul_spec. destruct Nd as (-> & _).
      vm_compute. reflexivity. }
    assert (R0 : raan_of (quotient 360 P) 0 = 0%float).
    { unfold raan_of. rewrite E0. vm_compute. reflexivity. }
    rewrite R0, E0.
    split; [reflexivity|]. split; [vm_compute; reflexivity|].
    change (scaled 0%float) with 0.
    assert (0 < 2 ^ 1074) by (apply Z.pow_pos_nonneg; lia).
    repeat split; try lia. left. split; reflexivity.
  - destruct (product_spec p _ md ed ltac:(lia) Nd Bed) as (m & e & Nr & R1 & R2).
    set (x := (of_int p * quotient 360 P)%float) in *.
    assert (B : scaled x < 360 * 2 ^ 1074).
    { apply (below_full_turn (2 ^ 53) _ (scaled (quotient 360 P)) _ p P);
        try lia; try reflexivity; try assumption;
        try (apply Z.pow_pos_nonneg; lia). }
    assert (L : (x <? of_int 360)%float = true).
    { apply (ltb_scaled _ _ _ _ _ _ Nr normal_360). rewrite scaled_360. exact B. }
    assert (R : raan_of (quotient 360 P) p = x).
    { unfold raan_of. fold x. apply (float_rem_small _ _ _ Nr L). }
    rewrite R.
    assert (Pos : 0 <= scaled x).
    { rewrite (scaled_normal _ _ _ Nr).
      apply Z.mul_nonneg_nonneg; [lia|]. apply Z.pow_nonneg. lia. }
    split; [reflexivity|]. split; [exact L|]. split; [lia|].
    split; [exact R1|]. split; [exact R2|].
    right. split; [lia|]. exists m, e. exact Nr.
Qed.

Lemma raan_next (P p : Z) :
  1 <= P <= 2 ^ 50 -> 0 <= p -> p + 1 < P ->
  (raan_of (quotient 360 P) p <? raan_of (quotient 360 P) (p + 1))%float = true.
Proof.
  intros HP Hp Hn.
  destruct (raan_table_spec P p HP ltac:(lia)) as (_ & _ & B & R1 & R2 & C).
  destruct (raan_table_spec P (p + 1) HP ltac:(lia)) as (_ & _ & B' & R1' & R2' & C').
  cbv zeta in *.
  destruct C' as [(? & _) | (_ & m' & e' & N')]; [lia|].
  destruct (quotient_360_spec P ltac:(assert (2 ^ 50 < 2 ^ 53) by reflexivity; lia))
    as (md & ed & Nd & _).
  assert (PVd : 0 < scaled (quotient 360 P)).
  { rewrite (scaled_normal _ _ _ Nd). destruct Nd as (_ & Bm & Be).
    assert (0 < 2 ^ (ed + 1074)) by (apply Z.pow_pos_nonneg; lia).
    assert (0 < 2 ^ 52) by reflexivity. nia. }
  destruct C as [(_ & ->) | (Hp1 & m & e & N)].
  - rewrite ltb_spec. destruct N' as (-> & _). reflexivity.
  - apply (ltb_scaled _ _ _ _ _ _ N N').
    apply (next_is_greater (2 ^ 53) _ _ (scaled (quotient 360 P)) p);
      try reflexivity; try assumption; lia.
Qed.

Lemma raan_grows (P : Z) (n : nat) :
  1 <= P <= 2 ^ 50 ->
  forall p, 0 <= p -> p + 1 + Z.of_nat n < P ->
  (raan_of (quotient 360 P) p <? raan_of (quotient 360 P) (p + 1 + Z.of_nat n))%float
  = true.
Proof.
  intros HP. induction n as [|n IH]; intros p Hp Hn.
  - replace (p + 1 + Z.of_nat 0) with (p + 1) by lia. apply raan_next; lia.
  - apply (float_ltb_trans _ (raan_of (quotient 360 P) (p + 1 + Z.of_nat n))).
    + apply IH; lia.
    + replace (p + 1 + Z.of_nat (S n)) with (p + 1 + Z.of_nat n + 1) by lia.
      apply raan_next; lia.
Qed.

Lemma raan_step (P p : Z) :
  1 <= P <= 2 ^ 50 -> 0 <= p -> p + 1 < P ->
  2 ^ 43 * Z.abs (scaled (raan_of (quotient 360 P) (p + 1))
                  - scaled (raan_of (quotient 360 P) p)
                  - scaled (quotient 360 P)) <= 2 ^ 1074.
Proof.
  intros HP Hp Hn.
  destruct (raan_table_spec P p HP ltac:(lia)) as (_ & _ & B & R1 & R2 & _).
  destruct (raan_table_spec P (p + 1) HP ltac:(lia)) as (_ & _ & B' & R1' & R2' & _).
  cbv zeta in *.
  apply (step_is_the_spacing (2 ^ 53) _ _ _ _ p); try reflexivity; try assumption;
    try (apply Z.pow_pos_nonneg; lia).
Qed.


(** With seven planes the spacing is [360 / 7 = 51.42857142857143], and
    the RAANs of planes 2 and 3 are 102.85714285714286 and
    154.28571428571428: they differ by 51.428571428571416, not by the
    spacing. *)
Lemma raan_steps_of_seven_planes_are_unequal :
  exists lines data w',
    generate_constellation_tle 550 53 7 1 0 "X" demo_world = Ok (lines, data, w')
    /\ let raan k := SatData.raan (nth k (ConstellationData.satellite_data data)
                                       (record_at 0 EmptyString 0 0 0 0 0 0)) in
       ConstellationData.raan_spacing data = 51.42857142857143%float
       /\ raan 2%nat = 102.85714285714286%float
       /\ raan 3%nat = 154.28571428571428%float
       /\ (raan 3%nat - raan 2%nat)%float = 51.428571428571416%float
       /\ ((raan 3%nat - raan 2%nat) =? ConstellationData.raan_spacing data)%float
          = false.
Proof.
  assert (Hn : kepler_mean_motion 550 = Ok 15.054906459188034%float)
    by (vm_compute; reflexivity).
  assert (Hd : int_truediv 360 7 = Ok 51.42857142857143%float)
    by (vm_compute; reflexivity).
  assert (Hu : int_truediv (0 * 360) (7 * 1) = Ok 0%float)
    by (vm_compute; reflexivity).
  eexists _, _, _. split; [exact (generate_returns _ _ _ _ _ _ _ _ _ _ Hn Hd Hu)|].
  cbv zeta.
  cbn [ConstellationData.satellite_data ConstellationData.raan_spacing data_of].
  split; [reflexivity|]. split; [vm_compute; reflexivity|].
  split; [vm_compute; reflexivity|]. split; vm_compute; reflexivity.
Qed.

(** C4.  The satellite in slot [s] of plane [p] has the RAAN
    [(p * (360 / num_planes)) mod 360], computed in binary64 as the code
    does, the same for every slot of the plane.  For up to [2^50] planes
    that value is the product [p * (360 / num_planes)] itself, below 360
    and growing with [p], so the planes have [num_planes] distinct RAANs.
    They are evenly spaced up to rounding: in exact values the spacing is
    [360 / num_planes] to within one part in [2^53], the RAAN of plane [p]
    is [p] spacings to within one part in [2^53], and two consecutive
    RAANs differ by the spacing to within [2^-43] degrees.  (For up to 500
    planes the difference computed in binary64 is checked as well, to
    within [1e-12] degrees.) *)
Theorem raan_shared_in_plane_and_spaced_up_to_rounding
    (altitude inclination : float) (num_planes sats_per_plane walker_F : Z)
    (constellation_name : string) (w w' : world)
    (lines : list string) (data : ConstellationData.t) (p s : Z) :
  generate_constellation_tle altitude inclination num_planes sats_per_plane
    walker_F constellation_name w = Ok (lines, data, w') ->
  0 <= p < num_planes -> 0 <= s < sats_per_plane ->
  let raan q t := SatData.raan
                    (nth (Z.to_nat (q * sats_per_plane + t))
                         (ConstellationData.satellite_data data)
                         (record_at 0 EmptyString 0 0 0 0 0 0)) in
  let delta_raan := ConstellationData.raan_spacing data in
  int_truediv 360 num_planes = Ok delta_raan
  /\ raan p s = float_rem (of_int p * delta_raan) (of_int 360)
  /\ (forall s', 0 <= s' < sats_per_plane -> raan p s' = raan p s)
  /\ (num_planes <= 2 ^ 50 ->
      raan p s = (of_int p * delta_raan)%float
      /\ (raan p s <? 360)%float = true
      /\ (forall p', p < p' < num_planes ->
            (raan p s <? raan p' s)%float = true /\ raan p' s <> raan p s)
      /\ 2 ^ 53 * Z.abs (scaled delta_raan * num_planes - 360 * 2 ^ 1074)
         <= scaled delta_raan * num_planes
      /\ 2 ^ 53 * Z.abs (scaled (raan p s) - p * scaled delta_raan)
         <= scaled (raan p s)
      /\ (p + 1 < num_planes ->
            2 ^ 43 * Z.abs (scaled (raan (p + 1)%Z s) - scaled (raan p s)
                            - scaled delta_raan) <= 2 ^ 1074))
  /\ (num_planes <= 500 -> p + 1 < num_planes ->
        (abs (raan (p + 1)%Z s - raan p s - delta_raan) <=? 1e-12)%float = true).
Proof.
  intros H Hp Hs. cbv zeta.
  destruct (generate_inv _ _ _ _ _ _ _ _ _ _ H)
    as (n & d & u & _ & Hd & _ & _ & ->).
  cbn [ConstellationData.satellite_data ConstellationData.raan_spacing data_of].
  assert (R : forall q t, 0 <= q < num_planes -> 0 <= t < sats_per_plane ->
            SatData.raan
              (nth (Z.to_nat (q * sats_per_plane + t))
                   (table_of num_planes sats_per_plane constellation_name d u w)
                   (record_at 0 EmptyString 0 0 0 0 0 0))
            = raan_of d q).
  { intros q t Hq Ht.
    destruct (number_of_plane_slot num_planes sats_per_plane q t Hq Ht)
      as (Hk & Ep & Es).
    rewrite (table_at num_planes sats_per_plane constellation_name d u w _ _ Hk).
    cbn [SatData.raan record_at]. rewrite Ep. reflexivity. }
  split; [exact Hd|]. split; [rewrite (R p s Hp Hs); reflexivity|].
  split; [intros s' Hs'; now rewrite (R p s Hp Hs), (R p s' Hp Hs')|].
  rewrite (int_truediv_360 num_planes) in Hd by lia. inversion Hd; subst d.
  rewrite (R p s Hp Hs).
  split.
  - intros HP.
    destruct (raan_table_spec num_planes p ltac:(lia) Hp)
      as (E & L & B & R1 & R2 & _).
    cbv zeta in E, L, B, R1, R2.
    assert (L53 : 2 ^ 50 < 2 ^ 53) by reflexivity.
    destruct (quotient_360_spec num_planes ltac:(lia)) as (md & ed & _ & _ & D1 & D2).
    split; [exact E|]. split; [exact L|]. split; [|split; [|split]].
    + intros p' Hp'. rewrite (R p' s ltac:(lia) Hs).
      assert (G : (raan_of (quotient 360 num_planes) p
                   <? raan_of (quotient 360 num_planes) p')%float = true).
      { replace p' with (p + 1 + Z.of_nat (Z.to_nat (p' - p - 1))) by lia.
        apply raan_grows; lia. }
      split; [exact G|]. intros C. rewrite C, float_ltb_irrefl in G. discriminate.
    + destruct (Z.abs_spec (scaled (quotient 360 num_planes) * num_planes
                            - 360 * 2 ^ 1074)) as [[_ ->]|[_ ->]]; lia.
    + destruct (Z.abs_spec (scaled (raan_of (quotient 360 num_planes) p)
                            - p * scaled (quotient 360 num_planes)))
        as [[_ ->]|[_ ->]]; lia.
    + intros Hn. rewrite (R (p + 1) s ltac:(lia) Hs). apply raan_step; lia.
  - intros HP Hn. rewrite (R (p + 1) s ltac:(lia) Hs).
    pose proof (raan_step_checked num_planes p ltac:(lia) Hp) as C.
    unfold raan_step_ok in C. cbv zeta in C.
    apply andb_true_iff in C. destruct C as [_ C3].
    replace (p + 1 <? num_planes) with true in C3
      by (symmetry; apply Z.ltb_lt; lia).
    apply andb_true_iff in C3. exact (proj2 C3).
Qed.

Lemma raan_shared_in_plane_and_spaced_up_to_rounding_witness :
  let raan q t := SatData.raan
                    (nth (Z.to_nat (q * 2 + t))
                         (ConstellationData.satellite_data demo_data)
                         (record_at 0 EmptyString 0 0 0 0 0 0)) in
  let delta_raan := ConstellationData.raan_spacing demo_data in
  raan 1 1 = float_rem (of_int 1 * delta_raan) (of_int 360)
  /\ (raan 1%Z 1%Z <? 360)%float = true
  /\ (raan 1%Z 1%Z <? raan 2%Z 1%Z)%float = true
  /\ 2 ^ 43 * Z.abs (scaled (raan 2 1) - scaled (raan 1 1) - scaled delta_raan)
     <= 2 ^ 1074.
Proof.
  cbv zeta.
  pose proof (raan_shared_in_plane_and_spaced_up_to_rounding
                _ _ _ _ _ _ _ _ _ _ 1 1 demo_run ltac:(lia) ltac:(lia)) as T.
  cbv zeta in T. destruct T as (_ & F & _ & B & _).
  assert (HP : 3 <= 2 ^ 50) by (vm_compute; discriminate).
  destruct (B HP) as (_ & L & G & _ & _ & St).
  split; [exact F|]. split; [exact L|].
  split; [exact (proj1 (G 2 ltac:(lia)))|]. apply St. lia.
Defined.

Example demo_raan :
  map SatData.raan (ConstellationData.satellite_data demo_data)
  = [0; 0; 120; 120; 240; 240]%float.
Proof. vm_compute. reflexivity. Qed.

(** ** What the checksum detects and what it does not *)

Lemma weight_sum_append (a b : string) :
  weight_sum (a ++ b) = weight_sum a + weight_sum b.
Proof. induction a as [|c a IH]; simpl; [reflexivity | rewrite IH; lia]. Qed.

Lemma take_across (a : string) (c : ascii) (b : string) :
  (String.length a < 68)%nat ->
  take 68 (a ++ String c b) = a ++ String c (take (67 - String.length a) b).
Proof.
  intros H.
  replace 68%nat with (String.length a + S (67 - String.length a))%nat by lia.
  rewrite take_append. reflexivity.
Qed.

Lemma code_injective (c c' : ascii) : code c = code c' -> c = c'.
Proof.
  unfold code. intros H. apply N2Z.inj in H.
  rewrite <- (ascii_N_embedding c), <- (ascii_N_embedding c'). now rewrite H.
Qed.

Lemma digit_weight (c : ascii) :
  isdigit c = true -> char_weight c = code c - 48 /\ 0 <= code c - 48 < 10.
Proof.
  unfold char_weight, int_of_digit. intros H. rewrite H.
  unfold isdigit in H. apply andb_true_iff in H. destruct H as [L U].
  apply Z.leb_le in L. apply Z.leb_le in U. lia.
Qed.

(** X1.  In an ASCII line, replacing one digit among the first 68
    characters by another digit always changes the checksum. *)
Theorem checksum_detects_a_wrong_digit (a b : string) (c c' : ascii) :
  ascii_only a = true -> ascii_only b = true ->
  (String.length a < 68)%nat ->
  isdigit c = true -> isdigit c' = true -> c <> c' ->
  calculate_checksum (a ++ String c b) <> calculate_checksum (a ++ String c' b).
Proof.
  intros _ _ La Hc Hc' Hne.
  rewrite !calculate_checksum_spec. unfold spec_checksum.
  rewrite !take_across by exact La. rewrite !weight_sum_append. cbn [weight_sum].
  destruct (digit_weight c Hc) as [-> Rc].
  destruct (digit_weight c' Hc') as [-> Rc'].
  assert (code c <> code c') by (intros E; apply Hne, code_injective, E).
  set (x := weight_sum a) in *.
  set (y := weight_sum (take (67 - String.length a) b)) in *.
  intros E.
  assert (D : (code c - code c') mod 10 = 0).
  { replace (code c - code c') with ((x + (code c - 48 + y)) - (x + (code c' - 48 + y)))
      by lia.
    rewrite Zminus_mod, E, Z.sub_diag. reflexivity. }
  apply Z.mod_divide in D; [|lia]. destruct D as [q D]. lia.
Qed.

Lemma checksum_detects_a_wrong_digit_witness :
  (String.length "2 9000" < 68)%nat
  /\ calculate_checksum ("2 9000" ++ String "0" " 53.0000")
     <> calculate_checksum ("2 9000" ++ String "1" " 53.0000").
Proof.
  split; [simpl; lia|].
  apply checksum_detects_a_wrong_digit;
    [reflexivity | reflexivity | simpl; lia | reflexivity | reflexivity
    | discriminate].
Defined.

Lemma take_within (n : nat) (a s : string) :
  (n <= String.length a)%nat -> take n (a ++ s) = take n a.
Proof.
  revert a; induction n as [|n IH]; intros a H; [now destruct a; destruct s|].
  destruct a as [|x a]; simpl in *; [lia|]. rewrite IH by lia. reflexivity.
Qed.

(** X2.  In an ASCII line, two characters of the same weight are
    interchangeable: the checksum cannot tell a zero from a space, a point,
    a plus sign or a letter, nor a minus sign from the digit one. *)
Theorem checksum_misses_equal_weights (a b : string) (c c' : ascii) :
  ascii_only a = true -> ascii_only b = true ->
  is_ascii c = true -> is_ascii c' = true ->
  char_weight c = char_weight c' ->
  calculate_checksum (a ++ String c b) = calculate_checksum (a ++ String c' b).
Proof.
  intros _ _ _ _ W. rewrite !calculate_checksum_spec. unfold spec_checksum.
  destruct (Nat.lt_ge_cases (String.length a) 68) as [La|La].
  - rewrite !take_across by exact La. rewrite !weight_sum_append. cbn [weight_sum].
    now rewrite W.
  - now rewrite !take_within by exact La.
Qed.

Lemma checksum_misses_equal_weights_witness :
  calculate_checksum ("1 90000U 26934UR  26308.52314815 " ++ String "-" ".00000000")
  = calculate_checksum ("1 90000U 26934UR  26308.52314815 " ++ String "1" ".00000000")
  /\ calculate_checksum ("2 9000" ++ String "0" " 53.0000")
     = calculate_checksum ("2 9000" ++ String " " " 53.0000").
Proof.
  split; apply checksum_misses_equal_weights; reflexivity.
Defined.

(** X3.  Exchanging two neighbouring characters among the first 68 is
    never detected. *)
Theorem checksum_misses_transpositions (a b : string) (c c' : ascii) :
  (String.length a + 2 <= 68)%nat ->
  calculate_checksum (a ++ String c (String c' b))
  = calculate_checksum (a ++ String c' (String c b)).
Proof.
  intros La. rewrite !calculate_checksum_spec. unfold spec_checksum.
  assert (T : forall x y, take 68 (a ++ String x (String y b))
              = a ++ String x (String y (take (66 - String.length a) b))).
  { intros x y.
    replace 68%nat with (String.length a + S (S (66 - String.length a)))%nat by lia.
    rewrite take_append. reflexivity. }
  rewrite !T, !weight_sum_append. cbn [weight_sum]. f_equal. lia.
Qed.

Lemma checksum_misses_transpositions_witness :
  calculate_checksum ("2 " ++ String "9" (String "0" "000  53.0000"))
  = calculate_checksum ("2 " ++ String "0" (String "9" "000  53.0000")).
Proof. apply checksum_misses_transpositions. simpl; lia. Defined.

(** ** The launch designator *)

Lemma range_length (lo hi : Z) : List.length (range lo hi) = Z.to_nat (hi - lo).
Proof. unfold range. now rewrite length_map, length_seq. Qed.

Lemma range_nth (lo hi : Z) (i : nat) :
  (i < Z.to_nat (hi - lo))%nat -> nth i (range lo hi) 0 = lo + Z.of_nat i.
Proof. intros H. unfold range. now rewrite (table_nth _ _ _ _ H). Qed.

Lemma pieces_shape :
  forallb (fun s => Nat.leb 1 (String.length s) && Nat.leb (String.length s) 2
                    && all_chars isupper s) pieces = true.
Proof. vm_compute. reflexivity. Qed.

(** X4.  [generate_random_launch_info] never raises; it reads the clock once and
    draws three times, and returns the last two digits of one of the five
    years ending with the current one, a launch number of 1 to 999 and a
    piece of one or two capital letters. *)
Theorem launch_info_ranges (w : world) :
  exists launch_year launch_number launch_piece w',
    generate_random_launch_info w
    = Ok ((launch_year, launch_number, launch_piece), w')
    /\ now_calls w' = S (now_calls w)
    /\ draws w' = (3 + draws w)%nat
    /\ (exists k, 0 <= k <= 4
                  /\ launch_year = (year (clock w (now_calls w)) - k) mod 100)
    /\ 0 <= launch_year <= 99
    /\ 1 <= launch_number <= 999
    /\ In launch_piece pieces
    /\ (1 <= String.length launch_piece <= 2)%nat
    /\ all_chars isupper launch_piece = true.
Proof.
  pose proof (launch_info_run w 0) as R. rewrite advance_0 in R.
  unfold launch_at in R. cbv zeta in R.
  replace (draws w + 3 * 0)%nat with (draws w) in R by lia.
  replace (now_calls w + 0)%nat with (now_calls w) in R by lia.
  eexists _, _, _, _. split; [exact R|].
  set (cy := year (clock w (now_calls w))).
  set (e0 := entropy w (draws w)). set (e1 := entropy w (S (draws w))).
  set (e2 := entropy w (S (S (draws w)))).
  assert (L5 : List.length (range (cy - 4) (cy + 1)) = 5%nat)
    by (rewrite range_length; lia).
  pose proof (Z.mod_pos_bound e0 5 ltac:(lia)) as B0.
  pose proof (Z.mod_pos_bound e1 (999 - 1 + 1) ltac:(lia)) as B1.
  assert (LP : List.length pieces = 702%nat) by (vm_compute; reflexivity).
  pose proof (Z.mod_pos_bound e2 702 ltac:(lia)) as B2.
  assert (IP : In (nth (Z.to_nat (e2 mod Z.of_nat (List.length pieces))) pieces
                       EmptyString) pieces).
  { apply nth_In. rewrite LP. change (Z.of_nat 702) with 702. lia. }
  pose proof (proj1 (forallb_forall _ _) pieces_shape _ IP) as SP.
  apply andb_true_iff in SP. destruct SP as [SP U].
  apply andb_true_iff in SP. destruct SP as [S1 S2].
  apply Nat.leb_le in S1. apply Nat.leb_le in S2.
  assert (Y : nth (Z.to_nat (e0 mod Z.of_nat (List.length (range (cy - 4) (cy + 1)))))
                  (range (cy - 4) (cy + 1)) 0
              = cy - (4 - e0 mod 5)).
  { rewrite L5. change (Z.of_nat 5) with 5. rewrite range_nth by lia. lia. }
  cbn [advance now_calls draws].
  split; [lia|]. split; [lia|]. split.
  { exists (4 - e0 mod 5). split; [lia|]. now rewrite Y. }
  split; [pose proof (Z.mod_pos_bound
            (nth (Z.to_nat (e0 mod Z.of_nat (List.length (range (cy - 4) (cy + 1)))))
                 (range (cy - 4) (cy + 1)) 0) 100 ltac:(lia)); lia|].
  split; [lia|]. split; [exact IP|]. split; [lia | exact U].
Qed.

(** ** Decimal numerals *)

Lemma all_chars_append (f : ascii -> bool) (a b : string) :
  all_chars f (a ++ b) = all_chars f a && all_chars f b.
Proof.
  induction a as [|c a IH]; simpl; [reflexivity|]. now rewrite IH, andb_assoc.
Qed.

Lemma all_chars_repeat (f : ascii -> bool) (c : ascii) (n : nat) :
  f c = true -> all_chars f (repeat c n) = true.
Proof. intros H. induction n as [|n IH]; simpl; [reflexivity | now rewrite H, IH]. Qed.

Lemma value_aux_append (a b : string) (acc : Z) :
  value_aux (a ++ b) acc = value_aux b (value_aux a acc).
Proof. revert acc; induction a as [|c a IH]; intros acc; simpl; [reflexivity | apply IH]. Qed.

Lemma value_aux_zeros (k : nat) : value_aux (repeat "0" k) 0 = 0.
Proof. induction k as [|k IH]; simpl; [reflexivity | exact IH]. Qed.

Lemma digit_char_spec (d : Z) :
  0 <= d < 10 -> isdigit (digit_char d) = true /\ int_of_digit (digit_char d) = d.
Proof.
  intros H.
  assert (E : d = 0 \/ d = 1 \/ d = 2 \/ d = 3 \/ d = 4 \/ d = 5 \/ d = 6
              \/ d = 7 \/ d = 8 \/ d = 9) by lia.
  repeat (destruct E as [E|E]; [subst d; split; reflexivity|]).
  subst d; split; reflexivity.
Qed.

Lemma digits_aux_value (fuel : nat) :
  forall (n : Z) (acc : string),
    0 <= n < 2 ^ Z.of_nat fuel ->
    exists D, digits_aux fuel n acc = D ++ acc
              /\ value_aux D 0 = n /\ all_chars isdigit D = true.
Proof.
  induction fuel as [|fuel IH]; intros n acc H.
  - exists EmptyString. simpl in *. repeat split. lia.
  - cbn [digits_aux]. cbv zeta.
    pose proof (Z.mod_pos_bound n 10 ltac:(lia)) as Hm.
    destruct (digit_char_spec _ Hm) as [Hd Hv].
    destruct (Z.ltb_spec n 10) as [H10|H10].
    + exists (String (digit_char (n mod 10)) EmptyString). simpl.
      rewrite Hd, Hv. repeat split. rewrite Z.mod_small; lia.
    + assert (B : 0 <= n / 10 < 2 ^ Z.of_nat fuel).
      { split; [apply Z.div_pos; lia|].
        apply Z.div_lt_upper_bound; [lia|].
        rewrite Nat2Z.inj_succ, Z.pow_succ_r in H by lia. lia. }
      destruct (IH (n / 10) (String (digit_char (n mod 10)) acc) B)
        as (D & E & V & A).
      exists (D ++ String (digit_char (n mod 10)) EmptyString).
      rewrite E, append_assoc. split; [reflexivity|]. split.
      * rewrite value_aux_append, V. cbn [value_aux]. rewrite Hv.
        pose proof (Z.div_mod n 10 ltac:(lia)). lia.
      * rewrite all_chars_append, A. simpl. now rewrite Hd.
Qed.

Lemma digits_value (n : Z) :
  0 <= n -> decimal_value (digits n) = n /\ all_chars isdigit (digits n) = true.
Proof.
  intros H. unfold digits, decimal_value.
  assert (B : 0 <= n < 2 ^ Z.of_nat (S (Z.to_nat (Z.log2 n)))).
  { split; [exact H|]. rewrite Nat2Z.inj_succ, Z2Nat.id by apply Z.log2_nonneg.
    destruct (Z.eq_dec n 0) as [->|N]; [reflexivity|].
    apply Z.log2_spec. lia. }
  destruct (digits_aux_value _ n EmptyString B) as (D & E & V & A).
  rewrite E. replace (D ++ EmptyString) with D; [now split|].
  clear. induction D as [|c D IH]; simpl; [reflexivity | now rewrite <- IH].
Qed.

Lemma format_0d_value (width : nat) (z : Z) :
  0 <= z ->
  decimal_value (format_0d width z) = z
  /\ all_chars isdigit (format_0d width z) = true.
Proof.
  intros H. destruct (digits_value z H) as [V A].
  unfold format_0d. destruct (Z.ltb_spec z 0) as [N|_]; [lia|].
  unfold rjust, decimal_value. split.
  - rewrite value_aux_append, value_aux_zeros. exact V.
  - rewrite all_chars_append, A, all_chars_repeat; reflexivity.
Qed.

Lemma format_0d_injective (width : nat) (z z' : Z) :
  0 <= z -> 0 <= z' -> format_0d width z = format_0d width z' -> z = z'.
Proof.
  intros H H' E.
  rewrite <- (proj1 (format_0d_value width z H)), E.
  exact (proj1 (format_0d_value width z' H')).
Qed.

Lemma format_0d_min_length (width : nat) (z : Z) :
  0 <= z -> (width <= String.length (format_0d width z))%nat.
Proof.
  intros H. unfold format_0d. destruct (Z.ltb_spec z 0) as [N|_]; [lia|].
  rewrite length_rjust. lia.
Qed.

Lemma append_cancel_l (a b c : string) : a ++ b = a ++ c -> b = c.
Proof. induction a as [|x a IH]; simpl; intros H; [exact H | injection H; exact IH]. Qed.

(** Two numerals followed by a hyphen and the same text split alike. *)
Lemma split_at_hyphen (a a' b b' : string) :
  all_chars isdigit a = true -> all_chars isdigit a' = true ->
  a ++ String "-" b = a' ++ String "-" b' -> a = a' /\ b = b'.
Proof.
  revert a'. induction a as [|c a IH]; intros [|c' a'] A A' E; simpl in *.
  - injection E as E. now split.
  - injection E as Ec _. subst c'. discriminate.
  - injection E as Ec _. subst c. discriminate.
  - injection E as Ec E. subst c'.
    apply andb_true_iff in A. apply andb_true_iff in A'.
    destruct (IH a' (proj2 A) (proj2 A') E) as [-> ->]. now split.
Qed.

Lemma sat_name_injective (clean_name : string) (plane sat plane' sat' : Z) :
  0 <= plane -> 0 <= sat -> 0 <= plane' -> 0 <= sat' ->
  sat_name_of clean_name plane sat = sat_name_of clean_name plane' sat' ->
  plane = plane' /\ sat = sat'.
Proof.
  intros Hp Hs Hp' Hs' E. unfold sat_name_of in E.
  apply append_cancel_l in E.
  change ("-" ++ format_0d 2 (sat + 1)) with (String "-" (format_0d 2 (sat + 1))) in E.
  change ("-" ++ format_0d 2 (sat' + 1)) with (String "-" (format_0d 2 (sat' + 1))) in E.
  apply split_at_hyphen in E;
    [|apply format_0d_value; lia|apply format_0d_value; lia].
  destruct E as [E1 E2].
  apply format_0d_injective in E1; [|lia|lia].
  apply format_0d_injective in E2; [|lia|lia]. lia.
Qed.

Lemma plane_slot_range (S : Z) (k : nat) :
  0 < S -> 0 <= plane_of S k /\ 0 <= slot_of S k < S.
Proof.
  intros H. unfold plane_of, slot_of. split.
  - apply Z.div_pos; lia.
  - apply Z.mod_pos_bound. exact H.
Qed.

Lemma plane_slot_injective (S : Z) (k k' : nat) :
  0 < S -> plane_of S k = plane_of S k' -> slot_of S k = slot_of S k' -> k = k'.
Proof.
  unfold plane_of, slot_of. intros H Ep Es.
  pose proof (Z.div_mod (Z.of_nat k) S ltac:(lia)) as D.
  pose proof (Z.div_mod (Z.of_nat k') S ltac:(lia)) as D'.
  rewrite Ep, Es in D. lia.
Qed.

Lemma total_positive (P S : Z) (k : nat) : (k < total_of P S)%nat -> 0 < P /\ 0 < S.
Proof. unfold total_of. intros H. split; lia. Qed.

(** ** Satellite names *)

(** X5.  No two satellites of a run share a name, however many planes and
    satellites there are: the name line of satellite [k] and the name of
    row [k] of the table differ from those of every other satellite. *)
Theorem satellite_names_are_distinct
    (altitude inclination : float) (num_planes sats_per_plane walker_F : Z)
    (constellation_name : string) (w w' : world)
    (lines : list string) (data : ConstellationData.t) :
  generate_constellation_tle altitude inclination num_planes sats_per_plane
    walker_F constellation_name w = Ok (lines, data, w') ->
  forall (k k' : nat) (row : SatData.t),
    (k < total_of num_planes sats_per_plane)%nat ->
    (k' < total_of num_planes sats_per_plane)%nat ->
    k <> k' ->
    nth (3 * k) lines EmptyString <> nth (3 * k') lines EmptyString
    /\ SatData.name (nth k (ConstellationData.satellite_data data) row)
       <> SatData.name (nth k' (ConstellationData.satellite_data data) row).
Proof.
  intros H k k' row Hk Hk' Hne.
  destruct (generate_inv _ _ _ _ _ _ _ _ _ _ H)
    as (n & d & u & _ & _ & _ & -> & ->).
  cbn [ConstellationData.satellite_data data_of].
  destruct (lines_at inclination num_planes sats_per_plane constellation_name
              n d u w k EmptyString Hk) as (-> & _ & _).
  destruct (lines_at inclination num_planes sats_per_plane constellation_name
              n d u w k' EmptyString Hk') as (-> & _ & _).
  rewrite (table_at num_planes sats_per_plane constellation_name d u w k row Hk).
  rewrite (table_at num_planes sats_per_plane constellation_name d u w k' row Hk').
  cbn [SatData.name record_at].
  destruct (total_positive _ _ _ Hk) as [_ HS].
  destruct (plane_slot_range sats_per_plane k HS) as [P1 S1].
  destruct (plane_slot_range sats_per_plane k' HS) as [P2 S2].
  assert (N : name_at constellation_name (plane_of sats_per_plane k)
                      (slot_of sats_per_plane k)
              <> name_at constellation_name (plane_of sats_per_plane k')
                         (slot_of sats_per_plane k')).
  { unfold name_at. intros E.
    apply sat_name_injective in E; [|lia|lia|lia|lia].
    destruct E as [Ep Es]. apply Hne.
    exact (plane_slot_injective sats_per_plane k k' HS Ep Es). }
  split; exact N.
Qed.

Lemma satellite_names_are_distinct_witness :
  (1 < total_of 3 2)%nat
  /\ nth (3 * 1) demo_lines EmptyString <> nth (3 * 4) demo_lines EmptyString.
Proof.
  split; [vm_compute; lia|].
  refine (proj1 (satellite_names_are_distinct _ _ _ _ _ _ _ _ _ _ demo_run 1%nat 4%nat
                   (nth 0 (ConstellationData.satellite_data demo_data)
                        (SatData.Build_t 0 0 0 0 0 EmptyString)) _ _ _)).
  - vm_compute. lia.
  - vm_compute. lia.
  - discriminate.
Defined.

(** ** The layout of line 1 *)

Lemma append_empty_r (s : string) : s ++ EmptyString = s.
Proof. induction s as [|c s IH]; simpl; [reflexivity | now rewrite IH]. Qed.

Lemma format_0f_min_length (width p : nat) (x : float) :
  (String.length (sign_of x) <= width)%nat ->
  (width <= String.length (format_0f width p x))%nat.
Proof.
  intros H. unfold format_0f. rewrite length_append, length_rjust. lia.
Qed.

Lemma sign_of_short (x : float) : (String.length (sign_of x) <= 1)%nat.
Proof.
  unfold sign_of. destruct (Prim2SF x) as [[|]|[|]| |[|] m e]; simpl; lia.
Qed.

Lemma epoch_str_min_length (current_date : datetime) :
  (14 <= String.length (epoch_str_of (epoch_year_of current_date)
                                     (epoch_day_of current_date)))%nat.
Proof.
  unfold epoch_str_of, epoch_year_of. rewrite length_append.
  pose proof (Z.mod_pos_bound (year current_date) 100 ltac:(lia)) as B.
  rewrite format_0d_length by (try lia; exact B).
  pose proof (sign_of_short (epoch_day_of current_date)) as S1.
  pose proof (format_0f_min_length 12 8 (epoch_day_of current_date) ltac:(lia)). lia.
Qed.

(** X6.  Line 1 never shows the element set number [9999] of its format string:
    the fields are at least 69 characters long, so the cut at 68 always
    removes something and the padding never adds a space.  With a NORAD id
    of five digits and an epoch of 14 characters the fields are exactly 69
    characters, and the first 68 characters of the line are the fields
    without their last [9]. *)
Theorem line1_loses_the_end_of_its_fields
    (altitude inclination : float) (num_planes sats_per_plane walker_F : Z)
    (constellation_name : string) (w w' : world)
    (lines : list string) (data : ConstellationData.t) :
  generate_constellation_tle altitude inclination num_planes sats_per_plane
    walker_F constellation_name w = Ok (lines, data, w') ->
  forall k, (k < total_of num_planes sats_per_plane)%nat ->
    let id := drawn_base w + Z.of_nat k in
    let epoch_str := epoch_str_of (epoch_year_of (sampled_epoch w))
                                  (epoch_day_of (sampled_epoch w)) in
    let '(launch_year, launch_number, launch_piece) := launch_at (loop_entry w) k in
    let fields := line1_fields id launch_year launch_number launch_piece epoch_str in
    let line1 := nth (3 * k + 1) lines EmptyString in
    (69 <= String.length fields)%nat
    /\ take 68 line1 = take 68 fields
    /\ (id < 100000 -> String.length epoch_str = 14%nat ->
        take 68 line1
        = "1 " ++ format_0d 5 id ++ "U " ++ format_0d 2 launch_year
          ++ format_0d 3 launch_number ++ ljust 3 launch_piece ++ " " ++ epoch_str
          ++ "  .00000000  00000+0  00000-0 0  999").
Proof.
  intros H k Hk. cbv zeta.
  destruct (generate_inv _ _ _ _ _ _ _ _ _ _ H)
    as (n & d & u & _ & _ & _ & -> & ->).
  destruct (lines_at inclination num_planes sats_per_plane constellation_name
              n d u w k EmptyString Hk) as (_ & -> & _).
  unfold line1_at.
  pose proof (launch_at_widths (loop_entry w) k) as W.
  destruct (launch_at (loop_entry w) k) as [[ly ln] lp].
  destruct W as (W2 & W3 & WP).
  pose proof (drawn_base_range w) as B.
  pose proof (epoch_str_min_length (sampled_epoch w)) as E.
  set (epoch_str := epoch_str_of _ _) in *.
  set (id := drawn_base w + Z.of_nat k).
  pose proof (format_0d_min_length 5 id ltac:(unfold id; lia)) as W5.
  assert (L : String.length (line1_fields id ly ln lp epoch_str)
              = (String.length (format_0d 5 id) + String.length epoch_str + 50)%nat).
  { unfold line1_fields. rewrite !length_append, W2, W3, WP. simpl. lia. }
  assert (T : take 68 (seal (line1_fields id ly ln lp epoch_str))
              = take 68 (line1_fields id ly ln lp epoch_str)).
  { rewrite seal_take. unfold ljust. rewrite length_take.
    replace (68 - Nat.min 68 (String.length (line1_fields id ly ln lp epoch_str)))%nat
      with 0%nat by lia.
    apply append_empty_r. }
  split; [lia|]. split; [exact T|].
  intros Hid He. rewrite T.
  pose proof (format_0d_length 5 id ltac:(lia) ltac:(unfold id in *; simpl; lia)) as L5.
  set (A := "1 " ++ format_0d 5 id ++ "U " ++ format_0d 2 ly ++ format_0d 3 ln
            ++ ljust 3 lp ++ " " ++ epoch_str
            ++ "  .00000000  00000+0  00000-0 0  999").
  assert (F : line1_fields id ly ln lp epoch_str = A ++ "9").
  { unfold line1_fields, A. rewrite !append_assoc. reflexivity. }
  assert (LA : String.length A = 68%nat).
  { unfold A. rewrite !length_append, L5, W2, W3, WP, He. reflexivity. }
  rewrite F, <- LA. apply take_length_append.
Qed.

Lemma line1_loses_the_end_of_its_fields_witness :
  take 68 (nth (3 * 1 + 1) demo_lines EmptyString)
  = "1 90001U 23715QK  26308.52314815  .00000000  00000+0  00000-0 0  999".
Proof.
  assert (Hk : (1 < total_of 3 2)%nat) by (vm_compute; lia).
  pose proof (line1_loses_the_end_of_its_fields _ _ _ _ _ _ _ _ _ _ demo_run 1%nat Hk) as T.
  cbv zeta in T.
  destruct (launch_at (loop_entry demo_world) 1) as [[ly ln] lp] eqn:E.
  destruct T as (_ & _ & T).
  rewrite T.
  - vm_compute in E. injection E as <- <- <-. vm_compute. reflexivity.
  - vm_compute. reflexivity.
  - vm_compute. reflexivity.
Defined.

(** ** Counts that are not positive *)

(** X7.  A negative number of planes or of satellites per plane is not
    refused.  When neither count is zero the run returns no line and no
    table row, while the summary reports the product of the two counts as
    the total: six satellites for [-2] planes of [-3].  One clock reading
    and one draw are made. *)
Theorem negative_counts_return_an_empty_constellation
    (altitude inclination n : float) (num_planes sats_per_plane walker_F : Z)
    (constellation_name : string) (w : world) :
  kepler_mean_motion altitude = Ok n ->
  num_planes <> 0 -> sats_per_plane <> 0 ->
  num_planes < 0 \/ sats_per_plane < 0 ->
  Z.abs walker_F < 2 ^ 990 ->
  exists data w',
    generate_constellation_tle altitude inclination num_planes sats_per_plane
      walker_F constellation_name w = Ok ([], data, w')
    /\ ConstellationData.satellite_data data = []
    /\ ConstellationData.total_satellites data = num_planes * sats_per_plane
    /\ ConstellationData.total_satellites data <> 0
    /\ now_calls w' = S (now_calls w)
    /\ draws w' = S (draws w).
Proof.
  intros Hn HP HS Hneg HF.
  assert (Hd : int_truediv 360 num_planes = Ok (quotient 360 num_planes))
    by (apply int_truediv_360; exact HP).
  assert (Hu : int_truediv (walker_F * 360) (num_planes * sats_per_plane)
               = Ok (quotient (walker_F * 360) (num_planes * sats_per_plane))).
  { apply int_truediv_defined; [nia|].
    assert (K : 2 ^ 990 * 360 < 2 ^ 1000) by (apply Z.ltb_lt; vm_compute; reflexivity).
    set (t := 2 ^ 990) in *. set (t' := 2 ^ 1000) in *. lia. }
  assert (T : total_of num_planes sats_per_plane = 0%nat).
  { unfold total_of. destruct Hneg as [N|N].
    - replace (Z.to_nat num_planes) with 0%nat by lia. reflexivity.
    - replace (Z.to_nat sats_per_plane) with 0%nat by lia. lia. }
  eexists _, _. split.
  - rewrite (generate_returns _ _ _ _ _ _ _ _ _ _ Hn Hd Hu).
    unfold lines_of. rewrite T. reflexivity.
  - cbn [ConstellationData.satellite_data ConstellationData.total_satellites data_of].
    unfold table_of. rewrite T.
    split; [reflexivity|]. split; [reflexivity|]. split; [nia|].
    unfold advance, loop_entry. cbn [now_calls draws]. split; lia.
Qed.

Lemma negative_counts_return_an_empty_constellation_witness :
  exists data w',
    generate_constellation_tle 550 53 (-2) (-3) 1 "X" demo_world = Ok ([], data, w')
    /\ ConstellationData.total_satellites data = 6.
Proof.
  destruct (negative_counts_return_an_empty_constellation 550 53 _ (-2) (-3) 1 "X"
              demo_world (proj1 demo_constants))
    as (data & w' & H & _ & T & _).
  - discriminate.
  - discriminate.
  - left. reflexivity.
  - vm_compute. reflexivity.
  - exists data, w'. split; [exact H | exact T].
Defined.

(** ** Runs on the values the input widgets allow *)

Lemma kepler_all_ok_at (fuel : nat) :
  forall a0, kepler_all_ok fuel a0 = true ->
  forall a, a0 <= a < a0 + Z.of_nat fuel -> kepler_ok a = true.
Proof.
  induction fuel as [|fuel IH]; intros a0 H a Ha; [lia|].
  cbn [kepler_all_ok] in H. apply andb_true_iff in H. destruct H as [H0 H1].
  destruct (Z.eq_dec a a0) as [->|Hne]; [exact H0|].
  apply (IH (a0 + 1) H1). lia.
Qed.

Lemma kepler_checked : kepler_all_ok 1801 200 = true.
Proof. vm_compute. reflexivity. Qed.

Lemma kepler_defined_in_range (a : Z) :
  200 <= a <= 2000 ->
  exists n, kepler_mean_motion (of_int a) = Ok n
            /\ (11 <? n)%float = true /\ (n <? 17)%float = true.
Proof.
  intros H.
  pose proof (kepler_all_ok_at 1801 200 kepler_checked a ltac:(lia)) as K.
  unfold kepler_ok in K.
  destruct (kepler_mean_motion (of_int a)) as [n|e]; [|discriminate].
  apply andb_true_iff in K. exists n. split; [reflexivity | exact K].
Qed.

Lemma total_of_product (P S : Z) :
  0 <= P -> 0 <= S -> total_of P S = Z.to_nat (P * S).
Proof. intros HP HS. unfold total_of. now rewrite Z2Nat.inj_mul. Qed.

(** X8.  Within the bounds of the input widgets (altitude 200 to 2000 km,
    1 to 500 planes, 1 to 50 satellites per plane, phasing 0 to 1000) a
    run never raises: it returns three lines and one table row for each of
    the [P * S] satellites, a mean motion between 11 and 17 revolutions a
    day, and it has read the clock once more than there are satellites
    and drawn one number plus three per satellite. *)
Theorem runs_within_the_widget_bounds_return
    (altitude : Z) (inclination : float) (num_planes sats_per_plane walker_F : Z)
    (constellation_name : string) (w : world) :
  200 <= altitude <= 2000 ->
  1 <= num_planes <= 500 ->
  1 <= sats_per_plane <= 50 ->
  0 <= walker_F <= 1000 ->
  exists lines data w',
    generate_constellation_tle (of_int altitude) inclination num_planes
      sats_per_plane walker_F constellation_name w = Ok (lines, data, w')
    /\ List.length lines = (3 * Z.to_nat (num_planes * sats_per_plane))%nat
    /\ List.length (ConstellationData.satellite_data data)
       = Z.to_nat (num_planes * sats_per_plane)
    /\ (11 <? ConstellationData.mean_motion data)%float = true
    /\ (ConstellationData.mean_motion data <? 17)%float = true
    /\ now_calls w' = (now_calls w + 1 + Z.to_nat (num_planes * sats_per_plane))%nat
    /\ draws w' = (draws w + 1 + 3 * Z.to_nat (num_planes * sats_per_plane))%nat.
Proof.
  intros Ha HP HS HF.
  destruct (kepler_defined_in_range altitude Ha) as (n & Hn & N1 & N2).
  assert (Hd : int_truediv 360 num_planes = Ok (quotient 360 num_planes))
    by (apply int_truediv_360; lia).
  assert (Hu : int_truediv (walker_F * 360) (num_planes * sats_per_plane)
               = Ok (quotient (walker_F * 360) (num_planes * sats_per_plane))).
  { apply int_truediv_defined; [nia|].
    assert (K : 360000 < 2 ^ 1000) by (apply Z.ltb_lt; vm_compute; reflexivity).
    set (t := 2 ^ 1000) in *. lia. }
  eexists _, _, _. split; [exact (generate_returns _ _ _ _ _ _ _ _ _ _ Hn Hd Hu)|].
  rewrite <- (total_of_product num_planes sats_per_plane) by lia.
  split; [apply lines_length|].
  cbn [ConstellationData.satellite_data ConstellationData.mean_motion data_of].
  split; [apply table_length|].
  split; [exact N1|]. split; [exact N2|].
  unfold advance, loop_entry. cbn [now_calls draws]. split; lia.
Qed.

Lemma runs_within_the_widget_bounds_return_witness :
  exists lines data w',
    generate_constellation_tle (of_int 550) 53 72 22 17 "X" demo_world
    = Ok (lines, data, w')
    /\ List.length lines = (3 * Z.to_nat (72 * 22))%nat.
Proof.
  destruct (runs_within_the_widget_bounds_return 550 53 72 22 17 "X" demo_world)
    as (lines & data & w' & H & L & _); try lia.
  exists lines, data, w'. split; [exact H | exact L].
Defined.

(** ** The file content *)

Lemma file_content_fold (line : string) (rest : list string) :
  generate_tle_file_content (line :: rest)
  = fold_right (fun l acc => l ++ crlf ++ acc) EmptyString (line :: rest).
Proof.
  unfold generate_tle_file_content.
  revert line; induction rest as [|x rest IH]; intros line.
  - cbn [String.concat fold_right]. now rewrite append_empty_r.
  - change (String.concat crlf (line :: x :: rest))
      with (line ++ crlf ++ String.concat crlf (x :: rest)).
    rewrite !append_assoc, IH. reflexivity.
Qed.

Lemma file_content_length (line : string) (rest : list string) :
  String.length (generate_tle_file_content (line :: rest))
  = list_sum (map (fun l => (String.length l + 2)%nat) (line :: rest)).
Proof.
  rewrite file_content_fold.
  generalize (line :: rest). intros l.
  induction l as [|x l IH]; [reflexivity|].
  cbn [fold_right map list_sum]. rewrite !length_append, IH.
  change (String.length crlf) with 2%nat. unfold list_sum. lia.
Qed.

(** X9.  In the file every line is followed by a carriage return and a line
    feed, so the file is as long as its lines and two characters for
    each; an empty list of lines still gives one such pair, that is a file
    of one empty line. *)
Theorem file_content_terminates_every_line (line : string) (rest : list string) :
  generate_tle_file_content (line :: rest)
  = fold_right (fun l acc => l ++ crlf ++ acc) EmptyString (line :: rest)
  /\ String.length (generate_tle_file_content (line :: rest))
     = list_sum (map (fun l => (String.length l + 2)%nat) (line :: rest))
  /\ generate_tle_file_content [] = crlf.
Proof.
  split; [apply file_content_fold|]. split; [apply file_content_length | reflexivity].
Qed.

Lemma sum_flat_map_const {A : Type} (g : string -> nat) (f : A -> list string)
    (c : nat) (l : list A) :
  (forall a, In a l -> list_sum (map g (f a)) = c) ->
  list_sum (map g (flat_map f l)) = (List.length l * c)%nat.
Proof.
  induction l as [|a l IH]; intros H; [reflexivity|].
  cbn [flat_map List.length]. rewrite map_app, list_sum_app, IH, (H a).
  - reflexivity.
  - now left.
  - intros b Hb. apply H. now right.
Qed.

Lemma plane_below (P S : Z) (k : nat) :
  (k < total_of P S)%nat -> plane_of S k < P.
Proof.
  intros Hk. destruct (total_positive _ _ _ Hk) as [HP HS].
  unfold total_of in Hk. unfold plane_of.
  apply Z.div_lt_upper_bound; [exact HS|].
  apply Nat2Z.inj_lt in Hk. rewrite Nat2Z.inj_mul, !Z2Nat.id in Hk by lia. lia.
Qed.

Lemma name_at_length (constellation_name : string) (plane sat : Z) :
  0 <= plane < 999 -> 0 <= sat < 99 ->
  String.length (name_at constellation_name plane sat)
  = (String.length (clean_name_of constellation_name) + 6)%nat.
Proof.
  intros Hp Hs. unfold name_at, sat_name_of. rewrite !length_append.
  rewrite !format_0d_length.
  all: try (change (10 ^ Z.of_nat 2) with 100);
    try (change (10 ^ Z.of_nat 3) with 1000); try lia.
  change (String.length "-") with 1%nat. lia.
Qed.

Lemma file_size_closed
    (altitude inclination : float) (num_planes sats_per_plane walker_F : Z)
    (constellation_name : string) (w w' : world)
    (lines : list string) (data : ConstellationData.t) :
  generate_constellation_tle altitude inclination num_planes sats_per_plane
    walker_F constellation_name w = Ok (lines, data, w') ->
  1 <= num_planes <= 999 ->
  1 <= sats_per_plane <= 99 ->
  String.length (generate_tle_file_content lines)
  = (Z.to_nat (num_planes * sats_per_plane)
     * (String.length (clean_name_of constellation_name) + 150))%nat.
Proof.
  intros H HP HS.
  destruct (generate_inv _ _ _ _ _ _ _ _ _ _ H)
    as (n & d & u & _ & _ & _ & -> & _).
  rewrite <- (total_of_product num_planes sats_per_plane) by lia.
  assert (T : (0 < total_of num_planes sats_per_plane)%nat) by (unfold total_of; lia).
  unfold lines_of, lines_upto.
  set (f := fun k : nat => triple_at _ _ _ _ _ _ _ _ _ _ _ _ k).
  assert (S : list_sum (map (fun l => (String.length l + 2)%nat)
                            (flat_map f (seq 0 (total_of num_planes sats_per_plane))))
              = (total_of num_planes sats_per_plane
                 * (String.length (clean_name_of constellation_name) + 150))%nat).
  { rewrite (sum_flat_map_const (fun l => (String.length l + 2)%nat) f
               (String.length (clean_name_of constellation_name) + 150)
               (seq 0 (total_of num_planes sats_per_plane)));
      [now rewrite length_seq|].
    intros k Hk. apply in_seq in Hk.
    assert (Hk' : (k < total_of num_planes sats_per_plane)%nat) by lia.
    pose proof (plane_below _ _ _ Hk') as PB.
    destruct (plane_slot_range sats_per_plane k ltac:(lia)) as [P0 S0].
    unfold f, triple_at, line1_at, line2_at. cbn [map list_sum].
    destruct (launch_at (loop_entry w) k) as [[ly ln] lp].
    rewrite !seal_length, name_at_length by lia.
    unfold list_sum. cbn [fold_right]. lia. }
  destruct (flat_map f (seq 0 (total_of num_planes sats_per_plane))) as [|x l] eqn:E.
  - change (list_sum (map (fun l => (String.length l + 2)%nat) [])) with 0%nat in S. nia.
  - rewrite file_content_length. exact S.
Qed.

(** X10.  The file of a run with at most 999 planes of at most 99
    satellites has the same number of characters for every satellite:
    those of the first name line and 144 more (two lines of 69 and three
    line terminators).  For an ASCII constellation name the name line is
    the cleaned name and six characters of numbering. *)
Theorem file_size_of_a_run
    (altitude inclination : float) (num_planes sats_per_plane walker_F : Z)
    (constellation_name : string) (w w' : world)
    (lines : list string) (data : ConstellationData.t) :
  generate_constellation_tle altitude inclination num_planes sats_per_plane
    walker_F constellation_name w = Ok (lines, data, w') ->
  1 <= num_planes <= 999 ->
  1 <= sats_per_plane <= 99 ->
  String.length (generate_tle_file_content lines)
  = (Z.to_nat (num_planes * sats_per_plane)
     * (String.length (nth 0 lines EmptyString) + 144))%nat
  /\ (ascii_only constellation_name = true ->
      String.length (generate_tle_file_content lines)
      = (Z.to_nat (num_planes * sats_per_plane)
         * (String.length (clean_name_of constellation_name) + 150))%nat).
Proof.
  intros H HP HS.
  pose proof (file_size_closed _ _ _ _ _ _ _ _ _ _ H HP HS) as F.
  split; [|intros _; exact F].
  rewrite F.
  destruct (generate_inv _ _ _ _ _ _ _ _ _ _ H)
    as (n & d & u & _ & _ & _ & -> & _).
  assert (T : (0 < total_of num_planes sats_per_plane)%nat) by (unfold total_of; lia).
  destruct (lines_at inclination num_planes sats_per_plane constellation_name
              n d u w 0 EmptyString T) as (E & _).
  change (3 * 0)%nat with 0%nat in E. rewrite E.
  destruct (plane_slot_range sats_per_plane 0 ltac:(lia)) as [P0 S0].
  pose proof (plane_below _ _ _ T) as PB.
  rewrite name_at_length by lia. lia.
Qed.

Lemma file_size_of_a_run_witness :
  String.length (generate_tle_file_content demo_lines) = 960%nat.
Proof.
  rewrite (proj1 (file_size_of_a_run _ _ _ _ _ _ _ _ _ _ demo_run
                    ltac:(lia) ltac:(lia))).
  vm_compute. reflexivity.
Defined.

(** ** Random names and parameters *)

Definition name_char (c : ascii) : bool :=
  isupper c || isdigit c || Ascii.eqb c "_".

Lemma clean_name_fixed (s : string) :
  all_chars name_char s = true -> clean_name_of s = s.
Proof.
  unfold clean_name_of. induction s as [|c s IH]; intros H; [reflexivity|].
  cbn [all_chars] in H. apply andb_true_iff in H. destruct H as [Hc Hs].
  assert (K : (isalnum c || Ascii.eqb c "_" || Ascii.eqb c "-") = true
              /\ upper_char c = c).
  { unfold name_char, isupper, isdigit in Hc. unfold isalnum, isdigit, upper_char.
    destruct (Ascii.eqb_spec c "_") as [->|_]; [split; reflexivity|].
    rewrite orb_false_r in Hc.
    destruct (Z.leb_spec 48 (code c)), (Z.leb_spec (code c) 57),
             (Z.leb_spec 65 (code c)), (Z.leb_spec (code c) 90),
             (Z.leb_spec 97 (code c)), (Z.leb_spec (code c) 122);
      simpl in *; try discriminate; try lia; split; reflexivity. }
  destruct K as [K1 K2]. cbn [filter]. rewrite K1. cbn [upper].
  rewrite K2. f_equal. exact (IH Hs).
Qed.

Lemma str_length (z : Z) :
  1 <= z <= 999 ->
  (1 <= String.length (str z) <= 3)%nat /\ all_chars isdigit (str z) = true.
Proof.
  intros H. unfold str. destruct (Z.ltb_spec z 0) as [N|_]; [lia|].
  split; [|apply digits_value; lia].
  unfold digits. split.
  - pose proof (digits_aux_length_ge (S (Z.to_nat (Z.log2 z))) z EmptyString 0
                  ltac:(lia) ltac:(simpl; lia)). lia.
  - pose proof (digits_aux_length_le (S (Z.to_nat (Z.log2 z))) z EmptyString 3
                  ltac:(lia) ltac:(change (10 ^ Z.of_nat 3) with 1000; lia)) as L.
    change (String.length EmptyString) with 0%nat in L. lia.
Qed.

Lemma all_chars_weaken (f g : ascii -> bool) (s : string) :
  (forall c, f c = true -> g c = true) ->
  all_chars f s = true -> all_chars g s = true.
Proof.
  intros W. induction s as [|c s IH]; [reflexivity|]. cbn [all_chars].
  intros H. apply andb_true_iff in H. destruct H as [Hc Hs].
  now rewrite (W c Hc), (IH Hs).
Qed.

Lemma words_shape :
  forallb (fun s => all_chars isupper s && Nat.leb 4 (String.length s)
                    && Nat.leb (String.length s) 9) prefixes = true
  /\ forallb (fun s => all_chars isupper s && Nat.leb 3 (String.length s)
                       && Nat.leb (String.length s) 13) suffixes = true.
Proof. split; vm_compute; reflexivity. Qed.

Lemma choice_in {A : Type} (l : list A) (default : A) (r : Z) :
  l <> [] -> In (nth (Z.to_nat (r mod Z.of_nat (List.length l))) l default) l.
Proof.
  intros H. apply nth_In.
  assert (0 < Z.of_nat (List.length l)) by (destruct l; [congruence | simpl; lia]).
  pose proof (Z.mod_pos_bound r (Z.of_nat (List.length l)) ltac:(lia)). lia.
Qed.

(** X11.  [generate_random_constellation_name] never raises, makes three draws
    and reads no clock.  Its result has 10 to 27 characters, all of them
    capital letters, digits or underscores, so the cleaning that
    [generate_constellation_tle] applies to a constellation name leaves it
    as it is. *)
Theorem random_constellation_name_is_clean (w : world) :
  exists name w',
    generate_random_constellation_name w = Ok (name, w')
    /\ now_calls w' = now_calls w
    /\ draws w' = (draws w + 3)%nat
    /\ (10 <= String.length name <= 27)%nat
    /\ all_chars name_char name = true
    /\ clean_name_of name = name.
Proof.
  eexists _, _. split.
  { cbv beta iota zeta delta [generate_random_constellation_name bind ret choice
                                randint draw].
    cbn [clock entropy now_calls draws]. reflexivity. }
  cbn [now_calls draws].
  set (e0 := entropy w (draws w)). set (e1 := entropy w (S (draws w))).
  set (e2 := entropy w (S (S (draws w)))).
  set (prefix := nth _ prefixes EmptyString).
  set (suffix := nth _ suffixes EmptyString).
  set (number := 1 + e2 mod (999 - 1 + 1)).
  destruct words_shape as [WP WS].
  assert (IP : In prefix prefixes) by (apply choice_in; discriminate).
  assert (IS : In suffix suffixes) by (apply choice_in; discriminate).
  pose proof (proj1 (forallb_forall _ _) WP _ IP) as SP.
  pose proof (proj1 (forallb_forall _ _) WS _ IS) as SS. cbv beta in SP, SS.
  apply andb_true_iff in SP. destruct SP as [SP P9].
  apply andb_true_iff in SP. destruct SP as [PU P4].
  apply andb_true_iff in SS. destruct SS as [SS S13].
  apply andb_true_iff in SS. destruct SS as [SU S3].
  apply Nat.leb_le in P9, P4, S13, S3.
  assert (HN : 1 <= number <= 999).
  { unfold number. pose proof (Z.mod_pos_bound e2 (999 - 1 + 1) ltac:(lia)). lia. }
  destruct (str_length number HN) as [NL ND].
  assert (A : all_chars name_char (prefix ++ "_" ++ suffix ++ "_" ++ str number) = true).
  { assert (AP : all_chars name_char prefix = true).
    { apply (all_chars_weaken isupper); [|exact PU].
      intros c Hc. unfold name_char. now rewrite Hc. }
    assert (AS : all_chars name_char suffix = true).
    { apply (all_chars_weaken isupper); [|exact SU].
      intros c Hc. unfold name_char. now rewrite Hc. }
    assert (AN : all_chars name_char (str number) = true).
    { apply (all_chars_weaken isdigit); [|exact ND].
      intros c Hc. unfold name_char. rewrite Hc. now rewrite orb_true_r. }
    rewrite !all_chars_append, AP, AS, AN. reflexivity. }
  split; [reflexivity|]. split; [lia|]. split.
  { rewrite !length_append. simpl String.length. lia. }
  split; [exact A | exact (clean_name_fixed _ A)].
Qed.

Lemma random_parameters_closed (w : world) :
  get_random_parameters w
  = Ok (let num_planes :=
          nth (Z.to_nat (entropy w (S (S (draws w)))
                         mod Z.of_nat (List.length plane_options))) plane_options 0 in
        let sats_per_plane := 1 + entropy w (S (S (S (draws w)))) mod (20 - 1 + 1) in
        ((40 + entropy w (draws w) mod (120 - 40 + 1)) * 10,
         nth (Z.to_nat (entropy w (S (draws w))
                        mod Z.of_nat (List.length inclinations))) inclinations 0%float,
         num_planes,
         sats_per_plane,
         1 + entropy w (S (S (S (S (draws w)))))
             mod (Z.min (num_planes * sats_per_plane) 500 - 1 + 1)),
        {| clock := clock w; entropy := entropy w; now_calls := now_calls w;
           draws := S (S (S (S (S (draws w))))) |}).
Proof. reflexivity. Qed.

Lemma options_shape :
  forallb (fun P => (6 <=? P) && (P <=? 288)) plane_options = true
  /\ forallb (fun i => (0 <=? i)%float && (i <=? 180)%float) inclinations = true.
Proof. split; vm_compute; reflexivity. Qed.

Lemma random_parameters_ranges (w : world) (altitude : Z) (inclination : float)
    (num_planes sats_per_plane walker_F : Z) (w' : world) :
  get_random_parameters w
  = Ok ((altitude, inclination, num_planes, sats_per_plane, walker_F), w') ->
  (400 <= altitude <= 1200 /\ altitude mod 10 = 0)
  /\ (In inclination inclinations
      /\ (0 <=? inclination)%float = true /\ (inclination <=? 180)%float = true)
  /\ (In num_planes plane_options /\ 6 <= num_planes <= 288)
  /\ 1 <= sats_per_plane <= 20
  /\ (1 <= walker_F <= 500 /\ walker_F <= num_planes * sats_per_plane)
  /\ now_calls w' = now_calls w
  /\ draws w' = (draws w + 5)%nat.
Proof.
  rewrite random_parameters_closed. cbv zeta. intros H.
  match type of H with
  | Ok (?a, ?i, ?p, ?s, ?f, ?v) = _ =>
      assert (E1 : altitude = a) by congruence;
      assert (E2 : inclination = i) by congruence;
      assert (E3 : num_planes = p) by congruence;
      assert (E4 : sats_per_plane = s) by congruence;
      assert (E5 : walker_F = f) by congruence;
      assert (E6 : w' = v) by congruence
  end.
  clear H. subst altitude inclination num_planes sats_per_plane walker_F w'.
  destruct options_shape as [OP OI].
  match goal with |- context [nth ?i plane_options 0] =>
    assert (IP : In (nth i plane_options 0) plane_options)
      by (apply choice_in; discriminate);
    set (P := nth i plane_options 0) in * end.
  match goal with |- context [nth ?i inclinations 0%float] =>
    assert (II : In (nth i inclinations 0%float) inclinations)
      by (apply choice_in; discriminate);
    set (inc := nth i inclinations 0%float) in * end.
  pose proof (proj1 (forallb_forall _ _) OP _ IP) as BP.
  pose proof (proj1 (forallb_forall _ _) OI _ II) as BI. cbv beta in BP, BI.
  apply andb_true_iff in BP. destruct BP as [P6 P288].
  apply Z.leb_le in P6, P288.
  apply andb_true_iff in BI. destruct BI as [I0 I180].
  pose proof (Z.mod_pos_bound (entropy w (draws w)) (120 - 40 + 1) ltac:(lia)) as B0.
  pose proof (Z.mod_pos_bound (entropy w (S (S (S (draws w))))) (20 - 1 + 1)
                ltac:(lia)) as B3.
  set (S0 := 1 + entropy w (S (S (S (draws w)))) mod (20 - 1 + 1)) in *.
  assert (HM : 1 <= Z.min (P * S0) 500 <= 500) by nia.
  pose proof (Z.mod_pos_bound (entropy w (S (S (S (S (draws w))))))
                (Z.min (P * S0) 500 - 1 + 1) ltac:(lia)) as B4.
  cbn [now_calls draws].
  split; [split; [lia|]|].
  { apply Z.mod_mul. lia. }
  split; [auto|]. split; [split; [exact IP | lia]|].
  split; [lia|]. split; [split; lia|]. split; lia.
Qed.

(** X12.  [get_random_parameters] never raises and makes five draws.  What it
    returns lies within the bounds of the input widgets (200 to 2000 km in
    steps of 10, 0 to 180 degrees, 1 to 500 planes, 1 to 50 satellites per
    plane, phasing 0 to 1000): an altitude of 400 to 1200 km on the step
    grid, one of the seven listed inclinations, one of the listed plane
    counts (6 to 288), 1 to 20 satellites per plane, and a phasing
    parameter from 1 to the smaller of 500 and the number of satellites. *)
Theorem random_parameters_fit_the_widgets (w : world) :
  exists altitude inclination num_planes sats_per_plane walker_F w',
    get_random_parameters w
    = Ok ((altitude, inclination, num_planes, sats_per_plane, walker_F), w')
    /\ (400 <= altitude <= 1200 /\ (altitude - 200) mod 10 = 0)
    /\ (In inclination inclinations
        /\ (0 <=? inclination)%float = true /\ (inclination <=? 180)%float = true)
    /\ (In num_planes plane_options /\ 6 <= num_planes <= 288)
    /\ 1 <= sats_per_plane <= 20
    /\ (1 <= walker_F <= 500 /\ walker_F <= num_planes * sats_per_plane)
    /\ now_calls w' = now_calls w
    /\ draws w' = (draws w + 5)%nat.
Proof.
  pose proof (random_parameters_closed w) as C. cbv zeta in C.
  eexists _, _, _, _, _, _. split; [exact C|].
  destruct (random_parameters_ranges w _ _ _ _ _ _ C)
    as ((A1 & A2) & I & (P1 & P2) & S1 & (F1 & F2) & N & D).
  split.
  { split; [lia|].
    match goal with |- (?a - 200) mod 10 = 0 =>
      replace (a - 200) with (a + (-20) * 10) by lia end.
    rewrite Z.mod_add by lia. exact A2. }
  split; [exact I|]. split; [split; [exact P1 | lia]|].
  split; [lia|]. split; [lia|]. split; assumption.
Qed.

(** X13.  A run on parameters drawn by [get_random_parameters] never raises and
    returns at most 5760 satellites; their NORAD ids stay below 95760, so
    each is written with exactly five digits, in columns 3 to 7 of both
    lines. *)
Theorem random_parameters_give_five_digit_ids
    (w w1 : world) (altitude : Z) (inclination : float)
    (num_planes sats_per_plane walker_F : Z) (constellation_name : string) :
  get_random_parameters w
  = Ok ((altitude, inclination, num_planes, sats_per_plane, walker_F), w1) ->
  exists lines data w2,
    generate_constellation_tle (of_int altitude) inclination num_planes
      sats_per_plane walker_F constellation_name w1 = Ok (lines, data, w2)
    /\ List.length lines = (3 * Z.to_nat (num_planes * sats_per_plane))%nat
    /\ ConstellationData.total_satellites data <= 5760
    /\ forall (k : nat) (row : SatData.t),
         (k < Z.to_nat (num_planes * sats_per_plane))%nat ->
         let id := SatData.norad_id
                     (nth k (ConstellationData.satellite_data data) row) in
         10000 <= id < 95760
         /\ String.length (format_0d 5 id) = 5%nat
         /\ take 5 (drop 2 (nth (3 * k + 1) lines EmptyString)) = format_0d 5 id
         /\ take 5 (drop 2 (nth (3 * k + 2) lines EmptyString)) = format_0d 5 id.
Proof.
  intros H.
  destruct (random_parameters_ranges w _ _ _ _ _ _ H)
    as ((A1 & A2) & I & (P1 & P2) & S1 & (F1 & F2) & N & D).
  destruct (kepler_defined_in_range altitude ltac:(lia)) as (n & Hn & _).
  assert (Hd : int_truediv 360 num_planes = Ok (quotient 360 num_planes))
    by (apply int_truediv_360; lia).
  assert (Hu : int_truediv (walker_F * 360) (num_planes * sats_per_plane)
               = Ok (quotient (walker_F * 360) (num_planes * sats_per_plane))).
  { apply int_truediv_defined; [nia|].
    assert (K : 360000 < 2 ^ 1000) by (apply Z.ltb_lt; vm_compute; reflexivity).
    set (t := 2 ^ 1000) in *. lia. }
  eexists _, _, _. split; [exact (generate_returns _ _ _ _ _ _ _ _ _ _ Hn Hd Hu)|].
  rewrite <- (total_of_product num_planes sats_per_plane) by lia.
  split; [apply lines_length|].
  cbn [ConstellationData.satellite_data ConstellationData.total_satellites data_of].
  split; [nia|].
  intros k row Hk. cbv zeta.
  rewrite (table_at num_planes sats_per_plane constellation_name _ _ w1 k row Hk).
  cbn [SatData.norad_id record_at].
  destruct (lines_at inclination num_planes sats_per_plane constellation_name
              n (quotient 360 num_planes)
              (quotient (walker_F * 360) (num_planes * sats_per_plane))
              w1 k EmptyString Hk) as (_ & -> & ->).
  pose proof (drawn_base_range w1) as B.
  assert (Hid : 10000 <= drawn_base w1 + Z.of_nat k < 95760).
  { rewrite total_of_product in Hk by lia. nia. }
  set (id := drawn_base w1 + Z.of_nat k) in *.
  assert (L5 : String.length (format_0d 5 id) = 5%nat).
  { apply format_0d_length; [lia|]. change (10 ^ Z.of_nat 5) with 100000. lia. }
  split; [exact Hid|]. split; [exact L5|].
  unfold line1_at, line2_at, line1_fields, line2_fields.
  destruct (launch_at (loop_entry w1) k) as [[ly ln] lp].
  fold id.
  split.
  - match goal with |- context [seal ("1 " ++ format_0d 5 id ++ ?rest)] =>
      pose proof (seal_window "1 " (format_0d 5 id) rest) as W end.
    rewrite L5 in W. apply W. simpl. lia.
  - match goal with |- context [seal ("2 " ++ format_0d 5 id ++ ?rest)] =>
      pose proof (seal_window "2 " (format_0d 5 id) rest) as W end.
    rewrite L5 in W. apply W. simpl. lia.
Qed.

Lemma random_parameters_give_five_digit_ids_witness :
  exists altitude inclination num_planes sats_per_plane walker_F w1 lines data w2,
    get_random_parameters demo_world
    = Ok ((altitude, inclination, num_planes, sats_per_plane, walker_F), w1)
    /\ generate_constellation_tle (of_int altitude) inclination num_planes
         sats_per_plane walker_F "X" w1 = Ok (lines, data, w2)
    /\ List.length lines = (3 * Z.to_nat (num_planes * sats_per_plane))%nat.
Proof.
  pose proof (random_parameters_closed demo_world) as C. cbv zeta in C.
  destruct (random_parameters_give_five_digit_ids _ _ _ _ _ _ _ "X" C)
    as (lines & data & w2 & H & L & _).
  eexists _, _, _, _, _, _, lines, data, w2.
  split; [exact C|]. split; [exact H | exact L].
Defined.

(** ** The launch designator in line 1 *)

Lemma launch_at_ranges (w : world) (j : nat) :
  let '(launch_year, launch_number, launch_piece) := launch_at w j in
  (exists back, 0 <= back <= 4
                /\ launch_year = (year (clock w (now_calls w + j)) - back) mod 100)
  /\ 1 <= launch_number <= 999
  /\ In launch_piece pieces.
Proof.
  unfold launch_at. cbv zeta.
  set (cy := year (clock w (now_calls w + j))).
  set (d := (draws w + 3 * j)%nat).
  assert (L5 : List.length (range (cy - 4) (cy + 1)) = 5%nat)
    by (rewrite range_length; lia).
  pose proof (Z.mod_pos_bound (entropy w d) 5 ltac:(lia)) as B0.
  pose proof (Z.mod_pos_bound (entropy w (S d)) (999 - 1 + 1) ltac:(lia)) as B1.
  split; [|split; [lia|]].
  - exists (4 - entropy w d mod 5). split; [lia|].
    rewrite L5. change (Z.of_nat 5) with 5. rewrite range_nth by lia.
    f_equal. lia.
  - apply choice_in. discriminate.
Qed.

(** X14.  The launch designator of a satellite is drawn when the satellite is
    produced, from a clock reading of its own: for the [k]-th satellite
    (counted from 0) the launch year is one of the five years ending with
    the year of reading [k + 1] after the epoch reading, not with the
    epoch year.  With a NORAD id of five digits, columns 10 to 17 of line 1
    hold the two digits of that year, a launch number of 001 to 999 and a
    piece of one or two capital letters padded to three columns. *)
Theorem launch_designator_follows_a_later_clock_reading
    (altitude inclination : float) (num_planes sats_per_plane walker_F : Z)
    (constellation_name : string) (w w' : world)
    (lines : list string) (data : ConstellationData.t) :
  generate_constellation_tle altitude inclination num_planes sats_per_plane
    walker_F constellation_name w = Ok (lines, data, w') ->
  forall k, (k < total_of num_planes sats_per_plane)%nat ->
    drawn_base w + Z.of_nat k < 100000 ->
    exists back launch_number launch_piece,
      0 <= back <= 4
      /\ 1 <= launch_number <= 999
      /\ In launch_piece pieces
      /\ take 8 (drop 9 (nth (3 * k + 1) lines EmptyString))
         = format_0d 2 ((year (clock w (now_calls w + 1 + k)) - back) mod 100)
           ++ format_0d 3 launch_number ++ ljust 3 launch_piece.
Proof.
  intros H k Hk Hid.
  destruct (generate_inv _ _ _ _ _ _ _ _ _ _ H)
    as (n & d & u & _ & _ & _ & -> & _).
  destruct (lines_at inclination num_planes sats_per_plane constellation_name
              n d u w k EmptyString Hk) as (_ & -> & _).
  unfold line1_at.
  pose proof (launch_at_widths (loop_entry w) k) as W.
  pose proof (launch_at_ranges (loop_entry w) k) as R.
  destruct (launch_at (loop_entry w) k) as [[ly ln] lp].
  destruct W as (W2 & W3 & WP). destruct R as ((back & Hb & ->) & Hn & Hp).
  exists back, ln, lp. split; [exact Hb|]. split; [exact Hn|]. split; [exact Hp|].
  replace (now_calls w + 1 + k)%nat with (now_calls (loop_entry w) + k)%nat
    by (unfold loop_entry; cbn [now_calls]; lia).
  set (yy := format_0d 2 _) in *.
  pose proof (drawn_base_range w) as B.
  set (id := drawn_base w + Z.of_nat k) in *.
  assert (L5 : String.length (format_0d 5 id) = 5%nat).
  { apply format_0d_length; [lia|]. change (10 ^ Z.of_nat 5) with 100000. lia. }
  set (epoch_str := epoch_str_of _ _).
  set (pre := "1 " ++ format_0d 5 id ++ "U ").
  set (mid := yy ++ format_0d 3 ln ++ ljust 3 lp).
  assert (LP : String.length pre = 9%nat)
    by (unfold pre; rewrite !length_append, L5; reflexivity).
  assert (LM : String.length mid = 8%nat)
    by (unfold mid; rewrite !length_append, W2, W3, WP; reflexivity).
  assert (F : line1_fields id
                ((year (clock (loop_entry w) (now_calls (loop_entry w) + k)) - back)
                 mod 100) ln lp epoch_str
              = pre ++ mid ++ " " ++ epoch_str ++ " "
                ++ " .00000000  00000+0  00000-0 0  9999").
  { unfold line1_fields, pre, mid. fold yy. rewrite !append_assoc. reflexivity. }
  rewrite F. rewrite <- LP, <- LM. apply seal_window. rewrite LP, LM. lia.
Qed.

Lemma launch_designator_follows_a_later_clock_reading_witness :
  exists back launch_number launch_piece,
    0 <= back <= 4
    /\ 1 <= launch_number <= 999
    /\ In launch_piece pieces
    /\ take 8 (drop 9 (nth (3 * 1 + 1) demo_lines EmptyString))
       = format_0d 2 ((year (clock demo_world (now_calls demo_world + 1 + 1)) - back)
                      mod 100)
         ++ format_0d 3 launch_number ++ ljust 3 launch_piece.
Proof.
  refine (launch_designator_follows_a_later_clock_reading
            _ _ _ _ _ _ _ _ _ _ demo_run 1%nat _ _).
  - vm_compute. lia.
  - vm_compute. reflexivity.
Defined.
